(** * ai-catalog: duplicate detection and batch classification

  A shallow embedding of the parts of the repository that decide its
  specification: the PostgreSQL-backed duplicate dictionary of
  [database.py], the hash-key generator, name normaliser and duplicate
  resolver of [classify.py], and the Claude-backed classifier, product
  store and batch loop of [mro_classifier.py], [database_mro.py] and
  [batch_processor.py]. Around them it covers the group summaries of
  [database.py], the statistics of [database_mro.py], the processing of
  chosen products of [batch_processor.py], the batching of
  [process_products.py] and the tables and lookups of [taxonomy.py].

  Conventions.
  - A Python [str] is a [string]; its characters are read as the code
    points U+0000..U+00FF.
  - A Python [float] is an IEEE-754 binary64 number, computed with the
    operations of [SpecFloat] at precision 53.
  - A table with a primary key is a [gmap] from the key to the row; a
    table read with aggregates or [ORDER BY id] is an id-ordered list.
  - A Python [dict] that is iterated is an association list in insertion
    order.
  - SQL statements are assumed to execute (no connection or constraint
    failure); identifiers and counters are unbounded integers. *)

From Stdlib Require Import ZArith Strings.String Strings.Ascii List Bool.
From Stdlib Require Import Floats.SpecFloat DecimalString.
From stdpp Require Import gmap strings list.
Import ListNotations.

Local Open Scope Z_scope.
Local Open Scope string_scope.


(** ** Python strings *)

Module PyStr.

Definition code (c : ascii) : N := N_of_ascii c.
Definition chr (n : N) : ascii := ascii_of_N n.

Definition between (lo hi : N) (c : ascii) : bool :=
  (N.leb lo (code c) && N.leb (code c) hi)%bool.

(** [str.isspace] on U+0000..U+00FF. *)
Definition isspace (c : ascii) : bool :=
  (between 9 13 c || between 28 32 c
   || N.eqb (code c) 133 || N.eqb (code c) 160)%bool.

(** [\d]: the decimal digits below U+0100 are the ASCII ones. *)
Definition isdigit (c : ascii) : bool := between 48 57 c.

(** [\w]: alphanumeric or underscore. Besides the letters and digits
    of ASCII, the range holds the letters U+00AA, U+00B5, U+00BA,
    U+00C0..U+00FF without the two signs U+00D7 and U+00F7, and the
    numeric characters U+00B2, U+00B3, U+00B9, U+00BC..U+00BE. *)
Definition isword (c : ascii) : bool :=
  (between 48 57 c || between 65 90 c || between 97 122 c
   || N.eqb (code c) 95
   || N.eqb (code c) 170 || N.eqb (code c) 181 || N.eqb (code c) 186
   || N.eqb (code c) 178 || N.eqb (code c) 179 || N.eqb (code c) 185
   || between 188 190 c
   || (between 192 255 c
       && negb (N.eqb (code c) 215) && negb (N.eqb (code c) 247)))%bool.

(** [str.lower], one character: A-Z, and U+00C0..U+00DE without the
    multiplication sign, move up by 32. *)
Definition lower_char (c : ascii) : ascii :=
  if (between 65 90 c
      || (between 192 222 c && negb (N.eqb (code c) 215)))%bool
  then chr (code c + 32)
  else c.

Fixpoint lower (s : string) : string :=
  match s with
  | EmptyString => EmptyString
  | String c t => String (lower_char c) (lower t)
  end.

(** The base letter that is left of a character when it is decomposed
    (NFD) and the combining marks (category Mn) are dropped. Below
    U+0100 the canonical decompositions are those of the accented
    letters; no character of the range is itself a combining mark. *)
Definition strip_mark (c : ascii) : ascii :=
  let n := code c in
  if between 192 197 c then "A"%char
  else if N.eqb n 199 then "C"%char
  else if between 200 203 c then "E"%char
  else if between 204 207 c then "I"%char
  else if N.eqb n 209 then "N"%char
  else if between 210 214 c then "O"%char
  else if between 217 220 c then "U"%char
  else if N.eqb n 221 then "Y"%char
  else if between 224 229 c then "a"%char
  else if N.eqb n 231 then "c"%char
  else if between 232 235 c then "e"%char
  else if between 236 239 c then "i"%char
  else if N.eqb n 241 then "n"%char
  else if between 242 246 c then "o"%char
  else if between 249 252 c then "u"%char
  else if (N.eqb n 253 || N.eqb n 255)%bool then "y"%char
  else c.

(** [''.join(c for c in unicodedata.normalize('NFD', s)
    if unicodedata.category(c) != 'Mn')] *)
Fixpoint strip_accents (s : string) : string :=
  match s with
  | EmptyString => EmptyString
  | String c t => String (strip_mark c) (strip_accents t)
  end.

(** [s[:n]] for [n >= 0]. *)
Fixpoint take (n : nat) (s : string) : string :=
  match n, s with
  | S k, String c t => String c (take k t)
  | _, _ => EmptyString
  end.

Fixpoint drop (n : nat) (s : string) : string :=
  match n, s with
  | S k, String _ t => drop k t
  | _, _ => s
  end.

Fixpoint lstrip (s : string) : string :=
  match s with
  | String c t => if isspace c then lstrip t else s
  | EmptyString => EmptyString
  end.

(** [rstrip]: a character stays when it is not a space or something
    stays after it. *)
Fixpoint rstrip (s : string) : string :=
  match s with
  | EmptyString => EmptyString
  | String c t =>
      match rstrip t with
      | EmptyString => if isspace c then EmptyString else String c EmptyString
      | t' => String c t'
      end
  end.

(** [s.strip()] *)
Definition strip (s : string) : string := rstrip (lstrip s).

(** [s.split()]: the maximal runs of non-space characters. [word] is
    the run being read, reversed. *)
Fixpoint split_aux (word : list ascii) (s : string) : list string :=
  let flush rest :=
    match word with
    | [] => rest
    | _ => string_of_list_ascii (rev word) :: rest
    end in
  match s with
  | EmptyString => flush []
  | String c t =>
      if isspace c then flush (split_aux [] t)
      else split_aux (c :: word) t
  end.

Definition split (s : string) : list string := split_aux [] s.

(** [sep.join(l)] *)
Fixpoint join (sep : string) (l : list string) : string :=
  match l with
  | [] => EmptyString
  | [x] => x
  | x :: rest => x ++ sep ++ join sep rest
  end.

(** [s.startswith(p)] *)
Fixpoint startswith (p s : string) : bool :=
  match p, s with
  | EmptyString, _ => true
  | String a p', String b s' => Ascii.eqb a b && startswith p' s'
  | String _ _, EmptyString => false
  end.

(** [p in s] *)
Fixpoint contains (p s : string) : bool :=
  startswith p s ||
  match s with
  | EmptyString => false
  | String _ t => contains p t
  end.

(** [s.replace(old, new)] for a non-empty [old]: the occurrences are
    found from the left and do not overlap. [skip] counts the
    characters of an occurrence that are still to be passed over. *)
Fixpoint replace_aux (old new : string) (skip : nat) (s : string) : string :=
  match s with
  | EmptyString => EmptyString
  | String c t =>
      match skip with
      | S k => replace_aux old new k t
      | O =>
          if startswith old s
          then new ++ replace_aux old new (String.length old - 1) t
          else String c (replace_aux old new 0 t)
      end
  end.

Definition replace (old new s : string) : string := replace_aux old new 0 s.

(** [s.split(sep)] for a one-character separator. *)
Fixpoint split_on_aux (sep : ascii) (word : list ascii) (s : string)
    : list string :=
  match s with
  | EmptyString => [string_of_list_ascii (rev word)]
  | String c t =>
      if Ascii.eqb c sep
      then string_of_list_ascii (rev word) :: split_on_aux sep [] t
      else split_on_aux sep (c :: word) t
  end.

Definition split_on (sep : ascii) (s : string) : list string :=
  split_on_aux sep [] s.

(** The order of [str]: by code point, a prefix first. *)
Fixpoint ltb (a b : string) : bool :=
  match a, b with
  | _, EmptyString => false
  | EmptyString, String _ _ => true
  | String x a', String y b' =>
      if N.ltb (code x) (code y) then true
      else if N.ltb (code y) (code x) then false
      else ltb a' b'
  end.

(** [sorted(l)], by insertion; equal strings are indistinguishable, so
    stability is not visible. *)
Fixpoint insert_sorted (x : string) (l : list string) : list string :=
  match l with
  | [] => [x]
  | y :: rest => if ltb y x then y :: insert_sorted x rest else x :: l
  end.

Definition sorted (l : list string) : list string :=
  fold_right insert_sorted [] l.

(** The distinct elements of a list, each at its first position. *)
Fixpoint distinct (l : list string) : list string :=
  match l with
  | [] => []
  | x :: rest =>
      x :: List.filter (fun y => negb (String.eqb x y)) (distinct rest)
  end.

(** [s.encode()]: UTF-8; a code point from U+0080 takes two bytes. *)
Fixpoint encode (s : string) : list N :=
  match s with
  | EmptyString => []
  | String c t =>
      let n := code c in
      if N.ltb n 128 then n :: encode t
      else N.lor 192 (N.shiftr n 6) :: N.lor 128 (N.land n 63) :: encode t
  end.

(** A string from code points, for characters outside ASCII. *)
Definition of_codes (l : list N) : string :=
  string_of_list_ascii (map chr l).

End PyStr.

(** ** Python floats *)

Module Float64.

Definition float : Type := spec_float.

Definition prec : Z := 53.
Definition emax : Z := 1024.

(** [float(n)] for an integer [n], rounded to nearest even. *)
Definition of_Z (z : Z) : float := binary_normalize prec emax z 0 false.

Definition add : float -> float -> float := SFadd prec emax.
Definition mul : float -> float -> float := SFmul prec emax.
Definition div : float -> float -> float := SFdiv prec emax.

(** [x < y] and [x <= y]. *)
Definition ltb : float -> float -> bool := SFltb.
Definition leb : float -> float -> bool := SFleb.

(** The literal [m * 10^-p], e.g. [dec 85 2] for [0.85]: both operands
    of the division are exact, so the quotient is the double nearest to
    the decimal, which is what the Python parser produces. *)
Definition dec (m : Z) (p : N) : float := div (of_Z m) (of_Z (10 ^ Z.of_N p)).

(** The double nearest to the ratio [m / n] of two integers. *)
Definition of_ratio (m n : positive) : float :=
  let '(q, e, l) := SFdiv_core_binary prec emax (Zpos m) 0 (Zpos n) 0 in
  binary_round_aux prec emax false q e l.

Definition digit_value (c : ascii) : option Z :=
  let n := Z.of_N (N_of_ascii c) in
  if Z.leb 48 n && Z.leb n 57 then Some (n - 48) else None.

(** Reads [digits], [digits.], [.digits] or [digits.digits]: the digits
    as one integer, and how many of them follow the dot. *)
Fixpoint read_decimal (s : string) (seen_dot : bool) (acc : Z)
    (ndigits frac : N) : option (Z * N) :=
  match s with
  | EmptyString => if N.eqb ndigits 0 then None else Some (acc, frac)
  | String c t =>
      match digit_value c with
      | Some d =>
          read_decimal t seen_dot (10 * acc + d) (ndigits + 1)
                       (if seen_dot then frac + 1 else frac)%N
      | None =>
          if Ascii.eqb c "." && negb seen_dot
          then read_decimal t true acc ndigits frac
          else None
      end
  end.

(** [float(s)] for the strings the code passes to it, which hold
    digits and dots only; [None] stands for the [ValueError]. *)
Definition of_string (s : string) : option float :=
  match read_decimal s false 0 0 0 with
  | Some (Zpos m, k) => Some (of_ratio m (Z.to_pos (10 ^ Z.of_N k)))
  | Some (_, _) => Some (S754_zero false)
  | None => None
  end.

Definition is_zero (x : float) : bool :=
  match x with
  | S754_zero _ => true
  | _ => false
  end.

(** [x / y]; [None] stands for the [ZeroDivisionError]. *)
Definition py_div (x y : float) : option float :=
  if is_zero y then None else Some (div x y).

(** The integer nearest to [num / den], ties to even, for [den > 0]. *)
Definition round_half_even (num den : Z) : Z :=
  let q := num / den in
  let r := num mod den in
  match Z.compare (2 * r) den with
  | Lt => q
  | Gt => q + 1
  | Eq => if Z.even q then q else q + 1
  end.

Definition decimal_of (n : Z) : string :=
  NilZero.string_of_uint (N.to_uint (Z.to_N n)).

Fixpoint zeros (n : nat) : string :=
  match n with
  | O => EmptyString
  | S k => String "0" (zeros k)
  end.

(** The digits of [n / 10^d] with [d] decimals, for [n >= 0]. *)
Definition fixed_digits (d : nat) (n : Z) : string :=
  let raw := decimal_of n in
  let digits := (zeros (S d - String.length raw) ++ raw)%string in
  let k := (String.length digits - d)%nat in
  match d with
  | O => digits
  | S _ => (PyStr.take k digits ++ String "." (PyStr.drop k digits))%string
  end.

Definition sign_of (s : bool) : string :=
  if s then "-"%string else EmptyString.

(** [format(x, '.<d>f')]: the exact value of the double, rounded to [d]
    decimals, ties to even. *)
Definition format_fixed (d : nat) (x : float) : string :=
  match x with
  | S754_nan => "nan"%string
  | S754_infinity s => (sign_of s ++ "inf")%string
  | S754_zero s => (sign_of s ++ fixed_digits d 0)%string
  | S754_finite s m e =>
      let scaled := Zpos m * 10 ^ Z.of_nat d in
      let n := if Z.leb 0 e then scaled * 2 ^ e
               else round_half_even scaled (2 ^ (- e)) in
      (sign_of s ++ fixed_digits d n)%string
  end.

End Float64.

Abbreviation float := Float64.float.

(** ** hashlib.md5 (RFC 1321) *)

Module MD5.

Definition mask32 : Z := 4294967295.

Definition add32 (a b : Z) : Z := Z.land (a + b) mask32.
Definition not32 (a : Z) : Z := Z.lxor a mask32.
Definition rotl32 (x c : Z) : Z :=
  Z.lor (Z.land (Z.shiftl x c) mask32) (Z.shiftr x (32 - c)).

Definition shifts : list Z :=
  [ 7; 12; 17; 22; 7; 12; 17; 22; 7; 12; 17; 22; 7; 12; 17; 22;
    5; 9; 14; 20; 5; 9; 14; 20; 5; 9; 14; 20; 5; 9; 14; 20;
    4; 11; 16; 23; 4; 11; 16; 23; 4; 11; 16; 23; 4; 11; 16; 23;
    6; 10; 15; 21; 6; 10; 15; 21; 6; 10; 15; 21; 6; 10; 15; 21 ].

(** [floor(2^32 * abs(sin(i + 1)))] *)
Definition sines : list Z :=
  [ 3614090360; 3905402710; 606105819; 3250441966;
    4118548399; 1200080426; 2821735955; 4249261313;
    1770035416; 2336552879; 4294925233; 2304563134;
    1804603682; 4254626195; 2792965006; 1236535329;
    4129170786; 3225465664; 643717713; 3921069994;
    3593408605; 38016083; 3634488961; 3889429448;
    568446438; 3275163606; 4107603335; 1163531501;
    2850285829; 4243563512; 1735328473; 2368359562;
    4294588738; 2272392833; 1839030562; 4259657740;
    2763975236; 1272893353; 4139469664; 3200236656;
    681279174; 3936430074; 3572445317; 76029189;
    3654602809; 3873151461; 530742520; 3299628645;
    4096336452; 1126891415; 2878612391; 4237533241;
    1700485571; 2399980690; 4293915773; 2240044497;
    1873313359; 4264355552; 2734768916; 1309151649;
    4149444226; 3174756917; 718787259; 3951481745 ].

Definition word_state : Type := (Z * Z * Z * Z)%type.

Definition initial : word_state :=
  (1732584193, 4023233417, 2562383102, 271733878).

(** One of the 64 operations on a block of sixteen words. *)
Definition operation (block : list Z) (st : word_state) (i : Z) : word_state :=
  let '(a, b, c, d) := st in
  let '(f, g) :=
    if Z.ltb i 16 then
      (Z.lor (Z.land b c) (Z.land (not32 b) d), i)
    else if Z.ltb i 32 then
      (Z.lor (Z.land d b) (Z.land (not32 d) c), (5 * i + 1) mod 16)
    else if Z.ltb i 48 then
      (Z.lxor (Z.lxor b c) d, (3 * i + 5) mod 16)
    else
      (Z.lxor c (Z.lor b (not32 d)), (7 * i) mod 16) in
  let f' :=
    add32 (add32 (add32 f a) (nth (Z.to_nat i) sines 0))
          (nth (Z.to_nat g) block 0) in
  (d, add32 b (rotl32 f' (nth (Z.to_nat i) shifts 0)), b, c).

Definition add_state (x y : word_state) : word_state :=
  let '(a, b, c, d) := x in
  let '(a', b', c', d') := y in
  (add32 a a', add32 b b', add32 c c', add32 d d').

Definition indices : list Z := map Z.of_nat (seq 0 64).

Definition compress (st : word_state) (block : list Z) : word_state :=
  add_state st (fold_left (operation block) indices st).

(** Little-endian words of a list of bytes. *)
Fixpoint words_of (bytes : list Z) : list Z :=
  match bytes with
  | b0 :: b1 :: b2 :: b3 :: more =>
      (b0 + Z.shiftl b1 8 + Z.shiftl b2 16 + Z.shiftl b3 24) :: words_of more
  | _ => []
  end.

Definition bytes_of (w : Z) (n : nat) : list Z :=
  map (fun k => Z.land (Z.shiftr w (8 * Z.of_nat k)) 255) (seq 0 n).

(** The message, a one bit, zeros up to 56 modulo 64, and the length in
    bits on eight bytes. *)
Definition pad (msg : list Z) : list Z :=
  let len := Z.of_nat (length msg) in
  let nzeros := (55 - len) mod 64 in
  msg ++ [128] ++ repeat 0 (Z.to_nat nzeros)
      ++ bytes_of ((8 * len) mod 2 ^ 64) 8.

Fixpoint blocks (n : nat) (ws : list Z) : list (list Z) :=
  match n with
  | O => []
  | S k => firstn 16 ws :: blocks k (skipn 16 ws)
  end.

Definition digest_state (msg : list Z) : word_state :=
  let ws := words_of (pad msg) in
  fold_left compress (blocks (length ws / 16) ws) initial.

Definition hex_digit (n : Z) : ascii :=
  if Z.ltb n 10 then ascii_of_N (Z.to_N (48 + n))
  else ascii_of_N (Z.to_N (87 + n)).

Fixpoint hex_of (bytes : list Z) : string :=
  match bytes with
  | [] => EmptyString
  | b :: more =>
      String (hex_digit (Z.shiftr b 4))
             (String (hex_digit (Z.land b 15)) (hex_of more))
  end.

(** [hashlib.md5(bytes).hexdigest()] *)
Definition hexdigest (msg : list N) : string :=
  let '(a, b, c, d) := digest_state (map Z.of_N msg) in
  hex_of (bytes_of a 4 ++ bytes_of b 4 ++ bytes_of c 4 ++ bytes_of d 4).

End MD5.

(** ** Python regular expressions

  The patterns of the code are written as terms of [re]; [run] lists
  the ways a pattern can match at a position in the order in which the
  backtracking matcher of [re] tries them, so that its first element is
  the match that Python finds. *)

Module Regex.

Inductive re : Type :=
| Eps
| Chr (p : ascii -> bool)
| Seq (a b : re)
| Alt (a b : re)
| Star (a : re)
| Group (n : nat) (a : re)
| WordB.

(** [a+], [a?], [a{n}], a literal, and [w|w1|...]. *)
Definition Plus (a : re) : re := Seq a (Star a).
Definition Opt (a : re) : re := Alt a Eps.

Fixpoint Rep (n : nat) (a : re) : re :=
  match n with
  | O => Eps
  | S k => Seq a (Rep k a)
  end.

Fixpoint Lit (s : string) : re :=
  match s with
  | EmptyString => Eps
  | String c t => Seq (Chr (Ascii.eqb c)) (Lit t)
  end.

Fixpoint Words (w : string) (ws : list string) : re :=
  match ws with
  | [] => Lit w
  | w' :: rest => Alt (Lit w) (Words w' rest)
  end.

(** A position of the matcher: the character before it, the text from
    it on, and the groups captured so far, the latest first. *)
Record mstate : Type := mk_mstate {
  prev : option ascii;
  rest : string;
  caps : list (nat * string)
}.

Definition is_word_opt (c : option ascii) : bool :=
  match c with
  | Some x => PyStr.isword x
  | None => false
  end.

Definition next_char (s : string) : option ascii :=
  match s with
  | String c _ => Some c
  | EmptyString => None
  end.

(** [\b] *)
Definition at_boundary (st : mstate) : bool :=
  xorb (is_word_opt (prev st)) (is_word_opt (next_char (rest st))).

(** What was read between two positions of one text. *)
Definition consumed (st st' : mstate) : string :=
  PyStr.take (String.length (rest st) - String.length (rest st')) (rest st).

(** Greedy repetition: one more round first, then none. A round that
    reads nothing ends the repetition. *)
Fixpoint star (step : mstate -> list mstate) (fuel : nat) (st : mstate)
    : list mstate :=
  match fuel with
  | O => [st]
  | S k =>
      flat_map
        (fun st' =>
           if Nat.ltb (String.length (rest st')) (String.length (rest st))
           then star step k st'
           else [])
        (step st)
      ++ [st]
  end.

Fixpoint run (r : re) (st : mstate) : list mstate :=
  match r with
  | Eps => [st]
  | Chr p =>
      match rest st with
      | String c t => if p c then [mk_mstate (Some c) t (caps st)] else []
      | EmptyString => []
      end
  | Seq a b => flat_map (run b) (run a st)
  | Alt a b => run a st ++ run b st
  | Star a => star (run a) (String.length (rest st)) st
  | Group n a =>
      map (fun st' => mk_mstate (prev st') (rest st')
                        ((n, consumed st st') :: caps st'))
          (run a st)
  | WordB => if at_boundary st then [st] else []
  end.

(** A match: the text matched and the groups. *)
Record found : Type := mk_found {
  whole : string;
  groups : list (nat * string)
}.

(** [m.group(n)]; a group that took no part gives the empty string, as
    in [findall]. *)
Fixpoint group (n : nat) (gs : list (nat * string)) : string :=
  match gs with
  | [] => EmptyString
  | (k, v) :: more => if Nat.eqb k n then v else group n more
  end.

(** The match at a position, if there is one. *)
Definition match_at (r : re) (before : option ascii) (s : string)
    : option found :=
  let st := mk_mstate before s [] in
  match run r st with
  | st' :: _ => Some (mk_found (consumed st st') (caps st'))
  | [] => None
  end.

(** [re.finditer]: the matches from left to right, none overlapping
    another; [skip] counts the characters of the last match that are
    still to be passed over. *)
Fixpoint finditer_from (r : re) (skip : nat) (before : option ascii)
    (s : string) : list found :=
  match skip with
  | S k =>
      match s with
      | String c t => finditer_from r k (Some c) t
      | EmptyString => []
      end
  | O =>
      match match_at r before s with
      | Some m =>
          m :: match s with
               | String c t =>
                   finditer_from r (String.length (whole m) - 1) (Some c) t
               | EmptyString => []
               end
      | None =>
          match s with
          | String c t => finditer_from r 0 (Some c) t
          | EmptyString => []
          end
      end
  end.

Definition finditer (r : re) (s : string) : list found :=
  finditer_from r 0 None s.

(** [re.search] *)
Definition search (r : re) (s : string) : option found :=
  hd_error (finditer r s).

(** [re.sub(r, repl, s)] for a replacement without group references. *)
Fixpoint sub_from (r : re) (repl : string) (skip : nat)
    (before : option ascii) (s : string) : string :=
  match s with
  | EmptyString => EmptyString
  | String c t =>
      match skip with
      | S k => sub_from r repl k (Some c) t
      | O =>
          match match_at r before s with
          | Some m =>
              match String.length (whole m) with
              | O => repl ++ String c (sub_from r repl 0 (Some c) t)
              | S k => repl ++ sub_from r repl k (Some c) t
              end
          | None => String c (sub_from r repl 0 (Some c) t)
          end
      end
  end.

Definition sub (r : re) (repl : string) (s : string) : string :=
  sub_from r repl 0 None s.

(** Character classes. *)
Definition digit : re := Chr PyStr.isdigit.
Definition space : re := Chr PyStr.isspace.
Definition one_of (cs : string) : re :=
  Chr (fun c => PyStr.contains (String c EmptyString) cs).
Definition none_of (p : ascii -> bool) : re := Chr (fun c => negb (p c)).

End Regex.

(** ** database.py *)

Module Database.

(** A row of [duplicate_dictionary]; the primary key [hash_key] is the
    key of the map that holds the rows. [normalized_form] is never
    written by the code and [created_at] is a timestamp: both are left
    out. *)
Record dict_row : Type := mk_dict_row {
  duplicate_group_id : Z;
  key_type : string;
  confidence_weight : float;
  master_product_id : Z;
  hit_count : Z
}.

(** A row of [products_enhanced]. *)
Record product_row : Type := mk_product_row {
  row_id : Z;
  row_original_name : string;
  row_normalized_name : string;
  row_category_code : option string;
  row_category_name : option string;
  row_subcategory_code : option string;
  row_subcategory_name : option string;
  row_duplicate_group_id : option Z;
  row_is_master : bool;
  row_similarity_score : float;
  row_classification_confidence : float;
  row_needs_review : bool;
  row_gpt5_reasoning : option string;
  row_processing_batch_id : string;
  row_batch_position : Z
}.

(** The dict that travels from [classify_batch] through
    [detect_duplicates] to [save_product]; keys that may be absent are
    options. *)
Record product : Type := mk_product {
  id : Z;
  original_name : string;
  normalized_name : string;
  category_code : option string;
  category_name : option string;
  subcategory_code : option string;
  subcategory_name : option string;
  confidence : option float;
  reasoning : option string;
  hash_keys : list (string * string);
  product_group_id : option Z;
  similarity_score : option float;
  is_master : option bool
}.

(** The connection's view of the database. *)
Record db : Type := mk_db {
  products_enhanced : list product_row;
  products_enhanced_id_seq : Z;
  duplicate_dictionary : gmap string dict_row;
  hash_key_log : list (Z * list (string * string))
}.

(** [DUPLICATE_DETECTION_CONFIG]. *)
Definition key_weights : gmap string float :=
  <["exact" := Float64.of_Z 1]>
  (<["alpha" := Float64.dec 95 2]>
  (<["sorted" := Float64.dec 90 2]>
  (<["core" := Float64.dec 85 2]>
  (<["dim" := Float64.dec 85 2]>
  (<["phon" := Float64.dec 75 2]> ∅))))).

Definition duplicate_threshold : float := Float64.dec 85 2.
Definition batch_size : Z := 10.
Definition max_retries : Z := 3.
Definition retry_delay : Z := 2.

(** [key_weights.get(key_type, 0.5)] *)
Definition weight_of (weights : gmap string float) (kt : string) : float :=
  default (Float64.dec 5 1) (weights !! kt).

(** [SELECT duplicate_group_id, confidence_weight FROM
    duplicate_dictionary WHERE hash_key = %s AND key_type = %s],
    then [fetchone()]. *)
Definition select_binding (d : gmap string dict_row)
    (hash_key kt : string) : option dict_row :=
  match d !! hash_key with
  | Some r => if decide (key_type r = kt) then Some r else None
  | None => None
  end.

(** [UPDATE duplicate_dictionary SET hit_count = hit_count + 1
    WHERE hash_key = %s] *)
Definition bump (r : dict_row) : dict_row :=
  mk_dict_row (duplicate_group_id r) (key_type r) (confidence_weight r)
              (master_product_id r) (hit_count r + 1).

Definition update_hit_count (hash_key : string)
    (d : gmap string dict_row) : gmap string dict_row :=
  alter bump hash_key d.

(** The state of the loop of [check_duplicate_by_keys]. *)
Record scan_state : Type := mk_scan {
  scan_dict : gmap string dict_row;
  best_match : option Z;
  best_score : float
}.

(** One iteration of [for key_type, hash_key in hash_keys.items()]. *)
Definition check_step (weights : gmap string float)
    (st : scan_state) (item : string * string) : scan_state :=
  let '(kt, hash_key) := item in
  match select_binding (scan_dict st) hash_key kt with
  | Some result =>
      let score := weight_of weights kt in
      let d' := update_hit_count hash_key (scan_dict st) in
      if Float64.ltb (best_score st) score
      then mk_scan d' (Some (duplicate_group_id result)) score
      else mk_scan d' (best_match st) (best_score st)
  | None => st
  end.

(** Python truthiness of [best_match], which is [None] or an int. *)
Definition truthy (m : option Z) : bool :=
  match m with
  | Some g => negb (Z.eqb g 0)
  | None => false
  end.

(** [if best_match and best_score >= 0.85: return (best_match,
    best_score)] else [None]. *)
Definition verdict (st : scan_state) : option (Z * float) :=
  match best_match st with
  | Some g =>
      if truthy (best_match st) && Float64.leb (Float64.dec 85 2) (best_score st)
      then Some (g, best_score st)
      else None
  | None => None
  end.

(** [check_duplicate_by_keys]: the dictionary as the lookups leave it,
    and the returned value. *)
Definition check_duplicate_by_keys (hash_keys : list (string * string))
    (weights : gmap string float) (d : gmap string dict_row)
    : gmap string dict_row * option (Z * float) :=
  let st := fold_left (check_step weights) hash_keys
                      (mk_scan d None (Float64.of_Z 0)) in
  (scan_dict st, verdict st).

(** [INSERT INTO duplicate_dictionary (hash_key, duplicate_group_id,
    key_type, confidence_weight, master_product_id) VALUES (...)
    ON CONFLICT (hash_key) DO UPDATE SET hit_count =
    duplicate_dictionary.hit_count + 1]; a new row takes
    [hit_count]'s default 0. *)
Definition insert_or_bump (hash_key : string) (group : Z) (kt : string)
    (weight : float) (product_id : Z)
    (d : gmap string dict_row) : gmap string dict_row :=
  match d !! hash_key with
  | Some r => <[hash_key := bump r]> d
  | None => <[hash_key := mk_dict_row group kt weight product_id 0]> d
  end.

Definition register_step (product_id group : Z)
    (weights : gmap string float)
    (d : gmap string dict_row) (item : string * string)
    : gmap string dict_row :=
  let '(kt, hash_key) := item in
  insert_or_bump hash_key group kt (weight_of weights kt) product_id d.

(** [register_product_keys] *)
Definition register_product_keys (product_id : Z)
    (hash_keys : list (string * string)) (group : Z)
    (weights : gmap string float) (s : db) : db :=
  mk_db (products_enhanced s) (products_enhanced_id_seq s)
        (fold_left (register_step product_id group weights) hash_keys
                   (duplicate_dictionary s))
        (hash_key_log s ++ [(product_id, hash_keys)]).

(** [MAX(duplicate_group_id)] over [products_enhanced]: NULLs are
    skipped, and the aggregate of no value is NULL. *)
Definition max_group_id (rows : list product_row) : option Z :=
  fold_left
    (fun acc r =>
       match row_duplicate_group_id r, acc with
       | Some g, Some m => Some (Z.max m g)
       | Some g, None => Some g
       | None, _ => acc
       end)
    rows None.

(** [get_next_group_id]: [SELECT COALESCE(MAX(duplicate_group_id), 0)
    + 1 FROM products_enhanced]. The query writes nothing. *)
Definition get_next_group_id (s : db) : Z :=
  default 0 (max_group_id (products_enhanced s)) + 1.

(** [save_product]: the new row's id comes from the table's sequence;
    the result is the database and the returned id. *)
Definition save_product (p : product) (batch_id : string) (position : Z)
    (s : db) : db * Z :=
  let new_id := products_enhanced_id_seq s + 1 in
  let conf := default (Float64.of_Z 0) (confidence p) in
  let row :=
    mk_product_row new_id (original_name p) (normalized_name p)
      (category_code p) (category_name p)
      (subcategory_code p) (subcategory_name p)
      (product_group_id p)
      (default false (is_master p))
      (default (Float64.of_Z 1) (similarity_score p))
      conf
      (Float64.ltb conf (Float64.dec 8 1))
      (reasoning p) batch_id position in
  (mk_db (products_enhanced s ++ [row]) new_id
         (duplicate_dictionary s) (hash_key_log s),
   new_id).

End Database.

(** ** classify.py, and the saving loop of process_products.py *)

Module Classify.
Import Database.

(** *** Hash keys *)

Definition quote : string := PyStr.of_codes [34%N].

(** [\b(w|...)\b] *)
Definition bounded_words (w : string) (ws : list string) : Regex.re :=
  Regex.Seq Regex.WordB
    (Regex.Seq (Regex.Group 1 (Regex.Words w ws)) Regex.WordB).

Definition core_patterns : list Regex.re :=
  [ bounded_words "parafuso"
      ["porca"; "arruela"; "chave"; "ferramenta"; "oleo"; "graxa";
       "filtro"; "valvula"; "bomba"; "motor"];
    bounded_words "sextavado" ["allen"; "phillips"; "fenda"; "torx"];
    bounded_words "aco" ["inox"; "ferro"; "aluminio"; "plastico"; "borracha"];
    bounded_words "mm" ["cm"; "m"; "pol"; "polegada"; "litro"; "kg"; "g"] ].

(** [re.findall] for a pattern with one group: the group of each
    match. *)
Definition findall1 (r : Regex.re) (s : string) : list string :=
  map (fun m => Regex.group 1 (Regex.groups m)) (Regex.finditer r s).

(** [re.findall] for a pattern with two groups: the pair of groups of
    each match. *)
Definition findall2 (r : Regex.re) (s : string) : list (string * string) :=
  map (fun m => (Regex.group 1 (Regex.groups m), Regex.group 2 (Regex.groups m)))
      (Regex.finditer r s).

(** [_extract_core_terms]; the set is listed in the order in which its
    elements are first found. *)
Definition _extract_core_terms (text : string) : list string :=
  let text_lower := PyStr.lower text in
  PyStr.distinct
    (flat_map (fun pattern => findall1 pattern text_lower) core_patterns).

(** [\d+(?:[.,]\d+)?] *)
Definition number : Regex.re :=
  Regex.Seq (Regex.Plus Regex.digit)
    (Regex.Opt (Regex.Seq (Regex.one_of ".,") (Regex.Plus Regex.digit))).

(** [(\d+(?:[.,]\d+)?)\s*(mm|cm|m|pol|Q)], where [Q] stands for the
    double quote. *)
Definition dim_with_unit : Regex.re :=
  Regex.Seq (Regex.Group 1 number)
    (Regex.Seq (Regex.Star Regex.space)
       (Regex.Group 2 (Regex.Words "mm" ["cm"; "m"; "pol"; quote]))).

(** [(\d+(?:[.,]\d+)?)\s*x\s*(\d+(?:[.,]\d+)?)] *)
Definition dim_by_dim : Regex.re :=
  Regex.Seq (Regex.Group 1 number)
    (Regex.Seq (Regex.Star Regex.space)
       (Regex.Seq (Regex.Lit "x")
          (Regex.Seq (Regex.Star Regex.space) (Regex.Group 2 number)))).

(** [M(\d+)] *)
Definition metric_thread : Regex.re :=
  Regex.Seq (Regex.Lit "M") (Regex.Group 1 (Regex.Plus Regex.digit)).

(** [(\d+/\d+)] *)
Definition fraction : Regex.re :=
  Regex.Group 1
    (Regex.Seq (Regex.Plus Regex.digit)
       (Regex.Seq (Regex.Lit "/") (Regex.Plus Regex.digit))).

Definition nonempty (s : string) : bool :=
  match s with
  | EmptyString => false
  | String _ _ => true
  end.

(** What a pattern with two groups adds to [dimensions]: the non-empty
    groups of its first match. *)
Definition first_tuple (r : Regex.re) (s : string) : list string :=
  match findall2 r s with
  | (a, b) :: _ => List.filter nonempty [a; b]
  | [] => []
  end.

(** The first loop of [_extract_dimensions]. *)
Definition raw_dimensions (text : string) : list string :=
  let t := PyStr.lower text in
  first_tuple dim_with_unit t ++ first_tuple dim_by_dim t
    ++ findall1 metric_thread t ++ findall1 fraction t.

(** [[^\d.]] *)
Definition not_digit_or_dot : Regex.re :=
  Regex.none_of (fun c => PyStr.isdigit c || Ascii.eqb c ".").

(** The body of the second loop of [_extract_dimensions]; where the
    [try] block raises, the bare [except] appends [dim] itself. *)
Definition normalize_dimension (dim : string) : string :=
  if PyStr.contains "/" dim then
    match PyStr.split_on "/" dim with
    | p0 :: p1 :: _ =>
        match Float64.of_string p0, Float64.of_string p1 with
        | Some x, Some y =>
            match Float64.py_div x y with
            | Some decimal => Float64.format_fixed 2 decimal
            | None => dim
            end
        | _, _ => dim
        end
    | _ => dim
    end
  else if PyStr.contains "pol" dim || PyStr.contains quote dim then
    match Float64.of_string (Regex.sub not_digit_or_dot "" dim) with
    | Some value =>
        Float64.format_fixed 1 (Float64.mul value (Float64.dec 254 1))
    | None => dim
    end
  else dim.

Definition _extract_dimensions (text : string) : list string :=
  map normalize_dimension (raw_dimensions text).

(** [[^a-z0-9]] *)
Definition not_alnum : Regex.re :=
  Regex.none_of (fun c => PyStr.between 97 122 c || PyStr.isdigit c).

(** [generate_hash_keys]; the dict is listed in insertion order. The
    second argument is not used by the code. *)
Definition generate_hash_keys (normalized_name original_name : string)
    : list (string * string) :=
  let lowered := PyStr.lower normalized_name in
  let exact := PyStr.strip lowered in
  let alpha_only := Regex.sub not_alnum "" lowered in
  let words := PyStr.split lowered in
  let sorted_words := PyStr.sorted words in
  let core_terms := _extract_core_terms normalized_name in
  let dimensions := _extract_dimensions normalized_name in
  let dim :=
    match dimensions with
    | [] => PyStr.take 10 (MD5.hexdigest (PyStr.encode normalized_name))
    | _ => PyStr.join "_" dimensions
    end in
  let significant_words :=
    firstn 4 (List.filter (fun w => Nat.ltb 2 (String.length w)) words) in
  let phon_key := PyStr.join "" (map (PyStr.take 3) significant_words) in
  let phon :=
    if nonempty phon_key then phon_key
    else PyStr.lower (PyStr.take 10 normalized_name) in
  [ ("exact", exact);
    ("alpha", alpha_only);
    ("sorted", PyStr.join "_" sorted_words);
    ("core", PyStr.join "_" (PyStr.sorted core_terms));
    ("dim", dim);
    ("phon", phon) ].

(** *** Normalisation *)

(** The [replacements] dict, in insertion order. *)
Definition replacements : list (string * string) :=
  [ ("pol", "mm");
    ("polegada", "mm");
    (quote, "mm");
    ("1/2", "12.7");
    ("1/4", "6.35");
    ("3/4", "19.05");
    ("3/8", "9.525");
    ("5/8", "15.875");
    ("sext", "sextavado");
    ("chav", "chave");
    ("p/", "para") ].

(** [normalize_product_name] *)
Definition normalize_product_name (name : string) : string :=
  let normalized := PyStr.lower name in
  let normalized := PyStr.strip_accents normalized in
  let normalized :=
    fold_left (fun acc '(old, new) => PyStr.replace old new acc)
              replacements normalized in
  PyStr.join " " (PyStr.split normalized).

(** *** Duplicate resolution *)

Definition set_duplicate (p : product) (group : Z) (similarity : float)
    (master : bool) : product :=
  mk_product (id p) (original_name p) (normalized_name p)
    (category_code p) (category_name p)
    (subcategory_code p) (subcategory_name p)
    (confidence p) (reasoning p) (hash_keys p)
    (Some group) (Some similarity) (Some master).

Definition with_dictionary (s : db) (d : gmap string dict_row) : db :=
  mk_db (products_enhanced s) (products_enhanced_id_seq s) d (hash_key_log s).

(** The body of the loop of [detect_duplicates]. A returned tuple is
    truthy, [None] is not. *)
Definition detect_one (s : db) (p : product) : db * product :=
  let '(d', duplicate_result) :=
    check_duplicate_by_keys (hash_keys p) key_weights (duplicate_dictionary s) in
  let s' := with_dictionary s d' in
  match duplicate_result with
  | Some (group_id, similarity) =>
      (s', set_duplicate p group_id similarity false)
  | None =>
      let new_group_id := get_next_group_id s' in
      (s', set_duplicate p new_group_id (Float64.of_Z 1) true)
  end.

(** [detect_duplicates]: every product of the list is resolved before
    the list is returned. *)
Fixpoint detect_duplicates (s : db) (classified_products : list product)
    : db * list product :=
  match classified_products with
  | [] => (s, [])
  | p :: rest =>
      let '(s1, p') := detect_one s p in
      let '(s2, rest') := detect_duplicates s1 rest in
      (s2, p' :: rest')
  end.

(** Step 3 of [process_batch]: save each product, and register the keys
    of each master. *)
Fixpoint save_all (batch_id : string) (position : Z) (s : db)
    (with_duplicates : list product) : db :=
  match with_duplicates with
  | [] => s
  | p :: rest =>
      let '(s1, product_id) := save_product p batch_id position s in
      let s2 :=
        if default false (is_master p)
        then register_product_keys product_id (hash_keys p)
               (default 0 (product_group_id p)) key_weights s1
        else s1 in
      save_all batch_id (position + 1) s2 rest
  end.

(** Steps 2 and 3 of [process_batch], from the classifier's answer. *)
Definition process_batch (batch_id : string) (s : db)
    (classified : list product) : db :=
  let '(s1, with_duplicates) := detect_duplicates s classified in
  save_all batch_id 0 s1 with_duplicates.

End Classify.

(** ** mro_classifier.py *)

Module MROClassifier.

Local Open Scope N_scope.
Local Open Scope string_scope.

(** The characters outside ASCII, by code point. *)
Definition L (codes : list N) : string := PyStr.of_codes codes.

(** [d.get(k)] on a dict listed in insertion order. *)
Fixpoint lookup {A : Type} (k : string) (d : list (string * A)) : option A :=
  match d with
  | [] => None
  | (k', v) :: rest => if String.eqb k k' then Some v else lookup k rest
  end.

(** [k in d] *)
Definition has_key {A : Type} (k : string) (d : list (string * A)) : bool :=
  match lookup k d with
  | Some _ => true
  | None => false
  end.

(** *** [setup_taxonomy] *)

Definition departments : list (string * string) :=
  [ ("D03", "MRO: MATERIAL, REPARO E OPERA" ++ L [199; 195] ++ "O") ].

Definition categories_by_dept : list (string * list (string * string)) :=
  [ ("D03",
     [ ("S09", "BARRAS E CHAPAS");
       ("S17", "BATERIAS");
       ("S25", "BOMBAS E MOTORES");
       ("S36", "CORRENTES MET" ++ L [193] ++ "LICAS E ENGRENAGENS");
       ("S39", "ELEMENTOS DE FIXA" ++ L [199; 195] ++ "O E VEDA" ++ L [199; 195] ++ "O");
       ("S41", "FERRAMENTAS");
       ("S43", "MATERIAIS DIVERSOS");
       ("S46", "MATERIAIS HIDR" ++ L [193] ++ "ULICOS, PNEUM" ++ L [193] ++ "TICOS, FILTROS E V" ++ L [193] ++ "LVULAS");
       ("S47", "MATERIAIS EL" ++ L [201] ++ "TRICOS E ELETR" ++ L [212] ++ "NICOS");
       ("S49", "LUBRIFICANTES");
       ("S51", "PARTES MEC" ++ L [194] ++ "NICAS, ROLAMENTOS E CORREIAS");
       ("S54", "TUBOS E CONEX" ++ L [213] ++ "ES");
       ("S71", "AUTOMA" ++ L [199; 195] ++ "O INDUSTRIAL");
       ("S72", "EMBALAGENS");
       ("S73", "ILUMINA" ++ L [199; 195] ++ "O");
       ("S74", "QU" ++ L [205] ++ "MICOS INDUSTRIAIS") ]) ].

Definition subcategories_by_cat : list (string * list (string * string)) :=
  [
    ("S09",
     [ ("C037", "Barras de a" ++ L [231] ++ "o");
       ("C060", "Chapas");
       ("C114", "Ferros Chatos");
       ("C190", "Formas");
       ("C201", "Hastes");
       ("C229", "Tarugos") ]);
    ("S17",
     [ ("C001", "Baterias l" ++ L [237] ++ "tio");
       ("C056", "Baterias n" ++ L [237] ++ "quel");
       ("C110", "Baterias tracion" ++ L [225] ++ "rias");
       ("C187", "Outras baterias") ]);
    ("S25",
     [ ("C002", "Bombas");
       ("C057", "Chaves e compressores");
       ("C111", "H" ++ L [233] ++ "lices");
       ("C188", "Juntas para bomba");
       ("C199", "Motobombas");
       ("C228", "Motores");
       ("C274", "Motovibradores");
       ("C293", "Outros componentes bombas e motores");
       ("C311", "Rotores");
       ("C326", "Servomotores") ]);
    ("S36",
     [ ("C042", "Correntes");
       ("C095", "Emendas");
       ("C145", "Engrenagens");
       ("C175", "Manilhas");
       ("C221", "Olhal");
       ("C247", "Outras correntes e engrenagens");
       ("C268", "Engates") ]);
    ("S39",
     [ ("C026", "Acoplamentos");
       ("C080", "Adesivos e fitas");
       ("C133", "An" ++ L [233] ++ "is el" ++ L [225] ++ "sticos");
       ("C164", "Chumbadores");
       ("C215", "Eletrodos de soldas");
       ("C241", "Gaxetas");
       ("C270", "Juntas de veda" ++ L [231; 227] ++ "o");
       ("C291", "Outros elementos de fixa" ++ L [231; 227] ++ "o e veda" ++ L [231; 227] ++ "o");
       ("C297", "Retentores");
       ("C308", "Parafusos, pregos, porcas, buchas e arruelas");
       ("C325", "Rebites e pinos") ]);
    ("S41",
     [ ("C027", "Abrasivos");
       ("C081", "Ferramentas de corte e desbaste");
       ("C134", "Outras ferramentas manuais");
       ("C165", "Ferramentas para constru" ++ L [231; 227] ++ "o civil");
       ("C216", "Ferramentas perfuradoras");
       ("C739", "Acess" ++ L [243] ++ "rios e consum" ++ L [237] ++ "veis para ferramentas");
       ("C740", "Alicates");
       ("C741", "Chave allen/hexagonal");
       ("C742", "Chave biela");
       ("C743", "Chave combinada");
       ("C744", "Chave de fenda e Phillips");
       ("C745", "Ferramentas a bateria");
       ("C746", "Ferramentas automotivas");
       ("C747", "Ferramentas de medi" ++ L [231; 227] ++ "o");
       ("C748", "Ferramentas el" ++ L [233] ++ "tricas");
       ("C749", "Ferramentas para jardim");
       ("C750", "Ferramentas para pintura");
       ("C751", "Ferramentas para solda");
       ("C752", "Jogos de chave combinada");
       ("C753", "Jogos de ferramentas");
       ("C754", "Jogos de soquetes");
       ("C755", "Torqu" ++ L [237] ++ "metro") ]);
    ("S43",
     [ ("C028", "Lonas e toldos");
       ("C082", "Outros materiais MRO");
       ("C772", "Adubos e fertilizantes") ]);
    ("S46",
     [ ("C029", "Adaptadores, conex" ++ L [245] ++ "es e terminais");
       ("C083", "Amortecedor");
       ("C135", "Atuador pneum" ++ L [225] ++ "tico");
       ("C166", "Balancin");
       ("C217", "Cilindros");
       ("C242", "Eletrov" ++ L [225] ++ "lvulas");
       ("C289", "Engates r" ++ L [225] ++ "pidos");
       ("C307", "Filtros de " ++ L [225] ++ "gua");
       ("C324", "Filtros de ar");
       ("C337", "Filtros de g" ++ L [225] ++ "s");
       ("C346", "Filtros industriais");
       ("C358", "Flanges");
       ("C366", "Luvas hidr" ++ L [225] ++ "ulicas");
       ("C377", "Mangueiras hidr" ++ L [225] ++ "ulicas e industriais");
       ("C390", "Outros materiais hidr" ++ L [225] ++ "ulicos ou pneum" ++ L [225] ++ "ticos");
       ("C395", "Uni" ++ L [227] ++ "o");
       ("C400", "V" ++ L [225] ++ "lvulas");
       ("C719", "Filtros");
       ("C722", "V" ++ L [225] ++ "lvulas") ]);
    ("S47",
     [ ("C025", "Amplificadores");
       ("C079", "Conduletes");
       ("C132", "Fontes de energia");
       ("C163", "Fus" ++ L [237] ++ "veis e disjuntores");
       ("C240", "M" ++ L [243] ++ "dulos");
       ("C269", "Outros componentes eletr" ++ L [244] ++ "nicos");
       ("C290", "Outros materiais el" ++ L [233] ++ "tricos");
       ("C314", "Plugs e adaptadores");
       ("C329", "Resist" ++ L [234] ++ "ncias");
       ("C340", "Terminais");
       ("C350", "Tomadas e interruptores");
       ("C360", "Transformadores");
       ("C773", "Cabos e fios el" ++ L [233] ++ "tricos");
       ("C774", "Chaves magn" ++ L [233] ++ "ticas");
       ("C775", "Contatores");
       ("C776", "Energia solar");
       ("C777", "Extens" ++ L [245] ++ "es el" ++ L [233] ++ "tricas e filtros de linha");
       ("C778", "Ferramentas de eletricista");
       ("C779", "Quadros e caixas el" ++ L [233] ++ "tricas");
       ("C780", "Reatores e soquetes");
       ("C781", "Tubos e eletrodutos") ]);
    ("S49",
     [ ("C048", "Aditivos");
       ("C103", "Graxas");
       ("C150", L [211] ++ "leos lubrificantes");
       ("C183", "Outros fluidos") ]);
    ("S51",
     [ ("C049", "Amortecedores");
       ("C104", "Antiderrapantes para correias");
       ("C151", "Correias e componentes");
       ("C184", "Mancal");
       ("C223", "Molas");
       ("C253", "Outros componentes de partes mec" ++ L [226] ++ "nicas");
       ("C275", "Polias");
       ("C315", "Rolamentos");
       ("C330", "Tensores de correias");
       ("C382", "Molas") ]);
    ("S54",
     [ ("C051", "Conex" ++ L [245] ++ "es");
       ("C097", "Cotovelos");
       ("C152", "Joelhos");
       ("C178", "Luvas");
       ("C224", "Niples PVC");
       ("C249", "Tubos");
       ("C278", "Uni" ++ L [227] ++ "o") ]);
    ("S71",
     [ ("C716", "Conex" ++ L [245] ++ "es");
       ("C717", "Engates");
       ("C718", "Esteira");
       ("C719", "Filtros");
       ("C720", "Mangueiras");
       ("C721", "Outros materiais de automa" ++ L [231; 227] ++ "o industrial");
       ("C722", "V" ++ L [225] ++ "lvulas");
       ("C723", "Ventosas") ]);
    ("S72",
     [ ("C724", "Bobinas kraft ou semi kraft");
       ("C725", "Caixas de papel" ++ L [227] ++ "o");
       ("C726", "Embalagens descart" ++ L [225] ++ "veis");
       ("C727", "Embalagens para delivery");
       ("C728", "Envelopes de seguran" ++ L [231] ++ "a");
       ("C729", "Etiquetas e tags");
       ("C730", "Filme stretch");
       ("C731", "Fitas adesivas");
       ("C732", "Fitas, la" ++ L [231] ++ "os e cord" ++ L [245] ++ "es");
       ("C733", "Lacres");
       ("C734", "Latas");
       ("C735", "Pallets");
       ("C736", "Potes e vidros");
       ("C737", "Sacos e sacolas kraft");
       ("C738", "Sacos e sacolas pl" ++ L [225] ++ "sticas") ]);
    ("S73",
     [ ("C214", "Outros objetos de ilumina" ++ L [231; 227] ++ "o");
       ("C756", "Abajures e c" ++ L [250] ++ "pulas");
       ("C757", "Cord" ++ L [245] ++ "es de luz");
       ("C758", "Fitas de LED");
       ("C759", "Kits de l" ++ L [226] ++ "mpadas");
       ("C760", "L" ++ L [226] ++ "mpadas de LED");
       ("C761", "L" ++ L [226] ++ "mpadas fluorescentes");
       ("C762", "L" ++ L [226] ++ "mpadas hal" ++ L [243] ++ "genas");
       ("C763", "L" ++ L [226] ++ "mpadas incandescentes");
       ("C764", "L" ++ L [226] ++ "mpadas inteligentes");
       ("C765", "Lumin" ++ L [225] ++ "rias");
       ("C766", "Lustres e pendentes");
       ("C767", "Outros tipos de l" ++ L [226] ++ "mpadas");
       ("C768", "Painel de LED");
       ("C769", "Refletores");
       ("C770", "Soquetes para l" ++ L [226] ++ "mpadas");
       ("C771", "Spots") ]);
    ("S74",
     [ ("C782", L [193] ++ "cidos");
       ("C783", "Gases");
       ("C784", "Metais qu" ++ L [237] ++ "micos");
       ("C785", "Qu" ++ L [237] ++ "micos inorg" ++ L [226] ++ "nicos");
       ("C786", "Qu" ++ L [237] ++ "micos org" ++ L [226] ++ "nicos");
       ("C787", "Reagentes qu" ++ L [237] ++ "micos");
       ("C788", "Solventes") ]) ].

Local Close Scope N_scope.
Local Open Scope Z_scope.

(** *** The Claude API *)

(** What the classifier sends: the prompt is a rendering of the product
    name, of the category already chosen (for the subcategory question)
    and of the choices. *)
Record prompt : Type := mk_prompt {
  prompt_product : string;
  prompt_category : option (string * string);
  prompt_choices : list (string * string)
}.

(** How a call of [client.messages.create] ends: with the text of the
    first content block, with [anthropic.RateLimitError], or with another
    exception. *)
Inductive api_outcome : Type :=
| Reply (text : string)
| RateLimited
| Failed (error : string).

(** What the run leaves behind besides the database: the [time.sleep]
    calls and the products taken up by the batch loop. *)
Inductive event : Type :=
| Backoff (seconds : Z)
| Pacing
| BatchDelay
| Processing (product_id : Z).

Record world : Type := mk_world {
  calls : nat;
  events : list event
}.

Definition called (w : world) : world :=
  mk_world (S (calls w)) (events w).

Definition logged (e : event) (w : world) : world :=
  mk_world (calls w) (events w ++ [e]).

(** The result dict of [classify_product]; a key that may be absent is
    an option. *)
Record classification : Type := mk_classification {
  cl_product_name : string;
  cl_batch_id : option Z;
  cl_confidence : float;
  cl_dept_code : option string;
  cl_dept_name : option string;
  cl_cat_code : option string;
  cl_cat_name : option string;
  cl_sub_code : option string;
  cl_sub_name : option string;
  cl_error : option string
}.

(** [S\d{2}] and [C\d{3}] *)
Definition category_pattern : Regex.re :=
  Regex.Seq (Regex.Lit "S") (Regex.Rep 2 Regex.digit).
Definition subcategory_pattern : Regex.re :=
  Regex.Seq (Regex.Lit "C") (Regex.Rep 3 Regex.digit).

(** [m.group() if m and m.group() else None] *)
Definition extract_code (pattern : Regex.re) (text : string) : option string :=
  match Regex.search pattern text with
  | Some m => if Classify.nonempty (Regex.whole m) then Some (Regex.whole m) else None
  | None => None
  end.

Section WithApi.

(** The service: the outcome of the call made after [n] earlier
    calls. *)
Variable api : nat -> prompt -> api_outcome.

(** The loop of [claude_classify], from attempt [attempt] on;
    [remaining] attempts are left in the range. *)
Fixpoint claude_attempts (remaining : nat) (attempt max_retries backoff : Z)
    (p : prompt) (pattern : Regex.re) (w : world) : world * option string :=
  match remaining with
  | O => (w, None)
  | S k =>
      match api (calls w) p with
      | Reply text =>
          (called w, extract_code pattern (PyStr.strip text))
      | RateLimited =>
          claude_attempts k (attempt + 1) max_retries (backoff * 2)
            p pattern (logged (Backoff backoff) (called w))
      | Failed _ =>
          if Z.eqb attempt max_retries then (called w, None)
          else
            claude_attempts k (attempt + 1) max_retries (backoff * 2)
              p pattern (logged (Backoff backoff) (called w))
      end
  end.

(** [claude_classify]: [range(1, max_retries + 1)] attempts, the
    first wait being of one second. *)
Definition claude_classify (p : prompt) (pattern : Regex.re)
    (max_retries : Z) (w : world) : world * option string :=
  claude_attempts (Z.to_nat max_retries) 1 max_retries 1 p pattern w.

(** [classify_department] *)
Definition classify_department (product : string) : string * string :=
  ("D03", default "" (lookup "D03" departments)).

(** [any(word in s for word in words)] *)
Definition any_in (words : list string) (s : string) : bool :=
  existsb (fun word => PyStr.contains word s) words.

(** The keyword fallback of [classify_category]. *)
Definition category_fallback (product : string)
    (cats : list (string * string)) : string * string :=
  let product_lower := PyStr.lower product in
  let pick code := (code, default "" (lookup code cats)) in
  if any_in ["parafuso"; "porca"; "junta";
             "veda" ++ L [231; 227]%N ++ "o"] product_lower
  then pick "S39"
  else if any_in ["ferramenta"; "chave"; "furadeira"] product_lower
  then pick "S41"
  else if any_in ["disjuntor"; "rele"; "contator"; "modulo"] product_lower
  then pick "S47"
  else if any_in ["automa" ++ L [231; 227]%N ++ "o"; "clp"; "simatic"]
            product_lower
  then pick "S71"
  else pick "S43".

(** [classify_category] *)
Definition classify_category (product dept : string) (w : world)
    : world * (string * string) :=
  let cats := default [] (lookup dept categories_by_dept) in
  match cats with
  | [] => (w, ("", ""))
  | _ =>
      let '(w', cat) :=
        claude_classify (mk_prompt product None cats) category_pattern 5 w in
      match cat with
      | Some c =>
          if Classify.nonempty c && has_key c cats
          then (w', (c, default "" (lookup c cats)))
          else (w', category_fallback product cats)
      | None => (w', category_fallback product cats)
      end
  end.

Definition fallback_map : list (string * string) :=
  [ ("S39", "C291"); ("S41", "C134"); ("S43", "C082"); ("S46", "C390");
    ("S47", "C290"); ("S49", "C183"); ("S51", "C253"); ("S71", "C721");
    ("S73", "C214") ].

(** The "Others" fallback of [classify_subcategory]. *)
Definition subcategory_fallback (cat : string)
    (subs : list (string * string)) : string * string :=
  let first_key :=
    match subs with
    | (k, _) :: _ => k
    | [] => ""
    end in
  let fallback_code := default first_key (lookup cat fallback_map) in
  (fallback_code, default "" (lookup fallback_code subs)).

(** [classify_subcategory] *)
Definition classify_subcategory (product cat : string) (w : world)
    : world * (string * string) :=
  let subs := default [] (lookup cat subcategories_by_cat) in
  match subs with
  | [] => (w, ("", ""))
  | _ =>
      let cat_name :=
        default cat (lookup cat (default [] (lookup "D03" categories_by_dept))) in
      let '(w', sub) :=
        claude_classify (mk_prompt product (Some (cat, cat_name)) subs)
                        subcategory_pattern 5 w in
      match sub with
      | Some c =>
          if Classify.nonempty c && has_key c subs
          then (w', (c, default "" (lookup c subs)))
          else (w', subcategory_fallback cat subs)
      | None => (w', subcategory_fallback cat subs)
      end
  end.

(** [classify_product]. No step of its [try] block raises:
    [claude_classify] catches every exception of the call, and the
    table lookups are guarded; the [except] branch, which would add
    the ['error'] key, is therefore never taken, and the result has
    no such key. *)
Definition classify_product (product_name : string) (batch_id : option Z)
    (w : world) : world * classification :=
  let '(dept_code, dept_name) := classify_department product_name in
  let '(w1, (cat_code, cat_name)) :=
    classify_category product_name dept_code w in
  let '(w2, (sub_code, sub_name)) :=
    if Classify.nonempty cat_code
    then classify_subcategory product_name cat_code w1
    else (w1, ("", "")) in
  let confidence := Float64.dec 33 2 in
  let confidence :=
    if Classify.nonempty cat_code
    then Float64.add confidence (Float64.dec 33 2) else confidence in
  let confidence :=
    if Classify.nonempty sub_code
    then Float64.add confidence (Float64.dec 34 2) else confidence in
  (w2,
   mk_classification product_name batch_id confidence
     (Some dept_code) (Some dept_name) (Some cat_code) (Some cat_name)
     (Some sub_code) (Some sub_name) None).

End WithApi.

End MROClassifier.

(** ** database_mro.py *)

Module MRODatabase.

(** A row of [mro_products]. The columns of the imported category and
    the timestamps are left out. *)
Record mro_product : Type := mk_mro_product {
  id : Z;
  product_name : string;
  brand : option string;
  model : option string;
  new_department_code : option string;
  new_department_name : option string;
  new_category_code : option string;
  new_category_name : option string;
  new_subcategory_code : option string;
  new_subcategory_name : option string;
  confidence_score : option float;
  batch_id : option Z;
  processing_status : string;
  error_message : option string
}.

(** The table, in the order of [id]. *)
Definition table : Type := list mro_product.

Definition is_status (status : string) (r : mro_product) : bool :=
  String.eqb (processing_status r) status.

(** [get_pending_products]: [WHERE processing_status = 'pending' ORDER
    BY id], with [LIMIT] when [limit] is truthy. A negative limit is
    refused by the database, and the [except] branch returns the empty
    list. *)
Definition get_pending_products (limit : Z) (t : table) : list mro_product :=
  let pending := List.filter (is_status "pending") t in
  if Z.eqb limit 0 then pending
  else if Z.ltb limit 0 then []
  else firstn (Z.to_nat limit) pending.

(** [UPDATE mro_products SET ... WHERE id = %s] *)
Definition update_where_id (f : mro_product -> mro_product) (product_id : Z)
    (t : table) : table :=
  map (fun r => if Z.eqb (id r) product_id then f r else r) t.

(** The [SET] clause of [update_classification]. *)
Definition with_classification (c : MROClassifier.classification)
    (r : mro_product) : mro_product :=
  mk_mro_product (id r) (product_name r) (brand r) (model r)
    (MROClassifier.cl_dept_code c) (MROClassifier.cl_dept_name c)
    (MROClassifier.cl_cat_code c) (MROClassifier.cl_cat_name c)
    (MROClassifier.cl_sub_code c) (MROClassifier.cl_sub_name c)
    (Some (MROClassifier.cl_confidence c))
    (MROClassifier.cl_batch_id c)
    "completed" (error_message r).

(** [update_classification]; it returns [True]. *)
Definition update_classification (product_id : Z)
    (c : MROClassifier.classification) (t : table) : table :=
  update_where_id (with_classification c) product_id t.

Definition with_status (status : string) (message : option string)
    (r : mro_product) : mro_product :=
  mk_mro_product (id r) (product_name r) (brand r) (model r)
    (new_department_code r) (new_department_name r)
    (new_category_code r) (new_category_name r)
    (new_subcategory_code r) (new_subcategory_name r)
    (confidence_score r) (batch_id r)
    status message.

(** [mark_as_error]: [SET processing_status = 'error', error_message =
    %s]. *)
Definition mark_as_error (product_id : Z) (message : string)
    (t : table) : table :=
  update_where_id (with_status "error" (Some message)) product_id t.

(** [UPDATE mro_products SET processing_status = 'pending',
    error_message = NULL WHERE id = %s] *)
Definition reset_to_pending (product_id : Z) (t : table) : table :=
  update_where_id (with_status "pending" None) product_id t.

End MRODatabase.

(** ** batch_processor.py *)

Module BatchProcessor.
Import MROClassifier MRODatabase.

Record stats : Type := mk_stats {
  total_processed : Z;
  successful : Z;
  failed : Z;
  batches_processed : Z
}.

(** The processor while it runs: the database, the outside world, the
    batch counter and the counters of the run. *)
Record run : Type := mk_run {
  rows : table;
  outside : world;
  current_batch_id : Z;
  counters : stats
}.

Section WithApi.

Variable api : nat -> prompt -> api_outcome.

(** [self.batch_size] *)
Variable batch_size : Z.

(** The body of [for product in pending_products]. *)
Definition process_product (st : run) (product : mro_product) : run :=
  let product_id := id product in
  let w0 := logged (Processing product_id) (outside st) in
  let '(w1, c) :=
    classify_product api (product_name product)
                     (Some (current_batch_id st)) w0 in
  let s := counters st in
  let '(t', s') :=
    match cl_error c with
    | Some message =>
        (mark_as_error product_id message (rows st),
         mk_stats (total_processed s) (successful s) (failed s + 1)
                  (batches_processed s))
    | None =>
        (update_classification product_id c (rows st),
         mk_stats (total_processed s) (successful s + 1) (failed s)
                  (batches_processed s))
    end in
  mk_run t' (logged Pacing w1) (current_batch_id st)
    (mk_stats (total_processed s' + 1) (successful s') (failed s')
              (batches_processed s')).

(** One round of the [while True] loop, for a non-empty list of
    pending products. *)
Definition process_batch (st : run) (pending_products : list mro_product)
    : run :=
  let st1 := fold_left process_product pending_products st in
  let s := counters st1 in
  let w :=
    if Z.eqb (Z.of_nat (length pending_products)) batch_size
    then logged BatchDelay (outside st1)
    else outside st1 in
  mk_run (rows st1) w (current_batch_id st1 + 1)
    (mk_stats (total_processed s) (successful s) (failed s)
              (batches_processed s + 1)).

(** The [while True] loop; [None] when [fuel] rounds do not reach the
    [break]. *)
Fixpoint batch_loop (fuel : nat) (st : run) : option run :=
  match fuel with
  | O => None
  | S k =>
      match get_pending_products batch_size (rows st) with
      | [] => Some st
      | pending_products => batch_loop k (process_batch st pending_products)
      end
  end.

(** [process_all_pending], with the counters at zero. *)
Definition process_all_pending (fuel : nat) (t : table) (w : world)
    (first_batch_id : Z) : option run :=
  batch_loop fuel (mk_run t w first_batch_id (mk_stats 0 0 0 0)).

(** The products that [reprocess_errors] selects: [WHERE
    processing_status = 'error' ORDER BY id]. *)
Definition error_products (t : table) : list mro_product :=
  List.filter (is_status "error") t.

(** The reset loop of [reprocess_errors]. *)
Definition reset_errors (t : table) : table :=
  fold_left (fun t' product => reset_to_pending (id product) t')
            (error_products t) t.

(** [reprocess_errors]: nothing is done when no product has an
    error; otherwise the errors are reset and the pending products
    are processed. *)
Definition reprocess_errors (fuel : nat) (t : table) (w : world)
    (first_batch_id : Z) : option run :=
  match error_products t with
  | [] => Some (mk_run t w first_batch_id (mk_stats 0 0 0 0))
  | _ => process_all_pending fuel (reset_errors t) w first_batch_id
  end.

End WithApi.

End BatchProcessor.

(** ** Vocabulary of the statements *)

Module Spec.
Import Database.

(** Two rows that differ at most in [hit_count]. *)
Definition same_binding (r r' : dict_row) : Prop :=
  duplicate_group_id r' = duplicate_group_id r /\
  key_type r' = key_type r /\
  confidence_weight r' = confidence_weight r /\
  master_product_id r' = master_product_id r.

(** How many items of a key dict carry the hash key [h]. *)
Fixpoint occurrences (h : string) (hash_keys : list (string * string)) : Z :=
  match hash_keys with
  | [] => 0
  | (_, h') :: rest =>
      (if decide (h' = h) then 1 else 0) + occurrences h rest
  end.

(** How many items of a key dict would be found in the row [r] stored
    under [h]: the items [(key_type r, h)]. *)
Fixpoint hits (h : string) (r : dict_row)
    (hash_keys : list (string * string)) : Z :=
  match hash_keys with
  | [] => 0
  | (kt, h') :: rest =>
      (if decide (h' = h) then if decide (key_type r = kt) then 1 else 0 else 0)
      + hits h r rest
  end.

(** The group the dictionary binds to a hash key of a key type. *)
Definition bound_group (d : gmap string dict_row)
    (kt hash_key : string) : option Z :=
  duplicate_group_id <$> select_binding d hash_key kt.

(** The key types of a key dict that are bound, with their groups, in
    the order of the dict. *)
Fixpoint matched (d : gmap string dict_row)
    (hash_keys : list (string * string)) : list (string * Z) :=
  match hash_keys with
  | [] => []
  | (kt, h) :: rest =>
      match bound_group d kt h with
      | Some g => (kt, g) :: matched d rest
      | None => matched d rest
      end
  end.

(** The reads of the loop of [check_duplicate_by_keys], without its
    writes. *)
Definition pure_step (weights : gmap string float) (d : gmap string dict_row)
    (acc : option Z * float) (item : string * string) : option Z * float :=
  let '(kt, h) := item in
  match bound_group d kt h with
  | Some g =>
      if Float64.ltb (snd acc) (weight_of weights kt)
      then (Some g, weight_of weights kt)
      else acc
  | None => acc
  end.

(** The key dict as [generate_hash_keys] builds it. *)
Definition six_keys (exact alpha sorted core dim phon : string)
    : list (string * string) :=
  [("exact", exact); ("alpha", alpha); ("sorted", sorted);
   ("core", core); ("dim", dim); ("phon", phon)].

(** The categories of department D03. *)
Definition d03_categories : list (string * string) :=
  default [] (MROClassifier.lookup "D03" MROClassifier.categories_by_dept).

(** The subcategories of a category. *)
Definition subcategories_of (cat : string) : list (string * string) :=
  default [] (MROClassifier.lookup cat MROClassifier.subcategories_by_cat).

(** [0.33 + 0.33 + 0.34], as [classify_product] adds it up. *)
Definition full_confidence : float :=
  Float64.add (Float64.add (Float64.dec 33 2) (Float64.dec 33 2))
              (Float64.dec 34 2).

(** An outcome of the service that is a failure. *)
Definition is_failure (o : MROClassifier.api_outcome) : Prop :=
  match o with
  | MROClassifier.Reply _ => False
  | _ => True
  end.

(** Every group identifier in the database is positive. *)
Definition groups_positive (s : Database.db) : Prop :=
  (forall r g,
     In r (Database.products_enhanced s) ->
     Database.row_duplicate_group_id r = Some g -> 0 < g) /\
  (forall h r,
     Database.duplicate_dictionary s !! h = Some r ->
     0 < Database.duplicate_group_id r).

(** A product that [detect_duplicates] has put in a group with a
    positive identifier. *)
Definition resolved (p : Database.product) : Prop :=
  exists g, Database.product_group_id p = Some g /\ 0 < g.



(** How many rows wait for the batch loop. *)
Definition count_pending (t : MRODatabase.table) : nat :=
  length (List.filter (MRODatabase.is_status "pending") t).

(** The later world has seen all that the earlier one has. *)
Definition extends (w w' : MROClassifier.world) : Prop :=
  exists more,
    MROClassifier.events w' = (MROClassifier.events w ++ more)%list.

(** The batch loop has taken the row [x] up: it has logged the product
    and stored, in the row, the answer of [classify_product] for the
    product's name. *)
Definition processed_in
    (api : nat -> MROClassifier.prompt -> MROClassifier.api_outcome)
    (st : BatchProcessor.run) (x : MRODatabase.mro_product) : Prop :=
  exists (w : MROClassifier.world) (b : Z),
    In (MRODatabase.with_classification
          (snd (MROClassifier.classify_product api
                  (MRODatabase.product_name x) (Some b) w)) x)
       (BatchProcessor.rows st) /\
    In (MROClassifier.Processing (MRODatabase.id x))
       (MROClassifier.events (BatchProcessor.outside st)).

(** What the reset of [reprocess_errors] does to a row. *)
Definition requeue (r : MRODatabase.mro_product) : MRODatabase.mro_product :=
  if MRODatabase.is_status "error" r
  then MRODatabase.with_status "pending" None r
  else r.

(** Two dictionaries with the same keys and the same bindings. *)
Definition same_bindings (d d' : gmap string dict_row) : Prop :=
  forall h,
    match d !! h, d' !! h with
    | Some r, Some r' => same_binding r r'
    | None, None => True
    | _, _ => False
    end.

End Spec.

(** ** Sample data *)

Module Samples.
Import Database.

Definition empty_db : db := mk_db [] 0 ∅ [].

(** A classified product with the given name and key dict. *)
Definition classified (n : Z) (name : string)
    (keys : list (string * string)) : product :=
  mk_product n name name (Some "S39") None (Some "C308") None
    (Some (Float64.dec 95 2)) None keys None None None.

(** A dictionary that knows one alpha key, of group 1. *)
Definition one_alpha : gmap string dict_row :=
  {[ "parafusom8" := mk_dict_row 1 "alpha" (Float64.dec 95 2) 1 0 ]}.

(** A dictionary in which one product's core and dim keys are bound to
    group 4 and its phon key to group 9. *)
Definition core_and_phon : gmap string dict_row :=
  <["inox_parafuso" := mk_dict_row 4 "core" (Float64.dec 85 2) 3 0]>
  (<["12" := mk_dict_row 4 "dim" (Float64.dec 85 2) 3 0]>
  (<["parino" := mk_dict_row 9 "phon" (Float64.dec 75 2) 8 0]> ∅)).

Definition inox_keys : list (string * string) :=
  Spec.six_keys "parafuso inox 12" "parafusoinox12" "12_inox_parafuso"
                "inox_parafuso" "12" "parino".

(** A service that is down. *)
Definition api_down (n : nat) (p : MROClassifier.prompt)
    : MROClassifier.api_outcome :=
  MROClassifier.Failed "connection timed out".

(** A service that answers S41 to the category question and C740 to
    the subcategory question. *)
Definition api_up (n : nat) (p : MROClassifier.prompt)
    : MROClassifier.api_outcome :=
  match MROClassifier.prompt_category p with
  | None => MROClassifier.Reply "S41"
  | Some _ => MROClassifier.Reply " C740 "
  end.

Definition mro_row (n : Z) (name status : string) (message : option string)
    : MRODatabase.mro_product :=
  MRODatabase.mk_mro_product n name None None None None None None None None
    None None status message.

Definition two_pending : MRODatabase.table :=
  [ mro_row 1 "rolamento 6204" "pending" None;
    mro_row 2 "parafuso m8" "pending" None ].

Definition mixed_table : MRODatabase.table :=
  [ mro_row 1 "alicate universal" "error" (Some "timeout");
    mro_row 2 "parafuso m8" "completed" None;
    mro_row 3 "chave de fenda" "error" (Some "timeout") ].

Definition quiet : MROClassifier.world := MROClassifier.mk_world 0 [].

End Samples.

(** ** More of database_mro.py and batch_processor.py *)

Module MROReports.
Import MROClassifier MRODatabase BatchProcessor.

(** The row that [get_classification_stats] returns. The average of
    the confidence scores is left out. *)
Record classification_stats : Type := mk_classification_stats {
  total : Z;
  completed : Z;
  pending : Z;
  errors : Z
}.

(** [COUNT(CASE WHEN processing_status = ... THEN 1 END)] *)
Definition count_status (status : string) (t : table) : Z :=
  Z.of_nat (length (List.filter (is_status status) t)).

(** [get_classification_stats] *)
Definition get_classification_stats (t : table) : classification_stats :=
  mk_classification_stats
    (Z.of_nat (length t))
    (count_status "completed" t)
    (count_status "pending" t)
    (count_status "error" t).

Section WithApi.

Variable api : nat -> prompt -> api_outcome.

(** [SELECT * FROM mro_products WHERE id = %s], then [fetchone()]. *)
Definition fetch_by_id (product_id : Z) (t : table) : option mro_product :=
  List.find (fun r => Z.eqb (id r) product_id) t.

(** The body of the loop of [process_specific_products]: an identifier
    that is not in the table is counted as failed and skipped, before
    [total_processed] is touched; a product that is found is classified
    and stored as in [process_all_pending]. *)
Definition process_specific_step (st : run) (product_id : Z) : run :=
  match fetch_by_id product_id (rows st) with
  | None =>
      let s := counters st in
      mk_run (rows st) (outside st) (current_batch_id st)
        (mk_stats (total_processed s) (successful s) (failed s + 1)
                  (batches_processed s))
  | Some product => process_product api st product
  end.

(** [process_specific_products]; its [stats] has no count of batches,
    which stays 0 here. *)
Definition process_specific_products (product_ids : list Z) (t : table)
    (w : world) (batch_id : Z) : run :=
  fold_left process_specific_step product_ids
            (mk_run t w batch_id (mk_stats 0 0 0 0)).

End WithApi.

End MROReports.

(** ** The batches of process_products.py *)

Module Pipeline.

(** [(len(products) + batch_size - 1) // batch_size], for a batch size
    other than 0. *)
Definition total_batches (n batch_size : Z) : Z :=
  (n + batch_size - 1) / batch_size.

(** [l[start_idx:end_idx]] for indexes that are not negative. *)
Definition slice {A : Type} (l : list A) (start_idx end_idx : Z) : list A :=
  firstn (Z.to_nat (end_idx - start_idx)) (skipn (Z.to_nat start_idx) l).

(** The products of the batch [batch_num] in the loop of [main]. *)
Definition batch_products {A : Type} (products : list A)
    (batch_size batch_num : Z) : list A :=
  let start_idx := batch_num * batch_size in
  let end_idx := Z.min (start_idx + batch_size) (Z.of_nat (length products)) in
  slice products start_idx end_idx.

(** The batches that [for batch_num in range(total_batches)] hands to
    [process_batch], in turn. *)
Definition batches {A : Type} (products : list A) (batch_size : Z)
    : list (list A) :=
  map (fun batch_num => batch_products products batch_size (Z.of_nat batch_num))
      (seq 0 (Z.to_nat (total_batches (Z.of_nat (length products)) batch_size))).

End Pipeline.

(** ** taxonomy.py *)

Module Taxonomy.
Import MROClassifier.

Local Open Scope N_scope.
Local Open Scope string_scope.

Definition DEPARTMENTS : list (string * string) :=
  [ ("D03", "MRO: MATERIAL, REPARO E OPERA" ++ L [199; 195] ++ "O") ].

Definition CATEGORIES : list (string * string) :=
  [ ("S09", "BARRAS E CHAPAS");
    ("S17", "BATERIAS");
    ("S25", "BOMBAS E MOTORES");
    ("S36", "CORRENTES MET" ++ L [193] ++ "LICAS E ENGRENAGENS");
    ("S39", "ELEMENTOS DE FIXA" ++ L [199; 195] ++ "O E VEDA" ++ L [199; 195] ++ "O");
    ("S41", "FERRAMENTAS");
    ("S43", "MATERIAIS DIVERSOS");
    ("S46", "MATERIAIS HIDR" ++ L [193] ++ "ULICOS, PNEUM" ++ L [193] ++ "TICOS, FILTROS E V" ++ L [193] ++ "LVULAS");
    ("S47", "MATERIAIS EL" ++ L [201] ++ "TRICOS E ELETR" ++ L [212] ++ "NICOS");
    ("S49", "LUBRIFICANTES");
    ("S51", "PARTES MEC" ++ L [194] ++ "NICAS, ROLAMENTOS E CORREIAS");
    ("S54", "TUBOS E CONEX" ++ L [213] ++ "ES");
    ("S71", "AUTOMA" ++ L [199; 195] ++ "O INDUSTRIAL");
    ("S72", "EMBALAGENS");
    ("S73", "ILUMINA" ++ L [199; 195] ++ "O");
    ("S74", "QU" ++ L [205] ++ "MICOS INDUSTRIAIS") ].

Definition SUBCATEGORIES : list (string * list (string * string)) :=
  [
    ("S09",
     [ ("C037", "Barras de a" ++ L [231] ++ "o");
       ("C060", "Chapas");
       ("C114", "Ferros Chatos");
       ("C190", "Formas");
       ("C201", "Hastes");
       ("C229", "Tarugos") ]);
    ("S17",
     [ ("C001", "Baterias l" ++ L [237] ++ "tio");
       ("C056", "Baterias n" ++ L [237] ++ "quel");
       ("C110", "Baterias tracion" ++ L [225] ++ "rias");
       ("C187", "Outras baterias") ]);
    ("S25",
     [ ("C002", "Bombas");
       ("C057", "Chaves e compressores");
       ("C111", "H" ++ L [233] ++ "lices");
       ("C188", "Juntas para bomba");
       ("C199", "Motobombas");
       ("C228", "Motores");
       ("C274", "Motovibradores");
       ("C293", "Outros componentes bombas e motores");
       ("C311", "Rotores");
       ("C326", "Servomotores") ]);
    ("S36",
     [ ("C042", "Correntes");
       ("C095", "Emendas");
       ("C145", "Engrenagens");
       ("C175", "Manilhas");
       ("C221", "Olhal");
       ("C247", "Outras correntes e engrenagens");
       ("C268", "Engates") ]);
    ("S39",
     [ ("C026", "Acoplamentos");
       ("C080", "Adesivos e fitas");
       ("C133", "An" ++ L [233] ++ "is el" ++ L [225] ++ "sticos");
       ("C164", "Chumbadores");
       ("C215", "Eletrodos de soldas");
       ("C241", "Gaxetas");
       ("C270", "Juntas de veda" ++ L [231; 227] ++ "o");
       ("C291", "Outros elementos de fixa" ++ L [231; 227] ++ "o e veda" ++ L [231; 227] ++ "o");
       ("C297", "Retentores");
       ("C308", "Parafusos, pregos, porcas, buchas e arruelas");
       ("C325", "Rebites e pinos") ]);
    ("S41",
     [ ("C027", "Abrasivos");
       ("C081", "Ferramentas de corte e desbaste");
       ("C134", "Outras ferramentas manuais");
       ("C165", "Ferramentas para constru" ++ L [231; 227] ++ "o civil");
       ("C216", "Ferramentas perfuradoras");
       ("C739", "Acess" ++ L [243] ++ "rios e consum" ++ L [237] ++ "veis para ferramentas");
       ("C740", "Alicates");
       ("C741", "Chave allen/hexagonal");
       ("C742", "Chave biela");
       ("C743", "Chave combinada");
       ("C744", "Chave de fenda e Phillips");
       ("C745", "Ferramentas a bateria");
       ("C746", "Ferramentas automotivas");
       ("C747", "Ferramentas de medi" ++ L [231; 227] ++ "o");
       ("C748", "Ferramentas el" ++ L [233] ++ "tricas");
       ("C749", "Ferramentas para jardim");
       ("C750", "Ferramentas para pintura");
       ("C751", "Ferramentas para solda");
       ("C752", "Jogos de chave combinada");
       ("C753", "Jogos de ferramentas");
       ("C754", "Jogos de soquetes");
       ("C755", "Torqu" ++ L [237] ++ "metro") ]);
    ("S43",
     [ ("C028", "Lonas e toldos");
       ("C082", "Outros materiais MRO");
       ("C772", "Adubos e fertilizantes") ]);
    ("S46",
     [ ("C029", "Adaptadores, conex" ++ L [245] ++ "es e terminais");
       ("C083", "Amortecedor");
       ("C135", "Atuador pneum" ++ L [225] ++ "tico");
       ("C166", "Balancin");
       ("C217", "Cilindros");
       ("C242", "Eletrov" ++ L [225] ++ "lvulas");
       ("C289", "Engates r" ++ L [225] ++ "pidos");
       ("C307", "Filtros de " ++ L [225] ++ "gua");
       ("C324", "Filtros de ar");
       ("C337", "Filtros de g" ++ L [225] ++ "s");
       ("C346", "Filtros industriais");
       ("C358", "Flanges");
       ("C366", "Luvas hidr" ++ L [225] ++ "ulicas");
       ("C377", "Mangueiras hidr" ++ L [225] ++ "ulicas e industriais");
       ("C390", "Outros materiais hidr" ++ L [225] ++ "ulicos ou pneum" ++ L [225] ++ "ticos");
       ("C395", "Uni" ++ L [227] ++ "o");
       ("C400", "V" ++ L [225] ++ "lvulas");
       ("C719", "Filtros");
       ("C722", "V" ++ L [225] ++ "lvulas") ]);
    ("S47",
     [ ("C025", "Amplificadores");
       ("C079", "Conduletes");
       ("C132", "Fontes de energia");
       ("C163", "Fus" ++ L [237] ++ "veis e disjuntores");
       ("C240", "M" ++ L [243] ++ "dulos");
       ("C269", "Outros componentes eletr" ++ L [244] ++ "nicos");
       ("C290", "Outros materiais el" ++ L [233] ++ "tricos");
       ("C314", "Plugs e adaptadores");
       ("C329", "Resist" ++ L [234] ++ "ncias");
       ("C340", "Terminais");
       ("C350", "Tomadas e interruptores");
       ("C360", "Transformadores");
       ("C773", "Cabos e fios el" ++ L [233] ++ "tricos");
       ("C774", "Chaves magn" ++ L [233] ++ "ticas");
       ("C775", "Contatores");
       ("C776", "Energia solar");
       ("C777", "Extens" ++ L [245] ++ "es el" ++ L [233] ++ "tricas e filtros de linha");
       ("C778", "Ferramentas de eletricista");
       ("C779", "Quadros e caixas el" ++ L [233] ++ "tricas");
       ("C780", "Reatores e soquetes");
       ("C781", "Tubos e eletrodutos") ]);
    ("S49",
     [ ("C048", "Aditivos");
       ("C103", "Graxas");
       ("C150", L [211] ++ "leos lubrificantes");
       ("C183", "Outros fluidos") ]);
    ("S51",
     [ ("C049", "Amortecedores");
       ("C104", "Antiderrapantes para correias");
       ("C151", "Correias e componentes");
       ("C184", "Mancal");
       ("C223", "Molas");
       ("C253", "Outros componentes de partes mec" ++ L [226] ++ "nicas");
       ("C275", "Polias");
       ("C315", "Rolamentos");
       ("C330", "Tensores de correias");
       ("C382", "Molas") ]);
    ("S54",
     [ ("C051", "Conex" ++ L [245] ++ "es");
       ("C097", "Cotovelos");
       ("C152", "Joelhos");
       ("C178", "Luvas");
       ("C224", "Niples PVC");
       ("C249", "Tubos");
       ("C278", "Uni" ++ L [227] ++ "o") ]);
    ("S71",
     [ ("C716", "Conex" ++ L [245] ++ "es");
       ("C717", "Engates");
       ("C718", "Esteira");
       ("C719", "Filtros");
       ("C720", "Mangueiras");
       ("C721", "Outros materiais de automa" ++ L [231; 227] ++ "o industrial");
       ("C722", "V" ++ L [225] ++ "lvulas");
       ("C723", "Ventosas") ]);
    ("S72",
     [ ("C724", "Bobinas kraft ou semi kraft");
       ("C725", "Caixas de papel" ++ L [227] ++ "o");
       ("C726", "Embalagens descart" ++ L [225] ++ "veis");
       ("C727", "Embalagens para delivery");
       ("C728", "Envelopes de seguran" ++ L [231] ++ "a");
       ("C729", "Etiquetas e tags");
       ("C730", "Filme stretch");
       ("C731", "Fitas adesivas");
       ("C732", "Fitas, la" ++ L [231] ++ "os e cord" ++ L [245] ++ "es");
       ("C733", "Lacres");
       ("C734", "Latas");
       ("C735", "Pallets");
       ("C736", "Potes e vidros");
       ("C737", "Sacos e sacolas kraft");
       ("C738", "Sacos e sacolas pl" ++ L [225] ++ "sticas") ]);
    ("S73",
     [ ("C214", "Outros objetos de ilumina" ++ L [231; 227] ++ "o");
       ("C756", "Abajures e c" ++ L [250] ++ "pulas");
       ("C757", "Cord" ++ L [245] ++ "es de luz");
       ("C758", "Fitas de LED");
       ("C759", "Kits de l" ++ L [226] ++ "mpadas");
       ("C760", "L" ++ L [226] ++ "mpadas de LED");
       ("C761", "L" ++ L [226] ++ "mpadas fluorescentes");
       ("C762", "L" ++ L [226] ++ "mpadas hal" ++ L [243] ++ "genas");
       ("C763", "L" ++ L [226] ++ "mpadas incandescentes");
       ("C764", "L" ++ L [226] ++ "mpadas inteligentes");
       ("C765", "Lumin" ++ L [225] ++ "rias");
       ("C766", "Lustres e pendentes");
       ("C767", "Outros tipos de l" ++ L [226] ++ "mpadas");
       ("C768", "Painel de LED");
       ("C769", "Refletores");
       ("C770", "Soquetes para l" ++ L [226] ++ "mpadas");
       ("C771", "Spots") ]);
    ("S74",
     [ ("C782", L [193] ++ "cidos");
       ("C783", "Gases");
       ("C784", "Metais qu" ++ L [237] ++ "micos");
       ("C785", "Qu" ++ L [237] ++ "micos inorg" ++ L [226] ++ "nicos");
       ("C786", "Qu" ++ L [237] ++ "micos org" ++ L [226] ++ "nicos");
       ("C787", "Reagentes qu" ++ L [237] ++ "micos");
       ("C788", "Solventes") ]) ].

(** [get_category_by_subcategory]: the first category, in the order of
    [SUBCATEGORIES], that lists the code. *)
Fixpoint first_category (subcategory_code : string)
    (table : list (string * list (string * string))) : option string :=
  match table with
  | [] => None
  | (cat_code, subcats) :: rest =>
      if has_key subcategory_code subcats then Some cat_code
      else first_category subcategory_code rest
  end.

Definition get_category_by_subcategory (subcategory_code : string)
    : option string :=
  first_category subcategory_code SUBCATEGORIES.

(** The dict that [get_full_classification] returns. *)
Record full_classification : Type := mk_full_classification {
  department_code : string;
  department_name : string;
  category_code : string;
  category_name : string;
  subcategory_code : string;
  subcategory_name : string
}.

(** [get_full_classification]; [DEPARTMENTS] has the key D03. *)
Definition get_full_classification (category_code subcategory_code : string)
    : full_classification :=
  mk_full_classification
    "D03"
    (default "" (lookup "D03" DEPARTMENTS))
    category_code
    (default "Unknown" (lookup category_code CATEGORIES))
    subcategory_code
    (default "Unknown"
       (lookup subcategory_code
               (default [] (lookup category_code SUBCATEGORIES)))).

End Taxonomy.

(** ** The group summaries of database.py *)

Module DuplicateGroups.

(** A row of [duplicate_groups]; the primary key [group_id] is the key
    of the map that holds the rows. [confidence_avg] is never written by
    the code and the timestamps are left out. *)
Record group_row : Type := mk_group_row {
  master_product_id : Z;
  normalized_master_name : string;
  product_count : Z;
  variations : list string
}.

(** [update_duplicate_group]: [INSERT INTO duplicate_groups (group_id,
    master_product_id, normalized_master_name, product_count,
    variations) VALUES (%s, %s, %s, %s, %s) ON CONFLICT (group_id) DO
    UPDATE SET product_count = duplicate_groups.product_count + 1,
    variations = %s], with [len(variations)] as the count of a new
    row. *)
Definition update_duplicate_group (group_id master_id : Z)
    (master_name : string) (vars : list string)
    (t : gmap Z group_row) : gmap Z group_row :=
  match t !! group_id with
  | Some r =>
      <[group_id := mk_group_row (master_product_id r)
                      (normalized_master_name r) (product_count r + 1) vars]> t
  | None =>
      <[group_id := mk_group_row master_id master_name
                      (Z.of_nat (length vars)) vars]> t
  end.

End DuplicateGroups.

(** ** Vocabulary of the further statements *)

Module Props.
Import Database.

(** The key type of the first item of a key dict that carries the hash
    key [h]. *)
Fixpoint first_type (h : string) (hash_keys : list (string * string))
    : option string :=
  match hash_keys with
  | [] => None
  | (kt, h') :: rest =>
      if decide (h' = h) then Some kt else first_type h rest
  end.

(** [start], [start + 1], ..., [n] numbers in all. *)
Definition consecutive (start : Z) (n : nat) : list Z :=
  map (fun i => start + Z.of_nat i) (seq 0 n).

(** The weights at which [check_duplicate_by_keys] can report a
    duplicate: those of [key_weights] from the threshold up. *)
Definition duplicate_weights : list float :=
  [ Float64.of_Z 1; Float64.dec 95 2; Float64.dec 90 2; Float64.dec 85 2 ].

(** Every character of the string is of the class [p]. *)
Fixpoint all_chars (p : ascii -> bool) (s : string) : bool :=
  match s with
  | EmptyString => true
  | String c t => p c && all_chars p t
  end.

(** The characters of the string that are of the class [p]. *)
Fixpoint keep (p : ascii -> bool) (s : string) : string :=
  match s with
  | EmptyString => EmptyString
  | String c t => if p c then String c (keep p t) else keep p t
  end.

(** [[a-z0-9]] *)
Definition alnum (c : ascii) : bool :=
  PyStr.between 97 122 c || PyStr.isdigit c.






(** A character that [lower] and the removal of accents leave as it
    is. *)
Definition plain (c : ascii) : bool :=
  Ascii.eqb (PyStr.lower_char c) c && Ascii.eqb (PyStr.strip_mark c) c.

(** A word as [split] gives it: not empty and without a space. *)
Definition word (w : string) : bool :=
  Classify.nonempty w && all_chars (fun c => negb (PyStr.isspace c)) w.

(** The step of the loop over [replacements]. *)
Definition replace_step (acc : string) (entry : string * string) : string :=
  let '(old, new) := entry in PyStr.replace old new acc.

(** The [replacements] without the entry for [polegada]. *)
Definition replacements_but_polegada : list (string * string) :=
  List.filter (fun entry => negb (String.eqb (fst entry) "polegada"))
              Classify.replacements.

(** The seconds that the [time.sleep] calls between two attempts take
    in all. *)
Fixpoint waited (es : list MROClassifier.event) : Z :=
  match es with
  | [] => 0
  | MROClassifier.Backoff seconds :: rest => seconds + waited rest
  | _ :: rest => waited rest
  end.

Definition is_backoff (e : MROClassifier.event) : Prop :=
  match e with
  | MROClassifier.Backoff _ => True
  | _ => False
  end.

(** How many rounds the batch loop takes for [pending] rows: without a
    limit (batch size 0) one round takes them all, and otherwise each
    round takes [batch_size] of them. *)
Definition rounds (batch_size pending : Z) : Z :=
  if Z.eqb batch_size 0
  then (if Z.eqb pending 0 then 0 else 1)
  else (pending + batch_size - 1) / batch_size.

(** The table has a row with the identifier. *)
Definition known (t : MRODatabase.table) (product_id : Z) : bool :=
  existsb (fun r => Z.eqb (MRODatabase.id r) product_id) t.

(** The category that [get_category_by_subcategory] answers for a code
    listed under [cat]: the two codes that S46 and S71 share are found
    under S46, which comes first. *)
Definition first_listing (cat sub : string) : string :=
  if String.eqb cat "S71" && (String.eqb sub "C719" || String.eqb sub "C722")
  then "S46" else cat.

(** A later call of [update_duplicate_group] for a group: the master
    identifier, the master name and the variations it passes. *)
Definition group_call : Type := (Z * string * list string)%type.

Definition apply_group_call (group_id : Z)
    (t : gmap Z DuplicateGroups.group_row) (c : group_call)
    : gmap Z DuplicateGroups.group_row :=
  DuplicateGroups.update_duplicate_group group_id (fst (fst c)) (snd (fst c))
    (snd c) t.

(** A code of the taxonomy: a letter and [n] digits. *)
Definition code_of (letter : ascii) (n : nat) (c : string) : Prop :=
  exists digits,
    c = String letter digits /\ String.length digits = n /\
    all_chars PyStr.isdigit digits = true.

(** A run after a first batch: the later batches, each with its
    identifier, processed in turn. *)
Definition later_batches (s : db) (batches : list (string * list product))
    : db :=
  fold_left (fun acc batch => Classify.process_batch (fst batch) acc (snd batch))
            batches s.

(** Every binding of [d] is still a binding of [d']. *)
Definition keeps_bindings (d d' : gmap string dict_row) : Prop :=
  forall h r,
    d !! h = Some r -> exists r', d' !! h = Some r' /\ Spec.same_binding r r'.

(** The scores the scan of [check_duplicate_by_keys] can hold: 0.0 at
    the start, then a weight of [key_weights] or the default 0.5. *)
Definition scan_scores : list float :=
  [ Float64.of_Z 1; Float64.dec 95 2; Float64.dec 90 2; Float64.dec 85 2;
    Float64.dec 75 2; Float64.dec 5 1; Float64.of_Z 0 ].

End Props.

(** * Properties *)

(** ** The duplicate dictionary *)

Section Dictionary.
Import Database Spec.

Lemma same_binding_refl r : same_binding r r.
Proof. repeat split. Qed.

Lemma same_binding_bump r r' : same_binding r r' -> same_binding r (bump r').
Proof.
  unfold same_binding. intros (? & ? & ? & ?).
  repeat split; simpl; assumption.
Qed.

Lemma insert_or_bump_present h g kt w pid (d : gmap string dict_row) r :
  d !! h = Some r -> insert_or_bump h g kt w pid d !! h = Some (bump r).
Proof.
  intros Hr. unfold insert_or_bump. rewrite Hr. apply lookup_insert_eq.
Qed.

Lemma insert_or_bump_other h h' g kt w pid (d : gmap string dict_row) :
  h <> h' -> insert_or_bump h g kt w pid d !! h' = d !! h'.
Proof.
  intros Hne. unfold insert_or_bump.
  destruct (d !! h); rewrite lookup_insert_ne; auto.
Qed.

Lemma register_fold_present pid g ws h :
  forall hk (d : gmap string dict_row) r,
    d !! h = Some r ->
    exists r',
      fold_left (register_step pid g ws) hk d !! h = Some r' /\
      same_binding r r' /\
      hit_count r' = hit_count r + occurrences h hk.
Proof.
  induction hk as [|[kt h'] rest IH]; intros d r Hr; simpl.
  - exists r. split; [assumption|]. split; [apply same_binding_refl | lia].
  - destruct (decide (h' = h)) as [->|Hne].
    + destruct (IH (insert_or_bump h g kt (weight_of ws kt) pid d) (bump r))
        as (r' & Hl & Hb & Hc).
      { apply insert_or_bump_present; assumption. }
      exists r'. split; [exact Hl|]. split.
      * unfold same_binding in *. simpl in Hb. exact Hb.
      * rewrite Hc. simpl. lia.
    + destruct (IH (insert_or_bump h' g kt (weight_of ws kt) pid d) r)
        as (r' & Hl & Hb & Hc).
      { rewrite insert_or_bump_other by assumption. assumption. }
      exists r'. split; [exact Hl|]. split; [exact Hb | lia].
Qed.

(** C5. Once a hash key is in [duplicate_dictionary], an insert attempt
    of [register_product_keys] for it, with whatever group, key type,
    weight and product, keeps the row's group, key type, weight and
    master product and adds one to its [hit_count]; over a whole call the
    binding is kept as well, and [hit_count] grows by one for each item
    of the key dict that carries the hash key. *)
Theorem register_existing_key_keeps_binding :
  forall (s : db) (h : string) (r : dict_row),
    duplicate_dictionary s !! h = Some r ->
    (forall g kt w pid,
       exists r',
         insert_or_bump h g kt w pid (duplicate_dictionary s) !! h = Some r' /\
         same_binding r r' /\ hit_count r' = hit_count r + 1) /\
    (forall pid hk g ws,
       exists r',
         duplicate_dictionary (register_product_keys pid hk g ws s) !! h
           = Some r' /\
         same_binding r r' /\
         hit_count r' = hit_count r + occurrences h hk).
Proof.
  intros s h r Hr. split.
  - intros g kt w pid. exists (bump r).
    split; [apply insert_or_bump_present; assumption|].
    split; [apply same_binding_bump, same_binding_refl | reflexivity].
  - intros pid hk g ws. simpl.
    apply register_fold_present. assumption.
Qed.

(** *** Lookups *)

Lemma same_bindings_refl d : same_bindings d d.
Proof.
  intros h. destruct (d !! h); [apply same_binding_refl | exact I].
Qed.

Lemma same_bindings_bump d d' h :
  same_bindings d d' -> same_bindings d (update_hit_count h d').
Proof.
  intros H h0. specialize (H h0). unfold update_hit_count.
  destruct (decide (h = h0)) as [->|Hne].
  - rewrite lookup_alter_eq.
    destruct (d !! h0), (d' !! h0); simpl;
      first [tauto | apply same_binding_bump; assumption].
  - rewrite lookup_alter_ne by assumption. exact H.
Qed.

Lemma same_bindings_bound_group d d' kt h :
  same_bindings d d' -> bound_group d' kt h = bound_group d kt h.
Proof.
  intros H. specialize (H h). unfold bound_group, select_binding.
  destruct (d !! h) as [r|], (d' !! h) as [r'|]; try tauto.
  destruct H as (Hg & Ht & _). rewrite Ht.
  destruct (decide (key_type r = kt)); simpl; congruence.
Qed.

(** The loop computes what its reads alone compute on the initial
    dictionary, and its writes keep every binding. *)
Lemma check_fold_pure ws d :
  forall hk st,
    same_bindings d (scan_dict st) ->
    let st' := fold_left (check_step ws) hk st in
    same_bindings d (scan_dict st') /\
    (best_match st', best_score st')
      = fold_left (pure_step ws d) hk (best_match st, best_score st).
Proof.
  induction hk as [|[kt h] rest IH]; intros st Hst; simpl; [tauto|].
  assert (Hb := same_bindings_bound_group d (scan_dict st) kt h Hst).
  unfold bound_group in Hb at 1.
  destruct (select_binding (scan_dict st) h kt) as [r|] eqn:Hsel;
    simpl in Hb; rewrite <- Hb.
  - destruct (Float64.ltb (best_score st) (weight_of ws kt)) eqn:Hlt; simpl.
    + apply (IH (mk_scan _ _ _)). simpl.
      apply same_bindings_bump; assumption.
    + apply (IH (mk_scan _ _ _)). simpl.
      apply same_bindings_bump; assumption.
  - apply IH; assumption.
Qed.

Lemma check_duplicate_verdict hk ws d :
  snd (check_duplicate_by_keys hk ws d)
  = let acc := fold_left (pure_step ws d) hk (None, Float64.of_Z 0) in
    match fst acc with
    | Some g =>
        if truthy (fst acc) && Float64.leb (Float64.dec 85 2) (snd acc)
        then Some (g, snd acc) else None
    | None => None
    end.
Proof.
  unfold check_duplicate_by_keys. simpl.
  destruct (check_fold_pure ws d hk (mk_scan d None (Float64.of_Z 0))
              (same_bindings_refl d)) as [_ H].
  simpl in H. unfold verdict. 
  set (st := fold_left (check_step ws) hk _) in *.
  rewrite <- H. reflexivity.
Qed.

(** The writes of the loop: no row appears or disappears, and a row
    keeps its binding and counts the items that found it. *)
Lemma check_fold_hits ws h :
  forall hk st,
    match scan_dict st !! h with
    | Some r =>
        exists r',
          scan_dict (fold_left (check_step ws) hk st) !! h = Some r' /\
          same_binding r r' /\
          hit_count r' = hit_count r + hits h r hk
    | None => scan_dict (fold_left (check_step ws) hk st) !! h = None
    end.
Proof.
  induction hk as [|[kt h'] rest IH]; intros st.
  - simpl. destruct (scan_dict st !! h) as [r|] eqn:Hr; [|reflexivity].
    exists r. split; [reflexivity|].
    split; [apply same_binding_refl | lia].
  - simpl fold_left.
    set (st1 := check_step ws st (kt, h')).
    specialize (IH st1).
    assert (Hst1 :
      scan_dict st1 !! h =
      match scan_dict st !! h with
      | Some r =>
          if decide (h' = h)
          then if decide (key_type r = kt) then Some (bump r) else Some r
          else Some r
      | None => None
      end).
    { unfold st1, check_step, select_binding.
      destruct (decide (h' = h)) as [->|Hne].
      - destruct (scan_dict st !! h) as [r|] eqn:Hr; [|assumption].
        destruct (decide (key_type r = kt)); [|assumption].
        destruct (Float64.ltb _ _); simpl; unfold update_hit_count;
          rewrite lookup_alter_eq, Hr; reflexivity.
      - destruct (scan_dict st !! h') as [r0|] eqn:Hr0.
        + destruct (decide (key_type r0 = kt)).
          * destruct (Float64.ltb _ _); simpl; unfold update_hit_count;
              rewrite lookup_alter_ne by assumption;
              destruct (scan_dict st !! h); reflexivity.
          * destruct (scan_dict st !! h); reflexivity.
        + destruct (scan_dict st !! h); reflexivity. }
    destruct (scan_dict st !! h) as [r|] eqn:Hr.
    + simpl hits.
      destruct (decide (h' = h)) as [->|Hne];
        [destruct (decide (key_type r = kt)) as [Hk|Hk]|];
        rewrite Hst1 in IH; destruct IH as (r' & Hl & Hb & Hc);
        exists r'; (split; [exact Hl|]).
      * split; [exact Hb|].
        rewrite Hc. simpl.
        assert (hits h (bump r) rest = hits h r rest) as ->; [|lia].
        clear. induction rest as [|[kt1 h1] rest IH]; simpl; [reflexivity|].
        rewrite IH. reflexivity.
      * split; [exact Hb | lia].
      * split; [exact Hb | lia].
    + rewrite Hst1 in IH. exact IH.
Qed.

(** C4, as the code has it. A lookup by [check_duplicate_by_keys] adds
    and removes no row of [duplicate_dictionary] and keeps the group, key
    type, weight and master product of every row, but it adds one to the
    [hit_count] of a row for each item of the key dict that finds it. *)
Theorem check_duplicate_by_keys_writes_hit_count_only :
  forall (hk : list (string * string)) (ws : gmap string float)
         (d : gmap string dict_row) (h : string),
    match d !! h with
    | Some r =>
        exists r',
          fst (check_duplicate_by_keys hk ws d) !! h = Some r' /\
          same_binding r r' /\
          hit_count r' = hit_count r + hits h r hk
    | None => fst (check_duplicate_by_keys hk ws d) !! h = None
    end.
Proof.
  intros hk ws d h. unfold check_duplicate_by_keys. simpl.
  exact (check_fold_hits ws h hk (mk_scan d None (Float64.of_Z 0))).
Qed.

(** C4, as stated, fails: the lookup of a known alpha key changes the
    row it finds, whose [hit_count] goes from 0 to 1. *)
Lemma check_duplicate_by_keys_modifies_row :
  let d := Samples.one_alpha in
  let d' := fst (check_duplicate_by_keys [("alpha", "parafusom8")] key_weights d) in
  hit_count <$> d !! "parafusom8" = Some 0 /\
  hit_count <$> d' !! "parafusom8" = Some 1 /\
  d' <> d.
Proof.
  assert (H0 : hit_count <$> Samples.one_alpha !! "parafusom8" = Some 0)
    by (vm_compute; reflexivity).
  assert (H1 : hit_count <$>
            fst (check_duplicate_by_keys [("alpha", "parafusom8")]
                   key_weights Samples.one_alpha) !! "parafusom8" = Some 1)
    by (vm_compute; reflexivity).
  cbv zeta. split; [exact H0|]. split; [exact H1|].
  intros Heq. rewrite Heq, H0 in H1. discriminate H1.
Qed.

(** *** The verdict on the six generated keys *)

Lemma weight_of_exact : weight_of key_weights "exact" = Float64.of_Z 1.
Proof. vm_compute. reflexivity. Qed.
Lemma weight_of_alpha : weight_of key_weights "alpha" = Float64.dec 95 2.
Proof. vm_compute. reflexivity. Qed.
Lemma weight_of_sorted : weight_of key_weights "sorted" = Float64.dec 90 2.
Proof. vm_compute. reflexivity. Qed.
Lemma weight_of_core : weight_of key_weights "core" = Float64.dec 85 2.
Proof. vm_compute. reflexivity. Qed.
Lemma weight_of_dim : weight_of key_weights "dim" = Float64.dec 85 2.
Proof. vm_compute. reflexivity. Qed.
Lemma weight_of_phon : weight_of key_weights "phon" = Float64.dec 75 2.
Proof. vm_compute. reflexivity. Qed.

Lemma truthy_nonzero g : g <> 0 -> truthy (Some g) = true.
Proof.
  intros Hg. unfold truthy. destruct (Z.eqb_spec g 0); [contradiction|reflexivity].
Qed.

(** C6. When several key types of a product's six keys are bound in the
    dictionary, [check_duplicate_by_keys] returns the group bound to the
    first of them in the order exact, alpha, sorted, core, dim, phon,
    with that key type's weight, and no other matching key type weighs
    more: the groups of the other matches play no part. (Group
    identifiers are non-zero: they start at 1.) *)
Theorem check_duplicate_by_keys_highest_weight :
  forall (d : gmap string dict_row) (e a s c dm p : string)
         (kt : string) (g : Z) (others : list (string * Z)),
    matched d (six_keys e a s c dm p) = (kt, g) :: others ->
    others <> [] ->
    g <> 0 ->
    snd (check_duplicate_by_keys (six_keys e a s c dm p) key_weights d)
      = Some (g, weight_of key_weights kt) /\
    Forall (fun m => Float64.leb (weight_of key_weights (fst m))
                                 (weight_of key_weights kt) = true) others.
Proof.
  intros d e a s c dm p kt g others Hm Hothers Hg.
  rewrite check_duplicate_verdict.
  unfold six_keys in *. cbn [matched fold_left pure_step] in *.
  rewrite weight_of_exact, weight_of_alpha, weight_of_sorted,
    weight_of_core, weight_of_dim, weight_of_phon.
  destruct (bound_group d "exact" e) as [g1|];
  destruct (bound_group d "alpha" a) as [g2|];
  destruct (bound_group d "sorted" s) as [g3|];
  destruct (bound_group d "core" c) as [g4|];
  destruct (bound_group d "dim" dm) as [g5|];
  destruct (bound_group d "phon" p) as [g6|];
  try discriminate Hm;
  injection Hm as <- <- <-;
  try (exfalso; apply Hothers; reflexivity);
  (split;
   [ vm_compute;
     match goal with
     | Hz : ?x <> 0 |- _ =>
         destruct x; [exfalso; apply Hz; reflexivity | reflexivity | reflexivity]
     end
   | repeat first
       [ apply List.Forall_nil
       | apply List.Forall_cons; [vm_compute; reflexivity|] ] ]).
Qed.

End Dictionary.

(** ** Duplicate resolution *)

Section Resolution.
Import Database Classify Spec.

Lemma detect_one_verdict s p :
  snd (detect_one s p) =
  match snd (check_duplicate_by_keys (hash_keys p) key_weights
               (duplicate_dictionary s)) with
  | Some (group_id, similarity) => set_duplicate p group_id similarity false
  | None =>
      set_duplicate p
        (get_next_group_id
           (with_dictionary s
              (fst (check_duplicate_by_keys (hash_keys p) key_weights
                      (duplicate_dictionary s)))))
        (Float64.of_Z 1) true
  end.
Proof.
  unfold detect_one.
  destruct (check_duplicate_by_keys _ _ _) as [d' [[g w]|]]; reflexivity.
Qed.


Lemma max_group_id_fold rows :
  forall acc,
    let step := fun (acc : option Z) (r : product_row) =>
      match row_duplicate_group_id r, acc with
      | Some g, Some m => Some (Z.max m g)
      | Some g, None => Some g
      | None, _ => acc
      end in
    (forall a, acc = Some a ->
               exists b, fold_left step rows acc = Some b /\ a <= b) /\
    (forall r g, In r rows -> row_duplicate_group_id r = Some g ->
                 exists b, fold_left step rows acc = Some b /\ g <= b).
Proof.
  induction rows as [|r0 rows IH]; intros acc; cbv zeta; simpl.
  - split; [intros a ->; exists a; split; [reflexivity | lia]|].
    intros r g [].
  - split.
    + intros a ->.
      destruct (row_duplicate_group_id r0) as [g0|].
      * destruct (proj1 (IH (Some (Z.max a g0))) _ eq_refl) as (b & Hb & Hle).
        exists b. split; [exact Hb | lia].
      * destruct (proj1 (IH (Some a)) _ eq_refl) as (b & Hb & Hle).
        exists b. split; [exact Hb | lia].
    + intros r g [<-|Hin] Hg.
      * rewrite Hg. destruct acc as [m|].
        -- destruct (proj1 (IH (Some (Z.max m g))) _ eq_refl) as (b & Hb & Hle).
           exists b. split; [exact Hb | lia].
        -- destruct (proj1 (IH (Some g)) _ eq_refl) as (b & Hb & Hle).
           exists b. split; [exact Hb | lia].
      * apply (proj2 (IH _) r g Hin Hg).
Qed.

(** The part of C1 that holds: the identifier returned is above every
    group identifier of a saved product. *)
Lemma get_next_group_id_above_saved s r g :
  In r (products_enhanced s) -> row_duplicate_group_id r = Some g ->
  g < get_next_group_id s.
Proof.
  intros Hin Hg. unfold get_next_group_id, max_group_id.
  destruct (proj2 (max_group_id_fold (products_enhanced s) None) r g Hin Hg)
    as (b & Hb & Hle).
  cbv zeta in Hb. rewrite Hb. simpl. lia.
Qed.


(** *** Group identifiers are positive *)

Lemma max_group_id_positive rows :
(forall r g, In r rows -> row_duplicate_group_id r = Some g -> 0 < g) ->
forall acc b,
  (forall a, acc = Some a -> 0 < a) ->
  fold_left
    (fun (acc : option Z) (r : product_row) =>
       match row_duplicate_group_id r, acc with
       | Some g, Some m => Some (Z.max m g)
       | Some g, None => Some g
       | None, _ => acc
       end) rows acc = Some b ->
  0 < b.
Proof.
induction rows as [|r0 rows IH]; intros Hrows acc b Hacc; simpl.
- intros H. apply Hacc. exact H.
- apply IH.
  + intros r g Hin. apply Hrows. right. exact Hin.
  + intros a Ha.
    destruct (row_duplicate_group_id r0) as [g0|] eqn:Hg0; [|auto].
    assert (0 < g0) by (apply (Hrows r0); [left; reflexivity | exact Hg0]).
    destruct acc as [m|]; injection Ha as <-; [|assumption].
    assert (0 < m) by (apply Hacc; reflexivity). lia.
Qed.

Lemma get_next_group_id_positive s :
(forall r g, In r (products_enhanced s) ->
             row_duplicate_group_id r = Some g -> 0 < g) ->
0 < get_next_group_id s.
Proof.
intros Hrows. unfold get_next_group_id, max_group_id.
destruct (fold_left _ (products_enhanced s) None) as [b|] eqn:Hb; simpl; [|lia].
assert (0 < b); [|lia].
eapply (max_group_id_positive _ Hrows None b); [discriminate | exact Hb].
Qed.

Lemma pure_fold_bound ws d :
forall hk acc g,
  fst (fold_left (pure_step ws d) hk acc) = Some g ->
  fst acc = Some g \/ exists kt h, bound_group d kt h = Some g.
Proof.
induction hk as [|[kt h] rest IH]; intros acc g; simpl; [auto|].
intros H. apply IH in H. destruct H as [H|H]; [|right; exact H].
destruct (bound_group d kt h) as [g0|] eqn:Hb; [|left; exact H].
destruct (Float64.ltb (snd acc) (weight_of ws kt)); [|left; exact H].
simpl in H. injection H as <-. right. exists kt, h. exact Hb.
Qed.

Lemma verdict_bound hk ws d g w :
snd (check_duplicate_by_keys hk ws d) = Some (g, w) ->
exists h r, d !! h = Some r /\ duplicate_group_id r = g.
Proof.
rewrite check_duplicate_verdict. cbv zeta.
destruct (fst (fold_left (pure_step ws d) hk (None, Float64.of_Z 0)))
  as [g0|] eqn:Hfold; [|discriminate].
destruct (truthy (Some g0) && _); [|discriminate].
intros H. injection H as <- _.
apply pure_fold_bound in Hfold. destruct Hfold as [Hfold|(kt & h & Hb)];
  [discriminate Hfold|].
unfold bound_group, select_binding in Hb.
destruct (d !! h) as [r|] eqn:Hr; [|discriminate Hb].
destruct (decide (key_type r = kt)); [|discriminate Hb].
injection Hb as <-. exists h, r. split; [exact Hr | reflexivity].
Qed.

Lemma same_bindings_positive d d' :
same_bindings d d' ->
(forall h r, d !! h = Some r -> 0 < duplicate_group_id r) ->
forall h r, d' !! h = Some r -> 0 < duplicate_group_id r.
Proof.
intros Hs Hd h r' Hr'. specialize (Hs h). rewrite Hr' in Hs.
destruct (d !! h) as [r|] eqn:Hr; [|destruct Hs].
destruct Hs as (Hg & _). rewrite Hg. eapply Hd. exact Hr.
Qed.

Lemma check_duplicate_same_bindings hk ws d :
same_bindings d (fst (check_duplicate_by_keys hk ws d)).
Proof.
unfold check_duplicate_by_keys. simpl.
exact (proj1 (check_fold_pure ws d hk (mk_scan d None (Float64.of_Z 0))
                (same_bindings_refl d))).
Qed.

Lemma detect_one_positive s p :
groups_positive s ->
groups_positive (fst (detect_one s p)) /\
products_enhanced (fst (detect_one s p)) = products_enhanced s /\
resolved (snd (detect_one s p)).
Proof.
intros [Hrows Hdict]. unfold detect_one.
assert (Hsame := check_duplicate_same_bindings (hash_keys p) key_weights
                   (duplicate_dictionary s)).
assert (Hv := verdict_bound (hash_keys p) key_weights (duplicate_dictionary s)).
destruct (check_duplicate_by_keys (hash_keys p) key_weights
            (duplicate_dictionary s)) as [d' [[g w]|]]; simpl in Hsame, Hv |- *.
- split; [split; [exact Hrows | exact (same_bindings_positive _ _ Hsame Hdict)]|].
  split; [reflexivity|].
  destruct (Hv g w eq_refl) as (h & r & Hr & <-).
  exists (duplicate_group_id r). split; [reflexivity | eapply Hdict; exact Hr].
- split; [split; [exact Hrows | exact (same_bindings_positive _ _ Hsame Hdict)]|].
  split; [reflexivity|].
  eexists. split; [reflexivity|].
  apply get_next_group_id_positive. exact Hrows.
Qed.

Lemma detect_duplicates_positive :
forall ps s,
  groups_positive s ->
  groups_positive (fst (detect_duplicates s ps)) /\
  Forall resolved (snd (detect_duplicates s ps)).
Proof.
induction ps as [|p ps IH]; intros s Hs; simpl.
- split; [exact Hs | constructor].
- destruct (detect_one_positive s p Hs) as (H1 & _ & Hp).
  destruct (detect_one s p) as [s1 p']. simpl in H1, Hp.
  destruct (IH s1 H1) as (H2 & Hps).
  destruct (detect_duplicates s1 ps) as [s2 ps']. simpl in H2, Hps |- *.
  split; [exact H2 | constructor; assumption].
Qed.

Lemma register_fold_positive pid g ws :
0 < g ->
forall hk (d : gmap string dict_row),
  (forall h r, d !! h = Some r -> 0 < duplicate_group_id r) ->
  forall h r,
    fold_left (register_step pid g ws) hk d !! h = Some r ->
    0 < duplicate_group_id r.
Proof.
intros Hg. induction hk as [|[kt h0] rest IH]; intros d Hd; simpl; [exact Hd|].
apply IH. intros h r. unfold insert_or_bump.
destruct (d !! h0) as [r0|] eqn:Hr0.
- destruct (decide (h0 = h)) as [->|Hne].
  + rewrite lookup_insert_eq. intros H. injection H as <-. simpl.
    eapply Hd. exact Hr0.
  + rewrite lookup_insert_ne by assumption. apply Hd.
- destruct (decide (h0 = h)) as [->|Hne].
  + rewrite lookup_insert_eq. intros H. injection H as <-. exact Hg.
  + rewrite lookup_insert_ne by assumption. apply Hd.
Qed.

Lemma save_all_positive batch_id :
forall ps position s,
  groups_positive s -> Forall resolved ps ->
  groups_positive (save_all batch_id position s ps).
Proof.
induction ps as [|p ps IH]; intros position s Hs Hps; [exact Hs|].
cbn [save_all].
inversion Hps as [|p0 ps0 (g & Hg & Hpos) Hrest]; subst.
assert (H1 : groups_positive (fst (save_product p batch_id position s))).
{ destruct Hs as [Hrows Hdict]. split; [|exact Hdict].
  unfold save_product. cbn [fst products_enhanced].
  intros r g0 Hin Hr. apply in_app_or in Hin.
  destruct Hin as [Hin|[<-|[]]]; [eapply Hrows; eassumption|].
  cbn [row_duplicate_group_id] in Hr. rewrite Hg in Hr.
  injection Hr as <-. exact Hpos. }
destruct (save_product p batch_id position s) as [s1 pid]. cbn [fst] in H1.
apply IH; [|exact Hrest].
destruct (default false (is_master p)); [|exact H1].
destruct H1 as [Hr1 Hd1]. split; [exact Hr1|].
unfold register_product_keys. cbn [duplicate_dictionary]. rewrite Hg.
apply register_fold_positive; assumption.
Qed.

(** Group identifiers start at 1 and stay positive: the empty database
has none, and a batch leaves them positive. This is why a bound group
is never the falsy 0 in [check_duplicate_by_keys]. *)
Lemma process_batch_groups_positive batch_id s classified :
groups_positive s ->
groups_positive (process_batch batch_id s classified).
Proof.
intros Hs. unfold process_batch.
destruct (detect_duplicates_positive classified s Hs) as (H1 & H2).
destruct (detect_duplicates s classified) as [s1 ps].
apply save_all_positive; assumption.
Qed.

Lemma empty_db_groups_positive : groups_positive Samples.empty_db.
Proof.
split; [intros r g []|]. intros h r H. simpl in H.
rewrite lookup_empty in H. discriminate H.
Qed.

(** Within one call of [detect_duplicates] the saved products do not
change, so every product that is made a master receives the same
identifier, the one [get_next_group_id] gives before the call. *)
Lemma detect_duplicates_masters_share_id :
forall ps s,
  products_enhanced (fst (detect_duplicates s ps)) = products_enhanced s /\
  Forall (fun p' => is_master p' = Some true ->
                    product_group_id p' = Some (get_next_group_id s))
         (snd (detect_duplicates s ps)).
Proof.
induction ps as [|p ps IH]; intros s; simpl; [split; [reflexivity | constructor]|].
assert (H1 : products_enhanced (fst (detect_one s p)) = products_enhanced s /\
             (is_master (snd (detect_one s p)) = Some true ->
              product_group_id (snd (detect_one s p))
                = Some (get_next_group_id s))).
{ unfold detect_one.
  destruct (check_duplicate_by_keys (hash_keys p) key_weights
              (duplicate_dictionary s)) as [d' [[g w]|]]; simpl.
  - split; [reflexivity | discriminate].
  - split; [reflexivity | intros _; reflexivity]. }
destruct (detect_one s p) as [s1 p']. simpl in H1. destruct H1 as [Hrows Hp].
destruct (IH s1) as [Hrows' Hps].
destruct (detect_duplicates s1 ps) as [s2 ps']. simpl in Hrows', Hps |- *.
split; [congruence|].
constructor; [exact Hp|].
assert (Hid : get_next_group_id s1 = get_next_group_id s)
  by (unfold get_next_group_id; rewrite Hrows; reflexivity).
rewrite <- Hid. exact Hps.
Qed.

(** C1, on the code. Two products of one batch that match nothing in an
    empty database are both made masters of group 1:
    [get_next_group_id] reads the saved products only, and none is saved
    before [detect_duplicates] returns. After the batch is saved, two
    master rows share the group. *)
Theorem detect_duplicates_repeats_group_id :
  let batch :=
    [ Samples.classified 0 "parafuso sextavado m8"
        (generate_hash_keys "parafuso sextavado m8" "PARAFUSO SEXTAVADO M8");
      Samples.classified 1 "rolamento 6204"
        (generate_hash_keys "rolamento 6204" "ROLAMENTO 6204") ] in
  get_next_group_id Samples.empty_db = 1 /\
  map (fun p => (product_group_id p, is_master p))
      (snd (detect_duplicates Samples.empty_db batch))
    = [ (Some 1, Some true); (Some 1, Some true) ] /\
  map (fun r => (row_id r, row_duplicate_group_id r, row_is_master r))
      (products_enhanced (process_batch "batch-1" Samples.empty_db batch))
    = [ (1, Some 1, true); (2, Some 1, true) ].
Proof. vm_compute. repeat split. Qed.

End Resolution.


(** ** The classifier *)

Section Classifier.
Import MROClassifier Spec.

Variable api : nat -> prompt -> api_outcome.

Lemma list_case {A B : Type} (l : list A) (a b : B) :
  l <> [] -> match l with [] => a | _ :: _ => b end = b.
Proof. destruct l; [contradiction | reflexivity]. Qed.

Lemma has_key_In {A : Type} (k : string) (d : list (string * A)) :
  has_key k d = true -> In k (map fst d).
Proof.
  unfold has_key. induction d as [|[k' v] rest IH]; simpl; [discriminate|].
  destruct (String.eqb_spec k k') as [->|Hne]; [left; reflexivity|].
  intros H. right. apply IH. exact H.
Qed.

Lemma d03_categories_nonempty : d03_categories <> [].
Proof. vm_compute. discriminate. Qed.

(** The code that [classify_category] returns for D03 is a key of the
    category table, whatever the service does. *)
Lemma classify_category_known product w :
  has_key (fst (snd (classify_category api product "D03" w)))
          d03_categories = true.
Proof.
  unfold classify_category. fold d03_categories.
  rewrite (list_case d03_categories) by exact d03_categories_nonempty.
  destruct (claude_classify api _ category_pattern 5 w) as [w' [c|]].
  - destruct (Classify.nonempty c && has_key c d03_categories) eqn:Hc.
    + apply andb_true_iff in Hc. destruct Hc as [_ Hk]. exact Hk.
    + unfold category_fallback.
      repeat (match goal with |- context [if ?b then _ else _] => destruct b end);
        vm_compute; reflexivity.
  - unfold category_fallback.
    repeat (match goal with |- context [if ?b then _ else _] => destruct b end);
      vm_compute; reflexivity.
Qed.

(** Every category has subcategories, and its fallback code is not
    empty. *)
Lemma subcategory_tables_complete :
  forallb
    (fun cat =>
       match subcategories_of cat with
       | [] => false
       | subs => Classify.nonempty (fst (subcategory_fallback cat subs))
       end)
    (map fst d03_categories) = true.
Proof. vm_compute. reflexivity. Qed.

(** The code that [classify_subcategory] returns for a category of the
    table is not empty, whatever the service does. *)
Lemma classify_subcategory_nonempty product cat w :
  has_key cat d03_categories = true ->
  Classify.nonempty (fst (snd (classify_subcategory api product cat w))) = true.
Proof.
  intros Hk. apply has_key_In in Hk.
  assert (Ht := subcategory_tables_complete).
  rewrite forallb_forall in Ht. specialize (Ht cat Hk).
  unfold classify_subcategory. fold (subcategories_of cat). fold d03_categories.
  destruct (subcategories_of cat) as [|s0 subs] eqn:Hs; [discriminate Ht|].
  destruct (claude_classify api _ subcategory_pattern 5 w) as [w' [c|]].
  - destruct (Classify.nonempty c && has_key c (s0 :: subs)) eqn:Hc.
    + apply andb_true_iff in Hc. destruct Hc as [Hn _]. exact Hn.
    + exact Ht.
  - exact Ht.
Qed.

Lemma nonempty_has_key {A : Type} (k : string) (d : list (string * A)) :
  Forall (fun kv => Classify.nonempty (fst kv) = true) d ->
  has_key k d = true -> Classify.nonempty k = true.
Proof.
  intros Hd Hk. apply has_key_In in Hk. apply in_map_iff in Hk.
  destruct Hk as ([k' v] & <- & Hin).
  rewrite List.Forall_forall in Hd. exact (Hd _ Hin).
Qed.

Lemma d03_codes_nonempty :
  Forall (fun kv => Classify.nonempty (fst kv) = true) d03_categories.
Proof. vm_compute. repeat constructor. Qed.

Lemma full_confidence_is_one : full_confidence = Float64.of_Z 1.
Proof. vm_compute. reflexivity. Qed.

(** C10. Whatever the service answers, and whether the codes come from
    its answers or from the fallbacks, [classify_product] returns
    without an ['error'] key, with department D03, a category code and
    a subcategory code that are not empty, and the confidence
    [0.33 + 0.33 + 0.34], which is the double 1.0. *)
Theorem classify_product_confidence_constant :
  forall (product_name : string) (batch_id : option Z) (w : world),
    let c := snd (classify_product api product_name batch_id w) in
    cl_error c = None /\
    cl_dept_code c = Some "D03" /\
    (exists cat, cl_cat_code c = Some cat /\ Classify.nonempty cat = true) /\
    (exists sub, cl_sub_code c = Some sub /\ Classify.nonempty sub = true) /\
    cl_confidence c = full_confidence /\
    cl_confidence c = Float64.of_Z 1.
Proof.
  intros product_name batch_id w. cbv zeta.
  unfold classify_product, classify_department.
  assert (Hcat := classify_category_known product_name w).
  destruct (classify_category api product_name "D03" w)
    as [w1 [cat_code cat_name]]. cbn [fst snd] in Hcat.
  assert (Hn : Classify.nonempty cat_code = true)
    by exact (nonempty_has_key _ _ d03_codes_nonempty Hcat).
  rewrite Hn.
  assert (Hsub := classify_subcategory_nonempty product_name cat_code w1 Hcat).
  destruct (classify_subcategory api product_name cat_code w1)
    as [w2 [sub_code sub_name]]. cbn [fst snd] in Hsub.
  rewrite Hsub. cbn [snd cl_error cl_dept_code cl_cat_code cl_sub_code cl_confidence].
  split; [reflexivity|]. split; [reflexivity|].
  split; [exists cat_code; split; [reflexivity | exact Hn]|].
  split; [exists sub_code; split; [reflexivity | exact Hsub]|].
  split; [reflexivity | exact full_confidence_is_one].
Qed.

End Classifier.

(** ** The batch loop *)

Section Batch.
Import MROClassifier MRODatabase BatchProcessor Spec.

Variable api : nat -> prompt -> api_outcome.
Variable bs : Z.

(** *** The outside world only grows *)

Lemma extends_refl w : extends w w.
Proof. exists []. symmetry. apply app_nil_r. Qed.

Lemma extends_trans w1 w2 w3 : extends w1 w2 -> extends w2 w3 -> extends w1 w3.
Proof.
  intros [m1 H1] [m2 H2]. exists (m1 ++ m2)%list.
  rewrite H2, H1. symmetry. apply app_assoc.
Qed.

Lemma extends_In w w' e : extends w w' -> In e (events w) -> In e (events w').
Proof. intros [m H] Hin. rewrite H. apply in_or_app. left. exact Hin. Qed.

Lemma extends_called w : extends w (called w).
Proof. exists []. simpl. symmetry. apply app_nil_r. Qed.

Lemma extends_logged e w : extends w (logged e w).
Proof. exists [e]. reflexivity. Qed.

Lemma claude_attempts_extends p pattern max_retries :
  forall remaining attempt backoff w,
    extends w (fst (claude_attempts api remaining attempt max_retries
                      backoff p pattern w)).
Proof.
  induction remaining as [|k IH]; intros attempt backoff w; simpl.
  - apply extends_refl.
  - destruct (api (calls w) p) as [text| |err].
    + apply extends_called.
    + eapply extends_trans; [|apply IH].
      eapply extends_trans; [apply extends_called | apply extends_logged].
    + destruct (Z.eqb attempt max_retries).
      * apply extends_called.
      * eapply extends_trans; [|apply IH].
        eapply extends_trans; [apply extends_called | apply extends_logged].
Qed.

Lemma classify_category_extends product dept w :
  extends w (fst (classify_category api product dept w)).
Proof.
  unfold classify_category.
  destruct (default [] (lookup dept categories_by_dept)) as [|c0 cs];
    [apply extends_refl|].
  assert (H := claude_attempts_extends (mk_prompt product None (c0 :: cs))
                 category_pattern 5 (Z.to_nat 5) 1 1 w).
  unfold claude_classify.
  destruct (claude_attempts api _ _ _ _ _ _ w) as [w' [c|]]; simpl in H.
  - destruct (Classify.nonempty c && has_key c (c0 :: cs)); exact H.
  - exact H.
Qed.

Lemma classify_subcategory_extends product cat w :
  extends w (fst (classify_subcategory api product cat w)).
Proof.
  unfold classify_subcategory.
  destruct (default [] (lookup cat subcategories_by_cat)) as [|s0 ss];
    [apply extends_refl|].
  match goal with
  | |- context [claude_classify api ?p subcategory_pattern 5 w] =>
      assert (H := claude_attempts_extends p subcategory_pattern 5
                     (Z.to_nat 5) 1 1 w);
      unfold claude_classify;
      destruct (claude_attempts api (Z.to_nat 5) 1 5 1 p subcategory_pattern w)
        as [w' [c|]]; simpl in H
  end.
  - destruct (Classify.nonempty c && has_key c (s0 :: ss)); exact H.
  - exact H.
Qed.

Lemma classify_product_extends name b w :
  extends w (fst (classify_product api name b w)).
Proof.
  unfold classify_product, classify_department.
  assert (H1 := classify_category_extends name "D03" w).
  destruct (classify_category api name "D03" w) as [w1 [cat_code cat_name]].
  simpl in H1.
  destruct (Classify.nonempty cat_code).
  - assert (H2 := classify_subcategory_extends name cat_code w1).
    destruct (classify_subcategory api name cat_code w1)
      as [w2 [sub_code sub_name]]. simpl in H2. simpl.
    eapply extends_trans; eassumption.
  - simpl. exact H1.
Qed.

Lemma classify_product_no_error name b w :
  cl_error (snd (classify_product api name b w)) = None.
Proof.
  unfold classify_product, classify_department.
  destruct (classify_category api name "D03" w) as [w1 [cat_code cat_name]].
  destruct (Classify.nonempty cat_code).
  - destruct (classify_subcategory api name cat_code w1)
      as [w2 [sub_code sub_name]]. reflexivity.
  - reflexivity.
Qed.

(** *** Updates by id *)

Lemma update_where_id_ids f x (t : table) :
  (forall r, id (f r) = id r) ->
  map id (update_where_id f x t) = map id t.
Proof.
  intros Hf. unfold update_where_id. rewrite map_map.
  apply map_ext. intros r. destruct (Z.eqb (id r) x); [apply Hf | reflexivity].
Qed.

Lemma update_where_id_other f x (t : table) r :
  In r t -> id r <> x -> In r (update_where_id f x t).
Proof.
  intros Hin Hne. unfold update_where_id. apply in_map_iff.
  exists r. split; [|exact Hin].
  destruct (Z.eqb_spec (id r) x); [contradiction | reflexivity].
Qed.

Lemma update_where_id_hit f x (t : table) r :
  In r t -> id r = x -> In (f r) (update_where_id f x t).
Proof.
  intros Hin Heq. unfold update_where_id. apply in_map_iff.
  exists r. split; [|exact Hin].
  destruct (Z.eqb_spec (id r) x); [reflexivity | contradiction].
Qed.

Lemma count_update_le f x (t : table) :
  (forall r, is_status "pending" (f r) = false) ->
  (count_pending (update_where_id f x t) <= count_pending t)%nat.
Proof.
  intros Hf. unfold count_pending, update_where_id.
  induction t as [|r t IH]; simpl; [lia|].
  destruct (Z.eqb (id r) x).
  - rewrite Hf. destruct (is_status "pending" r); simpl; lia.
  - destruct (is_status "pending" r); simpl; lia.
Qed.

Lemma count_update_lt f x (t : table) r :
  (forall r, is_status "pending" (f r) = false) ->
  In r t -> is_status "pending" r = true -> id r = x ->
  (count_pending (update_where_id f x t) < count_pending t)%nat.
Proof.
  intros Hf Hin Hp Hx. induction t as [|r0 t IH]; [destruct Hin|].
  assert (Hle := count_update_le f x t Hf).
  unfold count_pending, update_where_id in *. simpl.
  destruct Hin as [->|Hin].
  - destruct (Z.eqb_spec (id r) x); [|contradiction].
    rewrite Hf, Hp. simpl. lia.
  - specialize (IH Hin).
    destruct (Z.eqb (id r0) x).
    + rewrite Hf. destruct (is_status "pending" r0); simpl; lia.
    + destruct (is_status "pending" r0); simpl; lia.
Qed.

Lemma with_classification_not_pending c r :
  is_status "pending" (with_classification c r) = false.
Proof. reflexivity. Qed.

(** *** One product *)

Lemma process_product_rows st p :
  rows (process_product api st p) =
  update_classification (id p)
    (snd (classify_product api (product_name p) (Some (current_batch_id st))
            (logged (Processing (id p)) (outside st))))
    (rows st).
Proof.
  unfold process_product.
  assert (He := classify_product_no_error (product_name p)
                  (Some (current_batch_id st))
                  (logged (Processing (id p)) (outside st))).
  destruct (classify_product api _ _ _) as [w1 c]. simpl in He.
  rewrite He. reflexivity.
Qed.

Lemma process_product_outside st p :
  extends (logged (Processing (id p)) (outside st))
          (outside (process_product api st p)).
Proof.
  unfold process_product.
  assert (He := classify_product_extends (product_name p)
                  (Some (current_batch_id st))
                  (logged (Processing (id p)) (outside st))).
  destruct (classify_product api _ _ _) as [w1 c]. simpl in He.
  destruct (cl_error c); simpl;
    (eapply extends_trans; [exact He | apply extends_logged]).
Qed.

Lemma process_product_logs st p :
  In (Processing (id p)) (events (outside (process_product api st p))).
Proof.
  eapply extends_In; [apply process_product_outside|].
  simpl. apply in_or_app. right. left. reflexivity.
Qed.

Lemma process_product_extends st p :
  extends (outside st) (outside (process_product api st p)).
Proof.
  eapply extends_trans; [apply extends_logged | apply process_product_outside].
Qed.

Lemma process_product_ids st p :
  map id (rows (process_product api st p)) = map id (rows st).
Proof.
  rewrite process_product_rows. apply update_where_id_ids. reflexivity.
Qed.

Lemma process_product_processed st p :
  In p (rows st) -> processed_in api (process_product api st p) p.
Proof.
  intros Hin.
  exists (logged (Processing (id p)) (outside st)), (current_batch_id st).
  split; [|apply process_product_logs].
  rewrite process_product_rows. unfold update_classification.
  apply update_where_id_hit; [exact Hin | reflexivity].
Qed.

Lemma process_product_keeps st p r :
  In r (rows st) -> id r <> id p -> In r (rows (process_product api st p)).
Proof.
  intros Hin Hne. rewrite process_product_rows.
  apply update_where_id_other; assumption.
Qed.

Lemma processed_in_later st st' x :
  processed_in api st x ->
  (forall r, In r (rows st) -> id r = id x -> In r (rows st')) ->
  extends (outside st) (outside st') ->
  processed_in api st' x.
Proof.
  intros (w & b & Hrow & Hev) Hkeep Hext. exists w, b. split.
  - apply Hkeep; [exact Hrow | reflexivity].
  - eapply extends_In; eassumption.
Qed.

(** *** One batch *)

Lemma batch_fold :
  forall ps st,
    List.NoDup (map id ps) ->
    (forall q, In q ps -> In q (rows st)) ->
    let st' := fold_left (process_product api) ps st in
    map id (rows st') = map id (rows st) /\
    (forall q, In q ps -> processed_in api st' q) /\
    (forall r, In r (rows st) -> ~ In (id r) (map id ps) -> In r (rows st')) /\
    extends (outside st) (outside st') /\
    (count_pending (rows st') <= count_pending (rows st))%nat.
Proof.
  induction ps as [|p ps IH]; intros st Hnd Hin; cbv zeta; simpl.
  - split; [reflexivity|]. split; [intros q []|].
    split; [auto|]. split; [apply extends_refl | lia].
  - apply NoDup_cons_iff in Hnd. destruct Hnd as [Hp Hnd].
    assert (Hne : forall q, In q ps -> id q <> id p).
    { intros q Hq Heq. apply Hp. rewrite <- Heq. apply in_map. exact Hq. }
    destruct (IH (process_product api st p) Hnd) as (Hids & Hproc & Hkeep & Hext & Hcount).
    { intros q Hq. apply process_product_keeps; [apply Hin; right; exact Hq|].
      apply Hne. exact Hq. }
    split; [rewrite Hids; apply process_product_ids|].
    split.
    { intros q [<-|Hq]; [|apply Hproc; exact Hq].
      apply (processed_in_later (process_product api st p)).
      - apply process_product_processed. apply Hin. left. reflexivity.
      - intros r Hr Hid. apply Hkeep; [exact Hr|]. rewrite Hid. exact Hp.
      - exact Hext. }
    split.
    { intros r Hr Hnot. apply Hkeep.
      - apply process_product_keeps; [exact Hr|].
        intros Heq. apply Hnot. left. symmetry. exact Heq.
      - intros Hin'. apply Hnot. right. exact Hin'. }
    split; [eapply extends_trans; [apply process_product_extends | exact Hext]|].
    etransitivity; [exact Hcount|].
    rewrite process_product_rows. apply count_update_le.
    apply with_classification_not_pending.
Qed.

Lemma batch_fold_decreases p ps st :
  List.NoDup (map id (p :: ps)) ->
  (forall q, In q (p :: ps) -> In q (rows st)) ->
  is_status "pending" p = true ->
  (count_pending (rows (fold_left (process_product api) (p :: ps) st))
   < count_pending (rows st))%nat.
Proof.
  intros Hnd Hin Hp. simpl.
  apply NoDup_cons_iff in Hnd. destruct Hnd as [Hnp Hnd].
  destruct (batch_fold ps (process_product api st p) Hnd) as (_ & _ & _ & _ & Hc).
  { intros q Hq. apply process_product_keeps; [apply Hin; right; exact Hq|].
    intros Heq. apply Hnp. rewrite <- Heq. apply in_map. exact Hq. }
  eapply Nat.le_lt_trans; [exact Hc|].
  rewrite process_product_rows.
  apply (count_update_lt _ _ _ p);
    [apply with_classification_not_pending | apply Hin; left; reflexivity
    | exact Hp | reflexivity].
Qed.

(** *** The pending products *)

Lemma firstn_In {A : Type} (n : nat) (l : list A) x :
  In x (firstn n l) -> In x l.
Proof.
  intros H. rewrite <- (firstn_skipn n l). apply in_or_app. left. exact H.
Qed.

Lemma NoDup_map_filter {A B : Type} (f : A -> B) (q : A -> bool) (l : list A) :
  List.NoDup (map f l) -> List.NoDup (map f (List.filter q l)).
Proof.
  induction l as [|a l IH]; simpl; intros H; [constructor|].
  apply NoDup_cons_iff in H. destruct H as [Ha Hl].
  destruct (q a); simpl; [|apply IH; exact Hl].
  apply NoDup_cons_iff. split; [|apply IH; exact Hl].
  intros Hin. apply Ha. apply in_map_iff in Hin.
  destruct Hin as (b & Hb & Hin). apply filter_In in Hin.
  apply in_map_iff. exists b. tauto.
Qed.

Lemma NoDup_map_firstn {A B : Type} (f : A -> B) (n : nat) (l : list A) :
  List.NoDup (map f l) -> List.NoDup (map f (firstn n l)).
Proof.
  revert l. induction n as [|n IH]; intros [|a l] H; simpl; try constructor.
  - simpl in H. apply NoDup_cons_iff in H. destruct H as [Ha Hl].
    intros Hin. apply Ha. apply in_map_iff in Hin.
    destruct Hin as (b & Hb & Hin). apply in_map_iff. exists b.
    split; [exact Hb|]. eapply firstn_In; eassumption.
  - simpl in H. apply NoDup_cons_iff in H. apply IH. tauto.
Qed.

Lemma NoDup_map_In_eq {A B : Type} (f : A -> B) (l : list A) a b :
  List.NoDup (map f l) -> In a l -> In b l -> f a = f b -> a = b.
Proof.
  induction l as [|c l IH]; simpl; intros H Ha Hb Heq; [destruct Ha|].
  apply NoDup_cons_iff in H. destruct H as [Hc Hl].
  destruct Ha as [->|Ha], Hb as [->|Hb]; auto.
  - exfalso. apply Hc. rewrite Heq. apply in_map. exact Hb.
  - exfalso. apply Hc. rewrite <- Heq. apply in_map. exact Ha.
Qed.

Lemma get_pending_In t q :
  In q (get_pending_products bs t) ->
  In q t /\ is_status "pending" q = true.
Proof.
  unfold get_pending_products. intros H.
  destruct (Z.eqb bs 0); [apply filter_In; exact H|].
  destruct (Z.ltb bs 0); [destruct H|].
  apply filter_In. eapply firstn_In. exact H.
Qed.

Lemma get_pending_NoDup t :
  List.NoDup (map id t) -> List.NoDup (map id (get_pending_products bs t)).
Proof.
  intros H. unfold get_pending_products.
  destruct (Z.eqb bs 0); [apply NoDup_map_filter; exact H|].
  destruct (Z.ltb bs 0); [constructor|].
  apply NoDup_map_firstn, NoDup_map_filter. exact H.
Qed.

Lemma get_pending_none t :
  0 <= bs -> get_pending_products bs t = [] ->
  forall x, In x t -> is_status "pending" x = false.
Proof.
  unfold get_pending_products. intros Hbs H x Hx.
  destruct (is_status "pending" x) eqn:Hp; [exfalso|reflexivity].
  assert (Hin : In x (List.filter (is_status "pending") t))
    by (apply filter_In; split; assumption).
  destruct (Z.eqb_spec bs 0) as [Hz|Hz]; [rewrite H in Hin; destruct Hin|].
  destruct (Z.ltb_spec bs 0) as [Hneg|_]; [lia|].
  destruct (Z.to_nat bs) as [|n] eqn:Hn; [lia|].
  destruct (List.filter (is_status "pending") t) as [|a l];
    [destruct Hin | discriminate H].
Qed.

(** *** The loop *)

Lemma process_batch_extends st ps :
  extends (outside (fold_left (process_product api) ps st))
          (outside (process_batch api bs st ps)).
Proof.
  unfold process_batch. simpl.
  destruct (Z.eqb _ bs); [apply extends_logged | apply extends_refl].
Qed.

(** With one round of fuel more than there are pending rows, the loop
    reaches its [break]; by then it has taken up every row that was
    pending, and has left the other rows as they were. *)
Lemma batch_loop_complete :
  0 <= bs ->
  forall n st,
    List.NoDup (map id (rows st)) ->
    (count_pending (rows st) < n)%nat ->
    exists st',
      batch_loop api bs n st = Some st' /\
      (forall x, In x (rows st) -> is_status "pending" x = true ->
                 processed_in api st' x) /\
      (forall x, In x (rows st) -> is_status "pending" x = false ->
                 In x (rows st')) /\
      extends (outside st) (outside st').
Proof.
  intros Hbs. induction n as [|n IH]; intros st Hnd Hc; [lia|].
  simpl. destruct (get_pending_products bs (rows st)) as [|p ps] eqn:Hps.
  - exists st. split; [reflexivity|]. split.
    + intros x Hx Hp.
      rewrite (get_pending_none _ Hbs Hps x Hx) in Hp. discriminate Hp.
    + split; [auto | apply extends_refl].
  - assert (Hsub : forall q, In q (p :: ps) ->
                     In q (rows st) /\ is_status "pending" q = true).
    { intros q Hq. apply get_pending_In. rewrite Hps. exact Hq. }
    assert (Hndp : List.NoDup (map id (p :: ps))).
    { rewrite <- Hps. apply get_pending_NoDup. exact Hnd. }
    destruct (batch_fold (p :: ps) st Hndp (fun q Hq => proj1 (Hsub q Hq)))
      as (Hids & Hproc & Hkeep & Hext & _).
    assert (Hdec := batch_fold_decreases p ps st Hndp
                      (fun q Hq => proj1 (Hsub q Hq))
                      (proj2 (Hsub p (or_introl eq_refl)))).
    set (st1 := process_batch api bs st (p :: ps)).
    assert (Hrows1 : rows st1 = rows (fold_left (process_product api) (p :: ps) st))
      by reflexivity.
    assert (Hext1 : extends (outside st) (outside st1)).
    { eapply extends_trans; [exact Hext | apply process_batch_extends]. }
    destruct (IH st1) as (st' & Hrun & Hp' & Hk' & He').
    { rewrite Hrows1, Hids. exact Hnd. }
    { rewrite Hrows1. lia. }
    exists st'. split; [exact Hrun|].
    assert (Hin_batch : forall x, In x (rows st) ->
              In (id x) (map id (p :: ps)) -> In x (p :: ps)).
    { intros x Hx Hidx. apply in_map_iff in Hidx.
      destruct Hidx as (q & Hq & Hqin).
      assert (q = x) as <-; [|exact Hqin].
      eapply (NoDup_map_In_eq id (rows st)); eauto.
      apply Hsub. exact Hqin. }
    split; [|split].
    + intros x Hx Hpx.
      destruct (in_dec Z.eq_dec (id x) (map id (p :: ps))) as [Hidx|Hidx].
      * destruct (Hproc x (Hin_batch x Hx Hidx)) as (w & b & Hrow & Hev).
        exists w, b. split.
        -- apply Hk'; [rewrite Hrows1; exact Hrow | reflexivity].
        -- eapply extends_In; [exact He'|].
           eapply extends_In; [apply process_batch_extends | exact Hev].
      * apply Hp'; [rewrite Hrows1; apply Hkeep; assumption | exact Hpx].
    + intros x Hx Hpx. apply Hk'; [|exact Hpx].
      rewrite Hrows1. apply Hkeep; [exact Hx|].
      intros Hidx. apply (Hin_batch x Hx) in Hidx.
      apply Hsub in Hidx. destruct Hidx as [_ Hp1].
      rewrite Hp1 in Hpx. discriminate Hpx.
    + eapply extends_trans; eassumption.
Qed.

Lemma count_pending_le_length t : (count_pending t <= length t)%nat.
Proof.
  unfold count_pending. induction t as [|r t IH]; simpl; [lia|].
  destruct (is_status "pending" r); simpl; lia.
Qed.

(** *** A service that only fails *)

Lemma claude_attempts_all_fail p pattern max_retries :
  (forall n, is_failure (api n p)) ->
  forall remaining attempt backoff w,
    snd (claude_attempts api remaining attempt max_retries backoff
           p pattern w) = None.
Proof.
  intros Hfail. induction remaining as [|k IH]; intros attempt backoff w;
    simpl; [reflexivity|].
  specialize (Hfail (calls w)).
  destruct (api (calls w) p) as [text| |err]; [destruct Hfail | apply IH |].
  destruct (Z.eqb attempt max_retries); [reflexivity | apply IH].
Qed.

(** The waits of [claude_classify] double from one attempt to the
next, and there are no more of them than attempts. *)
Lemma claude_attempts_backoff p pattern max_retries :
forall remaining attempt backoff w,
  exists n,
    (n <= remaining)%nat /\
    events (fst (claude_attempts api remaining attempt max_retries backoff
                   p pattern w))
    = (events w
       ++ map (fun k => Backoff (backoff * 2 ^ Z.of_nat k)) (seq 0 n))%list.
Proof.
induction remaining as [|k IH]; intros attempt backoff w; simpl.
- exists 0%nat. split; [lia|]. simpl. symmetry. apply app_nil_r.
- assert (Hstep : exists n,
            (n <= S k)%nat /\
            events (fst (claude_attempts api k (attempt + 1) max_retries
                           (backoff * 2) p pattern
                           (logged (Backoff backoff) (called w))))
            = (events w
               ++ map (fun j => Backoff (backoff * 2 ^ Z.of_nat j)) (seq 0 n))%list).
  { destruct (IH (attempt + 1) (backoff * 2)
                (logged (Backoff backoff) (called w))) as (n & Hn & He).
    exists (S n). split; [lia|]. rewrite He. simpl.
    rewrite <- app_assoc. f_equal. simpl. f_equal.
    - f_equal. lia.
    - rewrite <- seq_shift, map_map. apply map_ext. intros j.
      f_equal. rewrite Nat2Z.inj_succ, Z.pow_succ_r by lia. lia. }
  destruct (api (calls w) p) as [text| |err].
  + exists 0%nat. split; [lia|]. simpl. symmetry. apply app_nil_r.
  + exact Hstep.
  + destruct (Z.eqb attempt max_retries); [|exact Hstep].
    exists 0%nat. split; [lia|]. simpl. symmetry. apply app_nil_r.
Qed.

Lemma classify_category_failing product w :
  (forall n p, prompt_product p = product -> is_failure (api n p)) ->
  snd (classify_category api product "D03" w)
    = category_fallback product d03_categories.
Proof.
  intros Hfail. unfold classify_category. fold d03_categories.
  rewrite (list_case d03_categories) by exact d03_categories_nonempty.
  unfold claude_classify.
  assert (H := claude_attempts_all_fail
                 (mk_prompt product None d03_categories) category_pattern 5
                 (fun n => Hfail n (mk_prompt product None d03_categories) eq_refl)
                 (Z.to_nat 5) 1 1 w).
  destruct (claude_attempts api _ _ _ _ _ _ w) as [w' r]. simpl in H.
  rewrite H. reflexivity.
Qed.

Lemma classify_subcategory_failing product cat w :
  (forall n p, prompt_product p = product -> is_failure (api n p)) ->
  has_key cat d03_categories = true ->
  snd (classify_subcategory api product cat w)
    = subcategory_fallback cat (subcategories_of cat).
Proof.
  intros Hfail Hk. apply has_key_In in Hk.
  assert (Ht := subcategory_tables_complete).
  rewrite forallb_forall in Ht. specialize (Ht cat Hk).
  unfold classify_subcategory. fold (subcategories_of cat). fold d03_categories.
  destruct (subcategories_of cat) as [|s0 subs] eqn:Hs; [discriminate Ht|].
  unfold claude_classify.
  match goal with
  | |- context [claude_attempts api ?n 1 5 1 ?p subcategory_pattern w] =>
      assert (H := claude_attempts_all_fail p subcategory_pattern 5
                     (fun k => Hfail k p eq_refl) n 1 1 w);
      destruct (claude_attempts api n 1 5 1 p subcategory_pattern w) as [w' r]
  end.
  simpl in H. rewrite H. reflexivity.
Qed.

Lemma category_fallback_known product :
  has_key (fst (category_fallback product d03_categories)) d03_categories = true.
Proof.
  unfold category_fallback.
  repeat (match goal with |- context [if ?b then _ else _] => destruct b end);
    vm_compute; reflexivity.
Qed.

(** With a service that fails for a product, [classify_product] answers
    with the fallback codes and the full confidence. *)
Lemma classify_product_failing name b w :
  (forall n p, prompt_product p = name -> is_failure (api n p)) ->
  let c := snd (classify_product api name b w) in
  let cat := fst (category_fallback name d03_categories) in
  cl_cat_code c = Some cat /\
  cl_sub_code c = Some (fst (subcategory_fallback cat (subcategories_of cat))) /\
  cl_confidence c = Float64.of_Z 1.
Proof.
  intros Hfail. cbv zeta.
  assert (Hc := classify_category_failing name w Hfail).
  assert (Hk := category_fallback_known name).
  set (fb := category_fallback name d03_categories) in *.
  assert (Hs := fun w1 => classify_subcategory_failing name (fst fb) w1 Hfail Hk).
  assert (Hsn := fun w1 => classify_subcategory_nonempty api name (fst fb) w1 Hk).
  assert (Hn := nonempty_has_key _ _ d03_codes_nonempty Hk).
  unfold classify_product, classify_department.
  destruct (classify_category api name "D03" w) as [w1 [cat_code cat_name]].
  cbn [snd] in Hc. subst fb. rewrite <- Hc in *. cbn [fst] in Hn, Hs, Hsn |- *.
  rewrite Hn. specialize (Hs w1). specialize (Hsn w1).
  destruct (classify_subcategory api name cat_code w1)
    as [w2 [sub_code sub_name]].
  cbn [fst snd] in Hs, Hsn. rewrite Hsn.
  cbn [snd cl_cat_code cl_sub_code cl_confidence].
  split; [reflexivity|]. split; [rewrite <- Hs; reflexivity|].
  exact full_confidence_is_one.
Qed.

(** *** The run *)

Lemma status_eq status r :
  processing_status r = status -> is_status status r = true.
Proof. intros <-. unfold is_status. apply String.eqb_refl. Qed.

(** C3, as the code has it. For every product that is pending, also
    when every call of the service for it fails until the attempts are
    used up: [claude_classify] gives up without raising, the category
    and the subcategory fall back on the keyword rule and on the
    "Others" code, and the product is stored as ['completed'] with
    confidence 1.0 and its [error_message] untouched. The loop goes on:
    every pending product of the table is taken up. *)
Theorem exhausted_retries_complete_with_fallback :
  0 <= bs ->
  forall (t : table) (w : world) (b : Z),
    List.NoDup (map id t) ->
    exists st,
      process_all_pending api bs (S (length t)) t w b = Some st /\
      forall y,
        In y t -> processing_status y = "pending" ->
        In (Processing (id y)) (events (outside st)) /\
        exists y',
          In y' (rows st) /\ id y' = id y /\
          processing_status y' = "completed" /\
          error_message y' = error_message y /\
          ((forall n p, prompt_product p = product_name y ->
                        is_failure (api n p)) ->
           let cat := fst (category_fallback (product_name y) d03_categories) in
           new_category_code y' = Some cat /\
           new_subcategory_code y' =
             Some (fst (subcategory_fallback cat (subcategories_of cat))) /\
           confidence_score y' = Some (Float64.of_Z 1)).
Proof.
  intros Hbs t w b Hnd. unfold process_all_pending.
  destruct (batch_loop_complete Hbs (S (length t))
              (mk_run t w b (mk_stats 0 0 0 0)))
    as (st & Hrun & Hproc & _ & _).
  { exact Hnd. }
  { simpl. assert (H := count_pending_le_length t). lia. }
  exists st. split; [exact Hrun|].
  intros y Hy Hp.
  destruct (Hproc y Hy (status_eq _ _ Hp)) as (w' & b' & Hrow & Hev).
  split; [exact Hev|].
  eexists. split; [exact Hrow|].
  split; [reflexivity|]. split; [reflexivity|]. split; [reflexivity|].
  intros Hfail.
  destruct (classify_product_failing (product_name y) (Some b') w' Hfail)
    as (Hcat & Hsub & Hconf).
  cbv zeta. unfold with_classification.
  cbn [new_category_code new_subcategory_code confidence_score].
  rewrite Hconf. auto.
Qed.

(** *** Reprocessing *)

Lemma reset_fold es :
  forall acc : table,
    fold_left (fun t' product => reset_to_pending (id product) t') es acc
    = map (fun r =>
             if existsb (fun e => Z.eqb (id r) (id e)) es
             then with_status "pending" None r else r) acc.
Proof.
  induction es as [|e es IH]; intros acc; simpl.
  - symmetry. apply map_id.
  - rewrite IH. unfold reset_to_pending, update_where_id.
    rewrite map_map. apply map_ext. intros r.
    destruct (Z.eqb (id r) (id e)); simpl; [|reflexivity].
    destruct (existsb _ es); reflexivity.
Qed.

Lemma existsb_error_products (t : table) r :
  List.NoDup (map id t) -> In r t ->
  existsb (fun e => Z.eqb (id r) (id e)) (error_products t)
  = is_status "error" r.
Proof.
  intros Hnd Hr. unfold error_products.
  destruct (is_status "error" r) eqn:He.
  - apply existsb_exists. exists r.
    split; [apply filter_In; split; assumption | apply Z.eqb_refl].
  - destruct (existsb _ _) eqn:Hex; [|reflexivity].
    apply existsb_exists in Hex. destruct Hex as (e & Hin & Heq).
    apply filter_In in Hin. destruct Hin as [Hin Hee].
    apply Z.eqb_eq in Heq.
    assert (r = e) as -> by (eapply (NoDup_map_In_eq id t); eauto).
    rewrite Hee in He. discriminate He.
Qed.

Lemma reset_errors_map (t : table) :
  List.NoDup (map id t) -> reset_errors t = map requeue t.
Proof.
  intros Hnd. unfold reset_errors. rewrite reset_fold.
  apply map_ext_in. intros r Hr.
  rewrite (existsb_error_products t r Hnd Hr). reflexivity.
Qed.

Lemma status_neq status r :
processing_status r <> status -> is_status status r = false.
Proof.
intros H. unfold is_status.
destruct (String.eqb_spec (processing_status r) status);
  [contradiction | reflexivity].
Qed.

(** C9, as the code has it. The reset of [reprocess_errors] turns every
    row whose status is ['error'] into a row with status ['pending'] and
    no error message, its other columns kept, and changes no other row;
    in the same run the batch loop then takes up each of these products
    and stores its classification. A row that is neither in error nor
    pending is the same after the run. A row that was already pending
    is not: when some product has an error, the batch loop takes it up
    as well and completes it; when none has, nothing is processed. *)
Theorem reprocess_errors_requeues :
0 <= bs ->
forall (t : table) (w : world) (b : Z),
  List.NoDup (map id t) ->
  reset_errors t = map requeue t /\
  (forall x, processing_status x = "error" ->
             processing_status (requeue x) = "pending" /\
             error_message (requeue x) = None /\
             requeue x
             = mk_mro_product (id x) (product_name x) (brand x) (model x)
                 (new_department_code x) (new_department_name x)
                 (new_category_code x) (new_category_name x)
                 (new_subcategory_code x) (new_subcategory_name x)
                 (confidence_score x) (batch_id x) "pending" None) /\
  (forall x, processing_status x <> "error" -> requeue x = x) /\
  (forall x,
     In x t -> processing_status x = "error" ->
     exists x',
       In x' (reset_errors t) /\ id x' = id x /\
       processing_status x' = "pending" /\ error_message x' = None) /\
  exists st,
    reprocess_errors api bs (S (length t)) t w b = Some st /\
    (forall x,
       In x t -> processing_status x = "error" ->
       In (Processing (id x)) (events (outside st)) /\
       exists x',
         In x' (rows st) /\ id x' = id x /\
         processing_status x' = "completed") /\
    (forall x,
       In x t -> processing_status x <> "error" ->
       processing_status x <> "pending" -> In x (rows st)) /\
    (forall x,
       In x t -> processing_status x = "pending" ->
       match error_products t with
       | [] => In x (rows st)
       | _ :: _ =>
           In (Processing (id x)) (events (outside st)) /\
           exists x',
             In x' (rows st) /\ id x' = id x /\
             processing_status x' = "completed"
       end).
Proof.
intros Hbs t w b Hnd.
assert (Herror : forall x, processing_status x = "error" ->
                   requeue x = with_status "pending" None x).
{ intros x Hx. unfold requeue. rewrite (status_eq _ _ Hx). reflexivity. }
assert (Hother : forall x, processing_status x <> "error" -> requeue x = x).
{ intros x Hx. unfold requeue. rewrite (status_neq _ _ Hx). reflexivity. }
split; [apply reset_errors_map; exact Hnd|].
split.
{ intros x Hx. rewrite (Herror x Hx).
  split; [reflexivity|]. split; reflexivity. }
split; [exact Hother|].
split.
{ intros x Hx Hs. exists (requeue x).
  split; [rewrite (reset_errors_map t Hnd); apply in_map; exact Hx|].
  rewrite (Herror x Hs). split; [reflexivity|]. split; reflexivity. }
unfold reprocess_errors.
destruct (error_products t) as [|e es] eqn:Herr.
- eexists. split; [reflexivity|]. split; [|split].
  + intros x Hx Hs. exfalso.
    assert (Hin : In x (error_products t)).
    { apply filter_In. split; [exact Hx | apply status_eq; exact Hs]. }
    rewrite Herr in Hin. destruct Hin.
  + intros x Hx _ _. exact Hx.
  + intros x Hx _. exact Hx.
- unfold process_all_pending.
  destruct (batch_loop_complete Hbs (S (length t))
              (mk_run (reset_errors t) w b (mk_stats 0 0 0 0)))
    as (st & Hrun & Hproc & Hkeep & _).
  { simpl. rewrite (reset_errors_map t Hnd), map_map.
    erewrite map_ext; [exact Hnd|].
    intros r. unfold requeue. destruct (is_status "error" r); reflexivity. }
  { simpl. assert (H := count_pending_le_length (reset_errors t)).
    rewrite (reset_errors_map t Hnd), length_map in H.
    rewrite (reset_errors_map t Hnd). lia. }
  exists st. split; [exact Hrun|]. split; [|split].
  + intros x Hx Hs.
    destruct (Hproc (requeue x)) as (w' & b' & Hrow & Hev).
    { simpl. rewrite (reset_errors_map t Hnd). apply in_map. exact Hx. }
    { rewrite (Herror x Hs). reflexivity. }
    assert (Hid : id (requeue x) = id x).
    { unfold requeue. destruct (is_status "error" x); reflexivity. }
    rewrite Hid in Hev. split; [exact Hev|].
    eexists. split; [exact Hrow|]. split; [exact Hid | reflexivity].
  + intros x Hx Hne Hnp. apply Hkeep; [|apply status_neq; exact Hnp].
    simpl. rewrite (reset_errors_map t Hnd), <- (Hother x Hne).
    apply in_map. exact Hx.
  + intros x Hx Hp.
    assert (Hne : processing_status x <> "error")
      by (rewrite Hp; discriminate).
    destruct (Hproc x) as (w' & b' & Hrow & Hev).
    { simpl. rewrite (reset_errors_map t Hnd), <- (Hother x Hne).
      apply in_map. exact Hx. }
    { apply status_eq. exact Hp. }
    split; [exact Hev|].
    eexists. split; [exact Hrow|]. split; reflexivity.
Qed.

End Batch.

(** ** Hash keys *)

Section Keys.
Import Regex Classify Spec.

(** *** The matcher reads forward *)




Lemma take_nonempty n c t : nonempty (PyStr.take (S n) (String c t)) = true.
Proof. reflexivity. Qed.






(** *** Dimensions *)








(** *** The content hash *)






(** C2, on the code. The abbreviation table rewrites its own output:
    ["sext"] is normalised to ["sextavado"], in which ["sext"] occurs
    again, so that a second pass gives ["sextavadoavado"]. *)
Theorem normalize_product_name_not_idempotent :
  normalize_product_name "sext" = "sextavado" /\
  normalize_product_name (normalize_product_name "sext") = "sextavadoavado" /\
  normalize_product_name (normalize_product_name "sext")
    <> normalize_product_name "sext" /\
  normalize_product_name "parafuso sextavado 12.7mm inox"
    = "parafuso sextavadoavado 12.7mm inox".
Proof.
  assert (H3 : normalize_product_name "parafuso sextavado 12.7mm inox"
               = "parafuso sextavadoavado 12.7mm inox")
    by (vm_compute; reflexivity).
  assert (H1 : normalize_product_name "sext" = "sextavado")
    by (vm_compute; reflexivity).
  assert (H2 : normalize_product_name "sextavado" = "sextavadoavado")
    by (vm_compute; reflexivity).
  rewrite H1, H2.
  split; [reflexivity|]. split; [reflexivity|].
  split; [discriminate | exact H3].
Qed.

End Keys.

(** ** Instances *)

Section Instances.
Import Database Classify MROClassifier MRODatabase BatchProcessor Spec.

Ltac distinct_ids :=
  repeat (apply List.NoDup_cons; [simpl; intuition discriminate|]);
  apply List.NoDup_nil.

(** C5 at work: the alpha key of group 1 is registered again, twice in
    one call, for group 5. *)
Lemma register_existing_key_keeps_binding_witness :
  let s := mk_db [] 0 Samples.one_alpha [] in
  let r := mk_dict_row 1 "alpha" (Float64.dec 95 2) 1 0 in
  let hk := six_keys "parafusom8" "parafusom8" "parafusom8" "" "5f2c1" "par" in
  duplicate_dictionary s !! "parafusom8" = Some r /\
  exists r',
    duplicate_dictionary (register_product_keys 7 hk 5 key_weights s)
      !! "parafusom8" = Some r' /\
    same_binding r r' /\
    hit_count r' = hit_count r + occurrences "parafusom8" hk.
Proof.
  cbv zeta.
  assert (H : duplicate_dictionary (mk_db [] 0 Samples.one_alpha [])
                !! "parafusom8"
              = Some (mk_dict_row 1 "alpha" (Float64.dec 95 2) 1 0))
    by (vm_compute; reflexivity).
  split; [exact H|].
  destruct (register_existing_key_keeps_binding _ _ _ H) as [_ Hreg].
  apply Hreg.
Defined.

(** C6 at work: core and dim are bound to group 4 and phon to group 9;
    the verdict is group 4 with the weight of core. *)
Lemma check_duplicate_by_keys_highest_weight_witness :
  matched Samples.core_and_phon Samples.inox_keys
    = ("core", 4) :: [("dim", 4); ("phon", 9)] /\
  [("dim", 4); ("phon", 9)] <> [] /\
  4 <> 0 /\
  snd (check_duplicate_by_keys Samples.inox_keys key_weights
         Samples.core_and_phon)
    = Some (4, weight_of key_weights "core").
Proof.
  assert (H : matched Samples.core_and_phon Samples.inox_keys
              = ("core", 4) :: [("dim", 4); ("phon", 9)])
    by (vm_compute; reflexivity).
  split; [exact H|]. split; [discriminate|]. split; [discriminate|].
  apply (check_duplicate_by_keys_highest_weight Samples.core_and_phon
           _ _ _ _ _ _ "core" 4 [("dim", 4); ("phon", 9)] H);
    discriminate.
Defined.


(** C3, as stated, fails: with a service that is down, both pending
    products are stored as completed, without error message, after four
    waits of 1, 2, 4 and 8 seconds for each of their two questions. *)
Lemma exhausted_retries_not_marked_error :
  exists st,
    process_all_pending Samples.api_down 10 3 Samples.two_pending
      Samples.quiet 100 = Some st /\
    map (fun r => (id r, processing_status r, error_message r,
                   new_category_code r, new_subcategory_code r))
        (rows st)
      = [ (1, "completed", None, Some "S43", Some "C082");
          (2, "completed", None, Some "S39", Some "C291") ] /\
    events (outside st)
      = [ Processing 1;
          Backoff 1; Backoff 2; Backoff 4; Backoff 8;
          Backoff 1; Backoff 2; Backoff 4; Backoff 8;
          Pacing;
          Processing 2;
          Backoff 1; Backoff 2; Backoff 4; Backoff 8;
          Backoff 1; Backoff 2; Backoff 4; Backoff 8;
          Pacing ] /\
    counters st = mk_stats 2 2 0 1.
Proof. eexists. vm_compute. repeat split. Qed.

(** C3 as the code has it, at work on the same run. *)
Lemma exhausted_retries_complete_with_fallback_witness :
  0 <= 10 /\
  List.NoDup (map id Samples.two_pending) /\
  exists st,
    process_all_pending Samples.api_down 10
      (S (length Samples.two_pending)) Samples.two_pending Samples.quiet 100
      = Some st /\
    forall y,
      In y Samples.two_pending -> processing_status y = "pending" ->
      In (Processing (id y)) (events (outside st)) /\
      exists y',
        In y' (rows st) /\ id y' = id y /\
        processing_status y' = "completed" /\
        error_message y' = error_message y /\
        ((forall n p, prompt_product p = product_name y ->
                      is_failure (Samples.api_down n p)) ->
         let cat := fst (category_fallback (product_name y) d03_categories) in
         new_category_code y' = Some cat /\
         new_subcategory_code y' =
           Some (fst (subcategory_fallback cat (subcategories_of cat))) /\
         confidence_score y' = Some (Float64.of_Z 1)).
Proof.
  assert (Hbs : 0 <= 10) by lia.
  assert (Hnd : List.NoDup (map id Samples.two_pending)) by distinct_ids.
  split; [exact Hbs|]. split; [exact Hnd|].
  exact (exhausted_retries_complete_with_fallback Samples.api_down 10 Hbs
           Samples.two_pending Samples.quiet 100 Hnd).
Defined.

(** C9, as stated, fails: with one product in error and one that is
    pending, reprocessing completes them both, so that a status other
    than ['error'] is changed. *)
Lemma reprocess_errors_completes_pending :
  let t := [ Samples.mro_row 1 "alicate universal" "error" (Some "timeout");
             Samples.mro_row 2 "parafuso m8" "pending" None ] in
  exists st,
    reprocess_errors Samples.api_up 10 3 t Samples.quiet 100 = Some st /\
    map (fun r => (id r, processing_status r, new_category_code r)) t
      = [ (1, "error", None); (2, "pending", None) ] /\
    map (fun r => (id r, processing_status r, new_category_code r)) (rows st)
      = [ (1, "completed", Some "S41"); (2, "completed", Some "S41") ] /\
    events (outside st) = [ Processing 1; Pacing; Processing 2; Pacing ].
Proof. eexists. vm_compute. repeat split. Qed.

(** C9 as the code has it, at work: two of three products have an
    error. *)
Lemma reprocess_errors_requeues_witness :
  0 <= 10 /\
  List.NoDup (map id Samples.mixed_table) /\
  reset_errors Samples.mixed_table = map requeue Samples.mixed_table /\
  (forall x, processing_status x = "error" ->
             processing_status (requeue x) = "pending" /\
             error_message (requeue x) = None) /\
  exists st,
    reprocess_errors Samples.api_up 10 (S (length Samples.mixed_table))
      Samples.mixed_table Samples.quiet 100 = Some st /\
    (forall x,
       In x Samples.mixed_table -> processing_status x = "error" ->
       In (Processing (id x)) (events (outside st)) /\
       exists x',
         In x' (rows st) /\ id x' = id x /\
         processing_status x' = "completed") /\
    (forall x,
       In x Samples.mixed_table -> processing_status x <> "error" ->
       processing_status x <> "pending" -> In x (rows st)).
Proof.
  assert (Hbs : 0 <= 10) by lia.
  assert (Hnd : List.NoDup (map id Samples.mixed_table)) by distinct_ids.
  split; [exact Hbs|]. split; [exact Hnd|].
  destruct (reprocess_errors_requeues Samples.api_up 10 Hbs
              Samples.mixed_table Samples.quiet 100 Hnd)
    as (Hreset & Hreq & _ & _ & st & Hrun & Herr & Hkeep & _).
  split; [exact Hreset|].
  split; [intros x Hx; destruct (Hreq x Hx) as (A & B & _); auto|].
  exists st. auto.
Defined.

(** The same run, evaluated: the completed row is not touched, and the
    two rows with an error are classified from the answers of the
    service. *)
Example reprocess_errors_run :
  exists st,
    reprocess_errors Samples.api_up 10 4 Samples.mixed_table
      Samples.quiet 100 = Some st /\
    map (fun r => (id r, processing_status r, error_message r,
                   new_category_code r, new_subcategory_code r))
        (reset_errors Samples.mixed_table)
      = [ (1, "pending", None, None, None);
          (2, "completed", None, None, None);
          (3, "pending", None, None, None) ] /\
    map (fun r => (id r, processing_status r, error_message r,
                   new_category_code r, new_subcategory_code r))
        (rows st)
      = [ (1, "completed", None, Some "S41", Some "C740");
          (2, "completed", None, None, None);
          (3, "completed", None, Some "S41", Some "C740") ] /\
    events (outside st)
      = [ Processing 1; Pacing; Processing 3; Pacing ].
Proof. eexists. vm_compute. repeat split. Qed.

End Instances.

(** ** The model at work *)

Section Examples.
Import Database Classify Spec.

(** The test vectors of RFC 1321. *)
Example md5_of_empty :
  MD5.hexdigest (PyStr.encode "") = "d41d8cd98f00b204e9800998ecf8427e".
Proof. vm_compute. reflexivity. Qed.

Example md5_of_abc :
  MD5.hexdigest (PyStr.encode "abc") = "900150983cd24fb0d6963f7d28e17f72".
Proof. vm_compute. reflexivity. Qed.

Example md5_of_alphabet :
  MD5.hexdigest (PyStr.encode "abcdefghijklmnopqrstuvwxyz")
    = "c3fcd3d76192e4007dfb496cca67e13b".
Proof. vm_compute. reflexivity. Qed.

(** [format(x, '.2f')] rounds the double, not the decimal that was
    written: 2.675 and 0.615 lie below the tie. *)
Example format_two_decimals :
  map (fun '(m, n) => Float64.format_fixed 2 (Float64.of_ratio m n))
      [(1, 2); (3, 8); (1, 3); (2675, 1000); (123, 200)]%positive
    = ["0.50"; "0.38"; "0.33"; "2.67"; "0.61"].
Proof. vm_compute. reflexivity. Qed.

(** The keys of the product of the local test. The inch conversion is
    never reached: the unit is a dimension of its own, without digits. *)
Example keys_of_parafuso :
  generate_hash_keys "parafuso sext 1/2 pol inox" "PARAFUSO SEXT 1/2 POL INOX"
    = six_keys "parafuso sext 1/2 pol inox" "parafusosext12polinox"
               "1/2_inox_parafuso_pol_sext" "inox_parafuso_pol"
               "2_pol_0.50" "parsex1/2pol".
Proof. vm_compute. reflexivity. Qed.

(** The keys of the empty name. *)
Example keys_of_empty :
  generate_hash_keys "" "" = six_keys "" "" "" "" "d41d8cd98f" "".
Proof. vm_compute. reflexivity. Qed.

(** A master, then the same name again in a later batch: the second
    product joins the group of the first. *)
Example master_then_duplicate :
  let name := "parafuso sextavado m8" in
  let p := Samples.classified 0 name (generate_hash_keys name name) in
  let s1 := process_batch "batch-1" Samples.empty_db [p] in
  let s2 := process_batch "batch-2" s1 [p] in
  map (fun r => (row_id r, row_duplicate_group_id r, row_is_master r,
                 row_similarity_score r))
      (products_enhanced s2)
    = [ (1, Some 1, true, Float64.of_Z 1); (2, Some 1, false, Float64.of_Z 1) ].
Proof. vm_compute. reflexivity. Qed.

End Examples.

(** ** More on the duplicate dictionary *)

Section DictionaryMore.
Import Database Classify Spec Props.

Lemma row_eq (r r' : dict_row) :
  same_binding r r' -> hit_count r' = hit_count r -> r' = r.
Proof.
  unfold same_binding. destruct r, r'. simpl.
  intros (-> & -> & -> & ->) ->. reflexivity.
Qed.

Lemma register_fold_frame pid g ws h :
  forall hk (d : gmap string dict_row),
    ~ In h (map snd hk) ->
    fold_left (register_step pid g ws) hk d !! h = d !! h.
Proof.
  induction hk as [|[kt h'] rest IH]; intros d Hn; simpl; [reflexivity|].
  rewrite IH by (intros Hin; apply Hn; right; exact Hin).
  apply insert_or_bump_other. intros ->. apply Hn. left. reflexivity.
Qed.

Lemma register_fold_fresh pid g ws h kt :
  forall hk (d : gmap string dict_row),
    d !! h = None ->
    first_type h hk = Some kt ->
    fold_left (register_step pid g ws) hk d !! h
    = Some (mk_dict_row g kt (weight_of ws kt) pid (occurrences h hk - 1)).
Proof.
  induction hk as [|[k x] rest IH]; intros d Hd Hf; simpl in *; [discriminate|].
  destruct (decide (x = h)) as [->|Hne].
  - injection Hf as ->.
    set (r0 := mk_dict_row g kt (weight_of ws kt) pid 0).
    assert (Hins : insert_or_bump h g kt (weight_of ws kt) pid d !! h = Some r0).
    { unfold insert_or_bump. rewrite Hd. apply lookup_insert_eq. }
    destruct (register_fold_present pid g ws h rest _ r0 Hins)
      as (r' & Hl & Hb & Hc).
    rewrite Hl. f_equal.
    apply (row_eq (mk_dict_row g kt (weight_of ws kt) pid
                     (1 + occurrences h rest - 1)) r').
    + exact Hb.
    + rewrite Hc. simpl. lia.
  - rewrite IH; [f_equal; f_equal; lia | | exact Hf].
    rewrite insert_or_bump_other by assumption. exact Hd.
Qed.

(** X2. [duplicate_dictionary] has one row per hash key, whatever the
    key type: a hash key that is new to the dictionary is stored by
    [register_product_keys] under the key type of the first item of the
    key dict that carries it, and the later items with the same string
    only count as hits. A lookup of the string under another key type
    then finds nothing, and hash keys outside the key dict are not
    touched. *)
Theorem register_product_keys_first_type_wins :
  forall (s : db) (pid g : Z) (hk : list (string * string))
         (h kt : string),
    duplicate_dictionary s !! h = None ->
    first_type h hk = Some kt ->
    let d' := duplicate_dictionary (register_product_keys pid hk g key_weights s) in
    d' !! h = Some (mk_dict_row g kt (weight_of key_weights kt) pid
                      (occurrences h hk - 1)) /\
    bound_group d' kt h = Some g /\
    (forall kt', kt' <> kt -> bound_group d' kt' h = None) /\
    (forall h', ~ In h' (map snd hk) -> d' !! h' = duplicate_dictionary s !! h').
Proof.
  intros s pid g hk h kt Hd Hf. cbv zeta.
  unfold register_product_keys. cbn [duplicate_dictionary].
  assert (Hrow := register_fold_fresh pid g key_weights h kt hk _ Hd Hf).
  split; [exact Hrow|].
  unfold bound_group, select_binding. rewrite Hrow. simpl.
  split; [destruct (decide (kt = kt)); [reflexivity | contradiction]|].
  split.
  - intros kt' Hne. destruct (decide (kt = kt')); [|reflexivity].
    exfalso. apply Hne. symmetry. assumption.
  - intros h' Hn. apply register_fold_frame. exact Hn.
Qed.

Lemma verdict_of_exact d e a s c dm p g :
  bound_group d "exact" e = Some g -> g <> 0 ->
  snd (check_duplicate_by_keys (six_keys e a s c dm p) key_weights d)
  = Some (g, Float64.of_Z 1).
Proof.
  intros He Hg. rewrite check_duplicate_verdict.
  unfold six_keys. cbn [fold_left pure_step]. rewrite He.
  rewrite weight_of_exact, weight_of_alpha, weight_of_sorted,
    weight_of_core, weight_of_dim, weight_of_phon.
  destruct (bound_group d "alpha" a) as [g2|];
  destruct (bound_group d "sorted" s) as [g3|];
  destruct (bound_group d "core" c) as [g4|];
  destruct (bound_group d "dim" dm) as [g5|];
  destruct (bound_group d "phon" p) as [g6|];
  vm_compute;
  (destruct g; [exfalso; apply Hg; reflexivity | reflexivity | reflexivity]).
Qed.

(** X1. Registering a master's six keys and looking the same keys up
    again finds the master's group with weight 1.0, whenever the exact
    key was new to the dictionary and the group identifier is not
    zero: a product saved as a master is recognised when its name comes
    again. *)
Theorem registered_master_is_found :
  forall (s : db) (pid g : Z) (e a st c dm p : string),
    duplicate_dictionary s !! e = None ->
    g <> 0 ->
    snd (check_duplicate_by_keys (six_keys e a st c dm p) key_weights
           (duplicate_dictionary
              (register_product_keys pid (six_keys e a st c dm p) g
                 key_weights s)))
    = Some (g, Float64.of_Z 1).
Proof.
  intros s pid g e a st c dm p Hd Hg.
  apply verdict_of_exact; [|exact Hg].
  unfold bound_group, select_binding, register_product_keys.
  cbn [duplicate_dictionary].
  rewrite (register_fold_fresh pid g key_weights e "exact"
             (six_keys e a st c dm p) _ Hd).
  - simpl. destruct (decide ("exact" = "exact")); [reflexivity | contradiction].
  - unfold six_keys. simpl. destruct (decide (e = e)); [reflexivity | contradiction].
Qed.

Lemma same_bindings_trans d1 d2 d3 :
  same_bindings d1 d2 -> same_bindings d2 d3 -> same_bindings d1 d3.
Proof.
  intros H12 H23 h. specialize (H12 h). specialize (H23 h).
  destruct (d1 !! h) as [r1|], (d2 !! h) as [r2|], (d3 !! h) as [r3|];
    try tauto.
  unfold same_binding in *.
  destruct H12 as (A1 & A2 & A3 & A4), H23 as (B1 & B2 & B3 & B4).
  repeat split; congruence.
Qed.

Lemma pure_fold_ext ws d d' :
  (forall kt h, bound_group d' kt h = bound_group d kt h) ->
  forall hk acc,
    fold_left (pure_step ws d') hk acc = fold_left (pure_step ws d) hk acc.
Proof.
  intros Hb. induction hk as [|[kt h] rest IH]; intros acc; simpl;
    [reflexivity|].
  rewrite Hb. apply IH.
Qed.

Lemma verdict_same_bindings hk ws d d' :
  same_bindings d d' ->
  snd (check_duplicate_by_keys hk ws d')
  = snd (check_duplicate_by_keys hk ws d).
Proof.
  intros Hs. rewrite !check_duplicate_verdict.
  rewrite (pure_fold_ext ws d d'); [reflexivity|].
  intros kt h. apply same_bindings_bound_group. exact Hs.
Qed.

Lemma detect_one_state s p :
  fst (detect_one s p)
  = with_dictionary s
      (fst (check_duplicate_by_keys (hash_keys p) key_weights
              (duplicate_dictionary s))).
Proof.
  unfold detect_one.
  destruct (check_duplicate_by_keys (hash_keys p) key_weights
              (duplicate_dictionary s)) as [d' [[g w]|]]; reflexivity.
Qed.

Lemma detect_one_same s s' p :
  products_enhanced s' = products_enhanced s ->
  same_bindings (duplicate_dictionary s) (duplicate_dictionary s') ->
  snd (detect_one s' p) = snd (detect_one s p).
Proof.
  intros Hp Hs. rewrite !detect_one_verdict.
  rewrite (verdict_same_bindings _ _ _ _ Hs).
  destruct (snd (check_duplicate_by_keys (hash_keys p) key_weights
                   (duplicate_dictionary s))) as [[g w]|]; [reflexivity|].
  unfold get_next_group_id, with_dictionary. cbn [products_enhanced].
  rewrite Hp. reflexivity.
Qed.

Lemma detect_duplicates_map s0 :
  forall ps s,
    products_enhanced s = products_enhanced s0 ->
    products_enhanced_id_seq s = products_enhanced_id_seq s0 ->
    same_bindings (duplicate_dictionary s0) (duplicate_dictionary s) ->
    let out := detect_duplicates s ps in
    snd out = map (fun p => snd (detect_one s0 p)) ps /\
    products_enhanced (fst out) = products_enhanced s0 /\
    products_enhanced_id_seq (fst out) = products_enhanced_id_seq s0 /\
    same_bindings (duplicate_dictionary s0) (duplicate_dictionary (fst out)).
Proof.
  induction ps as [|p rest IH]; intros s Hp Hq Hs; cbv zeta.
  - simpl. auto.
  - cbn [detect_duplicates].
    pose proof (detect_one_same s0 s p Hp Hs) as Hone.
    pose proof (detect_one_state s p) as Hst.
    destruct (detect_one s p) as [s1 p']. cbn [fst snd] in Hone, Hst.
    assert (Hp1 : products_enhanced s1 = products_enhanced s0).
    { rewrite Hst. exact Hp. }
    assert (Hq1 : products_enhanced_id_seq s1 = products_enhanced_id_seq s0).
    { rewrite Hst. exact Hq. }
    assert (Hs1 : same_bindings (duplicate_dictionary s0)
                    (duplicate_dictionary s1)).
    { rewrite Hst. cbn [with_dictionary duplicate_dictionary].
      eapply same_bindings_trans; [exact Hs|].
      apply check_duplicate_same_bindings. }
    specialize (IH s1 Hp1 Hq1 Hs1). cbv zeta in IH.
    destruct (detect_duplicates s1 rest) as [s2 rest'].
    cbn [fst snd] in *. destruct IH as (I1 & I2 & I3 & I4).
    rewrite I1, Hone. auto.
Qed.

(** X4. [detect_duplicates] resolves every product of the list against
    the database as it was before the call: the outcome for a product is
    the one it would have alone, whatever the products before it in the
    batch, because nothing is saved or registered until the whole list
    is resolved. The call leaves the saved products and every binding of
    the dictionary as they were. *)
Theorem detect_duplicates_ignores_batch_mates :
  forall (s : db) (ps : list product),
    snd (detect_duplicates s ps) = map (fun p => snd (detect_one s p)) ps /\
    products_enhanced (fst (detect_duplicates s ps)) = products_enhanced s /\
    same_bindings (duplicate_dictionary s)
      (duplicate_dictionary (fst (detect_duplicates s ps))).
Proof.
  intros s ps.
  destruct (detect_duplicates_map s ps s eq_refl eq_refl
              (same_bindings_refl _)) as (H1 & H2 & _ & H4).
  auto.
Qed.

Lemma weight_of_configured kt :
  In (weight_of key_weights kt)
     [ Float64.of_Z 1; Float64.dec 95 2; Float64.dec 90 2; Float64.dec 85 2;
       Float64.dec 75 2; Float64.dec 5 1 ].
Proof.
  unfold weight_of, key_weights.
  destruct (decide (kt = "exact")) as [->|N1];
    [rewrite lookup_insert_eq; simpl; tauto | rewrite lookup_insert_ne by congruence].
  destruct (decide (kt = "alpha")) as [->|N2];
    [rewrite lookup_insert_eq; simpl; tauto | rewrite lookup_insert_ne by congruence].
  destruct (decide (kt = "sorted")) as [->|N3];
    [rewrite lookup_insert_eq; simpl; tauto | rewrite lookup_insert_ne by congruence].
  destruct (decide (kt = "core")) as [->|N4];
    [rewrite lookup_insert_eq; simpl; tauto | rewrite lookup_insert_ne by congruence].
  destruct (decide (kt = "dim")) as [->|N5];
    [rewrite lookup_insert_eq; simpl; tauto | rewrite lookup_insert_ne by congruence].
  destruct (decide (kt = "phon")) as [->|N6];
    [rewrite lookup_insert_eq; simpl; tauto | rewrite lookup_insert_ne by congruence].
  rewrite lookup_empty. simpl. tauto.
Qed.

Lemma pure_fold_score d :
  forall hk acc,
    let acc' := fold_left (pure_step key_weights d) hk acc in
    acc' = acc \/
    exists kt h g,
      In (kt, h) hk /\ bound_group d kt h = Some g /\
      acc' = (Some g, weight_of key_weights kt).
Proof.
  induction hk as [|[kt h] rest IH]; intros acc; cbv zeta; cbn [fold_left];
    [left; reflexivity|].
  specialize (IH (pure_step key_weights d acc (kt, h))). cbv zeta in IH.
  destruct IH as [IH|(kt' & h' & g' & Hin & Hb & IH)].
  - rewrite IH. unfold pure_step.
    destruct (bound_group d kt h) as [g|] eqn:Hb; [|left; reflexivity].
    destruct (Float64.ltb (snd acc) (weight_of key_weights kt));
      [|left; reflexivity].
    right. exists kt, h, g. simpl. auto.
  - right. exists kt', h', g'. simpl. auto.
Qed.

Lemma duplicate_weight_cases w :
  In w [ Float64.of_Z 1; Float64.dec 95 2; Float64.dec 90 2; Float64.dec 85 2;
         Float64.dec 75 2; Float64.dec 5 1 ] ->
  Float64.leb (Float64.dec 85 2) w = true ->
  In w duplicate_weights.
Proof.
  unfold duplicate_weights. simpl.
  intros [<-|[<-|[<-|[<-|[<-|[<-|[]]]]]]] H; auto;
    vm_compute in H; discriminate H.
Qed.

Lemma bound_group_row d kt h g :
  bound_group d kt h = Some g ->
  exists r, d !! h = Some r /\ key_type r = kt /\ duplicate_group_id r = g.
Proof.
  unfold bound_group, select_binding.
  destruct (d !! h) as [r|]; [|discriminate].
  destruct (decide (key_type r = kt)); [|discriminate].
  simpl. intros [= <-]. exists r. auto.
Qed.

(** X5. Every product comes out of [detect_duplicates] resolved in one
    of two ways. A master has similarity 1.0 and the identifier that
    [get_next_group_id] gives for the database before the call. A
    duplicate has a group identifier other than zero that the dictionary
    binds, under one of the product's own keys and that key's type, and
    its similarity is the weight of that key type, one of 1.0, 0.95, 0.90
    and 0.85. The other fields of the product are not changed. *)
Theorem detect_duplicates_outcomes :
  forall (s : db) (ps : list product),
    Forall2
      (fun p p' =>
         p' = set_duplicate p (default 0 (product_group_id p'))
                (default (Float64.of_Z 0) (similarity_score p'))
                (default false (is_master p')) /\
         ((is_master p' = Some true /\
           similarity_score p' = Some (Float64.of_Z 1) /\
           product_group_id p' = Some (get_next_group_id s)) \/
          (is_master p' = Some false /\
           exists g kt h r,
             product_group_id p' = Some g /\ g <> 0 /\
             In (kt, h) (hash_keys p) /\
             duplicate_dictionary s !! h = Some r /\
             key_type r = kt /\ duplicate_group_id r = g /\
             similarity_score p' = Some (weight_of key_weights kt) /\
             In (weight_of key_weights kt) duplicate_weights)))
      ps (snd (detect_duplicates s ps)).
Proof.
  intros s ps.
  destruct (detect_duplicates_map s ps s eq_refl eq_refl
              (same_bindings_refl _)) as (-> & _).
  induction ps as [|p rest IH]; simpl; constructor; [|exact IH].
  rewrite detect_one_verdict.
  destruct (snd (check_duplicate_by_keys (hash_keys p) key_weights
                   (duplicate_dictionary s))) as [[g w]|] eqn:Hv.
  - split; [reflexivity|]. right. split; [reflexivity|].
    rewrite check_duplicate_verdict in Hv. cbv zeta in Hv.
    destruct (pure_fold_score (duplicate_dictionary s) (hash_keys p)
                (None, Float64.of_Z 0)) as [He|(kt & h & g' & Hin & Hb & He)];
      rewrite He in Hv; cbn [fst snd] in Hv; [discriminate Hv|].
    destruct (truthy (Some g') && Float64.leb (Float64.dec 85 2)
                                     (weight_of key_weights kt))
      eqn:Hc; [|discriminate Hv].
    injection Hv as <- <-.
    apply andb_true_iff in Hc. destruct Hc as [Ht Hl].
    destruct (bound_group_row _ _ _ _ Hb) as (r & Hr & Hk & Hg).
    exists g', kt, h, r. simpl.
    split; [reflexivity|]. split.
    { intros ->. simpl in Ht. discriminate Ht. }
    repeat (split; [assumption || reflexivity|]).
    apply duplicate_weight_cases; [apply weight_of_configured | exact Hl].
  - split; [reflexivity|]. left. simpl.
    split; [reflexivity|]. split; [reflexivity|].
    reflexivity.
Qed.

Lemma save_all_rows batch_id :
  forall ps position s,
    exists new,
      products_enhanced (save_all batch_id position s ps)
        = (products_enhanced s ++ new)%list /\
      products_enhanced_id_seq (save_all batch_id position s ps)
        = products_enhanced_id_seq s + Z.of_nat (length ps) /\
      map row_id new = consecutive (products_enhanced_id_seq s + 1) (length ps) /\
      map row_batch_position new = consecutive position (length ps) /\
      map row_original_name new = map original_name ps /\
      map row_duplicate_group_id new = map product_group_id ps /\
      Forall (fun r => row_processing_batch_id r = batch_id) new.
Proof.
  assert (Hcons : forall a n,
            consecutive a (S n) = a :: consecutive (a + 1) n).
  { intros a n. unfold consecutive. cbn [seq map].
    f_equal; [lia|]. rewrite <- seq_shift, map_map.
    apply map_ext. intros i. lia. }
  induction ps as [|p rest IH]; intros position s.
  - exists []. simpl. rewrite app_nil_r.
    repeat split; try reflexivity; try lia. constructor.
  - cbn [save_all]. unfold save_product.
    set (row := mk_product_row _ _ _ _ _ _ _ _ _ _ _ _ _ _ _).
    set (s1 := mk_db _ _ _ _).
    set (s2 := if default false (is_master p) then _ else s1).
    assert (Hpe : products_enhanced s2 = (products_enhanced s ++ [row])%list).
    { subst s2. destruct (default false (is_master p)); reflexivity. }
    assert (Hsq : products_enhanced_id_seq s2 = products_enhanced_id_seq s + 1).
    { subst s2. destruct (default false (is_master p)); reflexivity. }
    destruct (IH (position + 1) s2) as (new & H1 & H2 & H3 & H4 & H5 & H6 & H7).
    exists (row :: new). rewrite H1, H2, Hpe, Hsq, <- app_assoc.
    cbn [length map]. rewrite !Hcons, H3, H4, H5, H6, Hsq.
    repeat split; try reflexivity; try lia.
    constructor; [reflexivity | exact H7].
Qed.

(** X3. Steps 2 and 3 of [process_batch] append exactly one row to
    [products_enhanced] for each product of the batch, in the order of
    the batch and after the rows that were there: the new rows take the
    next identifiers of the table's sequence, the batch positions 0, 1,
    2, ..., the batch's identifier and the products' original names, and
    no earlier row is changed. *)
Theorem process_batch_appends_rows :
  forall (batch_id : string) (s : db) (classified : list product),
    exists new,
      products_enhanced (process_batch batch_id s classified)
        = (products_enhanced s ++ new)%list /\
      map row_id new
        = consecutive (products_enhanced_id_seq s + 1) (length classified) /\
      map row_batch_position new = consecutive 0 (length classified) /\
      map row_original_name new = map original_name classified /\
      Forall (fun r => row_processing_batch_id r = batch_id) new.
Proof.
  intros batch_id s classified. unfold process_batch.
  destruct (detect_duplicates_map s classified s eq_refl eq_refl
              (same_bindings_refl _)) as (Hout & Hpe & Hsq & _).
  destruct (detect_duplicates s classified) as [s1 out].
  cbn [fst snd] in *.
  destruct (save_all_rows batch_id out 0 s1)
    as (new & H1 & _ & H3 & H4 & H5 & _ & H7).
  exists new. rewrite H1, H3, H4, H5, Hpe, Hsq.
  assert (Hlen : length out = length classified).
  { rewrite Hout. apply length_map. }
  assert (Hnames : map original_name out = map original_name classified).
  { rewrite Hout, map_map. apply map_ext. intros p.
    rewrite detect_one_verdict.
    destruct (snd (check_duplicate_by_keys _ _ _)) as [[g w]|]; reflexivity. }
  rewrite Hlen, Hnames. auto.
Qed.


Lemma same_binding_trans r1 r2 r3 :
  same_binding r1 r2 -> same_binding r2 r3 -> same_binding r1 r3.
Proof.
  unfold same_binding.
  intros (A1 & A2 & A3 & A4) (B1 & B2 & B3 & B4). repeat split; congruence.
Qed.

Lemma keeps_bindings_refl d : keeps_bindings d d.
Proof. intros h r H. exists r. split; [exact H | apply same_binding_refl]. Qed.

Lemma keeps_bindings_trans d1 d2 d3 :
  keeps_bindings d1 d2 -> keeps_bindings d2 d3 -> keeps_bindings d1 d3.
Proof.
  intros H12 H23 h r Hr.
  destruct (H12 h r Hr) as (r2 & Hr2 & B2).
  destruct (H23 h r2 Hr2) as (r3 & Hr3 & B3).
  exists r3. split; [exact Hr3 | eapply same_binding_trans; eassumption].
Qed.

Lemma same_bindings_keeps d d' : same_bindings d d' -> keeps_bindings d d'.
Proof.
  intros Hs h r Hr. specialize (Hs h). rewrite Hr in Hs.
  destruct (d' !! h) as [r'|]; [|destruct Hs]. exists r'. auto.
Qed.

Lemma same_bindings_absent d d' h :
  same_bindings d d' -> d !! h = None -> d' !! h = None.
Proof.
  intros Hs Hd. specialize (Hs h). rewrite Hd in Hs.
  destruct (d' !! h); [destruct Hs | reflexivity].
Qed.

Lemma register_fold_keeps pid g ws hk (d : gmap string dict_row) :
  keeps_bindings d (fold_left (register_step pid g ws) hk d).
Proof.
  intros h r Hr.
  destruct (register_fold_present pid g ws h hk d r Hr) as (r' & H1 & H2 & _).
  exists r'. auto.
Qed.

Lemma keeps_bound_group d d' kt h g :
  keeps_bindings d d' ->
  bound_group d kt h = Some g -> bound_group d' kt h = Some g.
Proof.
  intros Hk Hb. destruct (bound_group_row _ _ _ _ Hb) as (r & Hr & Ht & Hg).
  destruct (Hk h r Hr) as (r' & Hr' & B1 & B2 & _).
  unfold bound_group, select_binding. rewrite Hr'.
  destruct (decide (key_type r' = kt)) as [_|N]; [|congruence].
  simpl. congruence.
Qed.

(** What [save_all] does to the dictionary. *)
Lemma save_all_step batch_id position s p rest :
  exists s2,
    save_all batch_id position s (p :: rest)
      = save_all batch_id (position + 1) s2 rest /\
    duplicate_dictionary s2
    = (if default false (is_master p)
       then fold_left (register_step (products_enhanced_id_seq s + 1)
                         (default 0 (product_group_id p)) key_weights)
                      (hash_keys p) (duplicate_dictionary s)
       else duplicate_dictionary s).
Proof.
  cbn [save_all]. unfold save_product.
  eexists. split; [reflexivity|].
  destruct (default false (is_master p)); reflexivity.
Qed.

Lemma save_all_keeps batch_id :
  forall ps position s,
    keeps_bindings (duplicate_dictionary s)
      (duplicate_dictionary (save_all batch_id position s ps)).
Proof.
  induction ps as [|p ps IH]; intros position s; [apply keeps_bindings_refl|].
  destruct (save_all_step batch_id position s p ps) as (s2 & -> & Hd).
  eapply keeps_bindings_trans; [|apply IH].
  rewrite Hd. destruct (default false (is_master p));
    [apply register_fold_keeps | apply keeps_bindings_refl].
Qed.

Lemma save_all_absent batch_id e :
  forall ps position s,
    duplicate_dictionary s !! e = None ->
    Forall (fun q => ~ In e (map snd (hash_keys q))) ps ->
    duplicate_dictionary (save_all batch_id position s ps) !! e = None.
Proof.
  induction ps as [|p ps IH]; intros position s Hd Hps; [exact Hd|].
  apply List.Forall_cons_iff in Hps. destruct Hps as [Hp Hps].
  destruct (save_all_step batch_id position s p ps) as (s2 & -> & Hd2).
  apply IH; [|exact Hps]. rewrite Hd2.
  destruct (default false (is_master p)); [|exact Hd].
  rewrite register_fold_frame by exact Hp. exact Hd.
Qed.

Lemma save_all_app batch_id :
  forall l1 l2 position s,
    save_all batch_id position s (l1 ++ l2)
    = save_all batch_id (position + Z.of_nat (length l1))
        (save_all batch_id position s l1) l2.
Proof.
  induction l1 as [|p l1 IH]; intros l2 position s.
  - cbn [app length save_all]. f_equal. lia.
  - rewrite <- app_comm_cons. cbn [save_all]. unfold save_product.
    cbv beta iota zeta. rewrite IH. cbn [length]. f_equal. lia.
Qed.

Lemma process_batch_keeps batch_id s ps :
  keeps_bindings (duplicate_dictionary s)
    (duplicate_dictionary (process_batch batch_id s ps)).
Proof.
  unfold process_batch.
  destruct (detect_duplicates_map s ps s eq_refl eq_refl
              (same_bindings_refl _)) as (_ & _ & _ & Hs).
  destruct (detect_duplicates s ps) as [s1 out]. cbn [fst] in Hs.
  eapply keeps_bindings_trans; [apply same_bindings_keeps; exact Hs|].
  apply save_all_keeps.
Qed.

Lemma later_batches_keeps :
  forall batches s,
    groups_positive s ->
    keeps_bindings (duplicate_dictionary s)
      (duplicate_dictionary (later_batches s batches)) /\
    groups_positive (later_batches s batches).
Proof.
  induction batches as [|[b ps] rest IH]; intros s Hpos.
  - split; [apply keeps_bindings_refl | exact Hpos].
  - unfold later_batches. cbn [fold_left fst snd].
    destruct (IH (process_batch b s ps)
                 (process_batch_groups_positive b s ps Hpos)) as [I1 I2].
    split; [|exact I2].
    eapply keeps_bindings_trans; [apply process_batch_keeps | exact I1].
Qed.

(** The order of the scores. *)
Lemma scan_scores_order :
  forall a b c,
    In a scan_scores -> In b scan_scores -> In c scan_scores ->
    Float64.leb a a = true /\
    (Float64.ltb a b = false -> Float64.leb b a = true) /\
    (Float64.ltb a b = true -> Float64.leb a b = true) /\
    (Float64.leb a b = true -> Float64.leb b c = true ->
     Float64.leb a c = true).
Proof.
  intros a b c Ha Hb Hc. unfold scan_scores in *. cbn [In] in Ha, Hb, Hc.
  destruct Ha as [<-|[<-|[<-|[<-|[<-|[<-|[<-|[]]]]]]]];
  destruct Hb as [<-|[<-|[<-|[<-|[<-|[<-|[<-|[]]]]]]]];
  destruct Hc as [<-|[<-|[<-|[<-|[<-|[<-|[<-|[]]]]]]]];
  vm_compute; repeat split; first [reflexivity | intros; discriminate
                                  | intros; reflexivity].
Qed.

Lemma weight_in_scores kt : In (weight_of key_weights kt) scan_scores.
Proof.
  pose proof (weight_of_configured kt) as H. unfold scan_scores.
  cbn [In] in H |- *. tauto.
Qed.

Lemma pure_step_score d acc item :
  In (snd acc) scan_scores ->
  let acc' := pure_step key_weights d acc item in
  In (snd acc') scan_scores /\ Float64.leb (snd acc) (snd acc') = true /\
  (forall g, bound_group d (fst item) (snd item) = Some g ->
             Float64.leb (weight_of key_weights (fst item)) (snd acc') = true).
Proof.
  intros Ha. destruct item as [kt h]. cbv zeta. cbn [fst snd pure_step].
  pose proof (weight_in_scores kt) as Hw.
  destruct (scan_scores_order (snd acc) (weight_of key_weights kt) (snd acc)
              Ha Hw Ha) as (R1 & T1 & L1 & _).
  destruct (scan_scores_order (weight_of key_weights kt) (snd acc) (snd acc)
              Hw Ha Ha) as (R2 & _).
  destruct (bound_group d kt h) as [g|].
  - destruct (Float64.ltb (snd acc) (weight_of key_weights kt)) eqn:E;
      cbn [snd].
    + split; [exact Hw|]. split; [apply L1; reflexivity|]. intros _ _. exact R2.
    + split; [exact Ha|]. split; [exact R1|]. intros _ _. apply T1. reflexivity.
  - split; [exact Ha|]. split; [exact R1|]. intros g Hg. discriminate Hg.
Qed.

Lemma pure_fold_covers d :
  forall hk acc,
    In (snd acc) scan_scores ->
    let acc' := fold_left (pure_step key_weights d) hk acc in
    In (snd acc') scan_scores /\ Float64.leb (snd acc) (snd acc') = true /\
    (forall kt h g,
       In (kt, h) hk -> bound_group d kt h = Some g ->
       Float64.leb (weight_of key_weights kt) (snd acc') = true).
Proof.
  induction hk as [|item rest IH]; intros acc Ha; cbv zeta; cbn [fold_left].
  - split; [exact Ha|].
    split; [exact (proj1 (scan_scores_order _ _ _ Ha Ha Ha))|].
    intros kt h g [].
  - destruct (pure_step_score d acc item Ha) as (S1 & L1 & C1).
    cbv zeta in S1, L1, C1.
    destruct (IH (pure_step key_weights d acc item) S1) as (S2 & L2 & C2).
    cbv zeta in S2, L2, C2.
    split; [exact S2|]. split.
    + destruct (scan_scores_order (snd acc)
                  (snd (pure_step key_weights d acc item))
                  (snd (fold_left (pure_step key_weights d) rest
                          (pure_step key_weights d acc item)))
                  Ha S1 S2) as (_ & _ & _ & T). auto.
    + intros kt h g [E|Hin] Hb; [subst item|eapply C2; eassumption].
      destruct (scan_scores_order (weight_of key_weights kt)
                  (snd (pure_step key_weights d acc (kt, h)))
                  (snd (fold_left (pure_step key_weights d) rest
                          (pure_step key_weights d acc (kt, h))))
                  (weight_in_scores kt) S1 S2) as (_ & _ & _ & T).
      apply T; [|exact L2]. apply (C1 g). exact Hb.
Qed.

(** A product that is a duplicate stays one when the dictionary gains
    bindings. *)
Lemma verdict_stays hk d d' g w :
  snd (check_duplicate_by_keys hk key_weights d) = Some (g, w) ->
  keeps_bindings d d' ->
  (forall h r, d' !! h = Some r -> 0 < duplicate_group_id r) ->
  exists g' w', snd (check_duplicate_by_keys hk key_weights d') = Some (g', w').
Proof.
  intros Hv Hk Hpos. rewrite check_duplicate_verdict in Hv |- *.
  cbv zeta in Hv |- *.
  assert (H0 : In (snd (@None Z, Float64.of_Z 0)) scan_scores).
  { unfold scan_scores. cbn [snd In]. tauto. }
  destruct (pure_fold_score d hk (None, Float64.of_Z 0))
    as [He|(kt & h & g0 & Hin & Hb & He)];
    rewrite He in Hv; cbn [fst snd] in Hv; [discriminate Hv|].
  destruct (truthy (Some g0) && Float64.leb (Float64.dec 85 2)
                                   (weight_of key_weights kt)) eqn:Hc;
    [|discriminate Hv].
  apply andb_true_iff in Hc. destruct Hc as [_ Hl].
  destruct (pure_fold_covers d' hk (None, Float64.of_Z 0) H0)
    as (S' & _ & C'). cbv zeta in S', C'.
  pose proof (C' kt h g0 Hin (keeps_bound_group _ _ _ _ _ Hk Hb)) as Hcov.
  assert (H85 : In (Float64.dec 85 2) scan_scores).
  { unfold scan_scores. cbn [In]. tauto. }
  destruct (scan_scores_order (Float64.dec 85 2) (weight_of key_weights kt)
              (snd (fold_left (pure_step key_weights d') hk
                      (None, Float64.of_Z 0)))
              H85 (weight_in_scores kt) S') as (_ & _ & _ & T).
  pose proof (T Hl Hcov) as Hge.
  destruct (pure_fold_score d' hk (None, Float64.of_Z 0))
    as [He'|(kt' & h' & g' & Hin' & Hb' & He')].
  - rewrite He' in Hge. cbn [snd] in Hge. vm_compute in Hge.
    discriminate Hge.
  - rewrite He' in Hge |- *. cbn [fst snd] in Hge |- *.
    destruct (bound_group_row _ _ _ _ Hb') as (r & Hr & _ & Hg).
    pose proof (Hpos h' r Hr) as Hp. rewrite Hg in Hp.
    assert (Ht : truthy (Some g') = true) by (apply truthy_nonzero; lia).
    rewrite Ht, Hge. cbn [andb]. eauto.
Qed.

Lemma detect_one_master s p :
  is_master (snd (detect_one s p)) = Some true ->
  snd (check_duplicate_by_keys (hash_keys p) key_weights
         (duplicate_dictionary s)) = None /\
  product_group_id (snd (detect_one s p))
  = Some (get_next_group_id s) /\
  hash_keys (snd (detect_one s p)) = hash_keys p.
Proof.
  rewrite detect_one_verdict.
  destruct (snd (check_duplicate_by_keys (hash_keys p) key_weights
                   (duplicate_dictionary s))) as [[g w]|];
    cbn [set_duplicate is_master product_group_id hash_keys];
    [discriminate|].
  intros _. split; [reflexivity|]. split; reflexivity.
Qed.

Lemma detect_one_keys s p : hash_keys (snd (detect_one s p)) = hash_keys p.
Proof.
  rewrite detect_one_verdict.
  destruct (snd (check_duplicate_by_keys _ _ _)) as [[g w]|]; reflexivity.
Qed.

(** The dictionary after a batch in which [p] is a master whose exact
    key is new. *)
Lemma batch_registers_exact batch_id s before p after e a st c dm ph :
  groups_positive s ->
  duplicate_dictionary s !! e = None ->
  Forall (fun q => ~ In e (map snd (hash_keys q))) before ->
  hash_keys p = six_keys e a st c dm ph ->
  is_master (snd (detect_one s p)) = Some true ->
  bound_group
    (duplicate_dictionary (process_batch batch_id s (before ++ p :: after)))
    "exact" e
  = Some (get_next_group_id s).
Proof.
  intros Hpos Hd Hbefore Hk Hm. unfold process_batch.
  destruct (detect_duplicates_map s (before ++ p :: after) s eq_refl eq_refl
              (same_bindings_refl _)) as (Hout & _ & _ & Hs).
  destruct (detect_duplicates s (before ++ p :: after)) as [s1 out].
  cbn [fst snd] in Hout, Hs. subst out.
  rewrite map_app. cbn [map]. rewrite save_all_app.
  set (s2 := save_all batch_id 0 s1 (map (fun q => snd (detect_one s q)) before)).
  assert (Hd2 : duplicate_dictionary s2 !! e = None).
  { apply save_all_absent; [eapply same_bindings_absent; eassumption|].
    rewrite List.Forall_map. eapply List.Forall_impl; [|exact Hbefore].
    intros q Hq. cbv beta. rewrite detect_one_keys. exact Hq. }
  destruct (save_all_step batch_id
              (0 + Z.of_nat (length (map (fun q => snd (detect_one s q)) before)))
              s2 (snd (detect_one s p))
              (map (fun q => snd (detect_one s q)) after))
    as (s3 & -> & Hd3).
  destruct (detect_one_master s p Hm) as (_ & Hg & Hkeys).
  rewrite Hm, Hg, Hkeys, Hk in Hd3. cbn [from_option] in Hd3.
  unfold Datatypes.id in Hd3.
  eapply keeps_bound_group; [apply save_all_keeps|].
  unfold bound_group, select_binding. rewrite Hd3.
  rewrite (register_fold_fresh _ _ key_weights e "exact"
             (six_keys e a st c dm ph) _ Hd2).
  - simpl. destruct (decide ("exact" = "exact")); [reflexivity | contradiction].
  - unfold six_keys. simpl.
    destruct (decide (e = e)); [reflexivity | contradiction].
Qed.

(** X6. A product that has gone through [process_batch] is recognised
    when its six keys come again, in the batch after or in any later
    one, whatever else the batches hold: it is never resolved as a master
    a second time. When its first occurrence was a master, the later one
    gets the master's group with similarity 1.0. This is proved for a
    database with positive group identifiers, an exact key that was new
    to the dictionary, and a batch in which no product before the master
    has the exact key's string among its own keys: such a string would be
    stored under that product's key type, and not as an exact key. *)
Theorem saved_product_is_recognised :
  forall (s : db) (batch_id : string) (before after : list product)
         (later : list (string * list product)) (p p' : product)
         (e a st c dm ph : string),
    groups_positive s ->
    duplicate_dictionary s !! e = None ->
    Forall (fun q => ~ In e (map snd (hash_keys q))) before ->
    hash_keys p = six_keys e a st c dm ph ->
    hash_keys p' = hash_keys p ->
    let first := snd (detect_one s p) in
    let s' := later_batches
                (process_batch batch_id s (before ++ p :: after)) later in
    let again := snd (detect_one s' p') in
    nth_error (snd (detect_duplicates s (before ++ p :: after)))
              (length before) = Some first /\
    is_master again = Some false /\
    (is_master first = Some true ->
     product_group_id again = product_group_id first /\
     similarity_score again = Some (Float64.of_Z 1)).
Proof.
  intros s batch_id before after later p p' e a st c dm ph
         Hpos Hd Hbefore Hk Hk'. cbv zeta.
  set (s0 := process_batch batch_id s (before ++ p :: after)).
  assert (Hpos0 : groups_positive s0)
    by (apply process_batch_groups_positive; exact Hpos).
  destruct (later_batches_keeps later s0 Hpos0) as [Hkeep Hpos'].
  assert (Hkeep0 : keeps_bindings (duplicate_dictionary s)
                     (duplicate_dictionary (later_batches s0 later))).
  { eapply keeps_bindings_trans; [apply process_batch_keeps | exact Hkeep]. }
  split.
  { destruct (detect_duplicates_map s (before ++ p :: after) s eq_refl eq_refl
                (same_bindings_refl _)) as (-> & _).
    rewrite map_app. cbn [map].
    rewrite nth_error_app2 by (rewrite length_map; lia).
    rewrite length_map, Nat.sub_diag. reflexivity. }
  assert (Hmaster :
    is_master (snd (detect_one s p)) = Some true ->
    snd (check_duplicate_by_keys (hash_keys p') key_weights
           (duplicate_dictionary (later_batches s0 later)))
    = Some (get_next_group_id s, Float64.of_Z 1)).
  { intros Hm. rewrite Hk', Hk. apply verdict_of_exact.
    - eapply keeps_bound_group; [exact Hkeep|].
      apply (batch_registers_exact batch_id s before p after e a st c dm ph);
        assumption.
    - pose proof (get_next_group_id_positive s (proj1 Hpos)). lia. }
  split.
  - rewrite (detect_one_verdict (later_batches s0 later) p').
    destruct (is_master (snd (detect_one s p))) as [[|]|] eqn:Hm.
    + rewrite (Hmaster eq_refl). reflexivity.
    + rewrite detect_one_verdict in Hm.
      destruct (snd (check_duplicate_by_keys (hash_keys p) key_weights
                       (duplicate_dictionary s))) as [[g w]|] eqn:Hv;
        [|discriminate Hm].
      destruct (verdict_stays _ _ _ _ _ Hv Hkeep0 (proj2 Hpos'))
        as (g' & w' & Hv').
      rewrite Hk', Hv'. reflexivity.
    + rewrite detect_one_verdict in Hm.
      destruct (snd (check_duplicate_by_keys (hash_keys p) key_weights
                       (duplicate_dictionary s))) as [[g w]|];
        discriminate Hm.
  - intros Hm. rewrite (detect_one_verdict (later_batches s0 later) p').
    rewrite (Hmaster Hm).
    destruct (detect_one_master s p Hm) as (_ & Hg & _). rewrite Hg.
    split; reflexivity.
Qed.

End DictionaryMore.

(** ** More on the hash keys *)

Section KeysMore.
Import Regex Classify Spec Props.

(** *** What a match reads and captures *)

Lemma append_cons c (t a : string) : String c t ++ a = String c (t ++ a).
Proof. reflexivity. Qed.

Lemma all_chars_app p a b :
  all_chars p (a ++ b) = all_chars p a && all_chars p b.
Proof.
  induction a as [|c t IH]; [reflexivity|].
  rewrite append_cons. simpl. rewrite IH. apply andb_assoc.
Qed.

Lemma append_nil_r (s : string) : s ++ "" = s.
Proof.
  induction s as [|c t IH]; [reflexivity|].
  rewrite append_cons, IH. reflexivity.
Qed.

Lemma append_assoc (a b c : string) : (a ++ b) ++ c = a ++ (b ++ c).
Proof.
  induction a as [|x t IH]; [reflexivity|].
  rewrite !append_cons, IH. reflexivity.
Qed.

Lemma length_append (a b : string) :
  String.length (a ++ b) = (String.length a + String.length b)%nat.
Proof.
  induction a as [|x t IH]; [reflexivity|].
  rewrite append_cons. simpl. rewrite IH. reflexivity.
Qed.

Lemma take_append (a b : string) : PyStr.take (String.length a) (a ++ b) = a.
Proof.
  induction a as [|x t IH]; [destruct b; reflexivity|].
  rewrite append_cons. simpl. rewrite IH. reflexivity.
Qed.

Lemma consumed_prefix st st' pre :
  rest st = pre ++ rest st' -> consumed st st' = pre.
Proof.
  intros H. unfold consumed. rewrite H, length_append.
  replace (String.length pre + String.length (rest st')
           - String.length (rest st'))%nat
    with (String.length pre) by lia.
  apply take_append.
Qed.



Lemma run_lit w :
  forall st st', In st' (run (Lit w) st) -> rest st = w ++ rest st'.
Proof.
  induction w as [|c t IH]; intros st st' Hin; simpl in Hin.
  - destruct Hin as [<-|[]]. reflexivity.
  - apply in_flat_map in Hin. destruct Hin as (s1 & H1 & H2).
    destruct (rest st) as [|x u] eqn:E; [destruct H1|].
    destruct (Ascii.eqb c x) eqn:Hc; [|destruct H1].
    destruct H1 as [<-|[]]. apply Ascii.eqb_eq in Hc. subst x.
    apply IH in H2. simpl in H2. rewrite H2. reflexivity.
Qed.








(** *** The dimensions *)










Lemma lower_char_not_M c : Ascii.eqb "M" (PyStr.lower_char c) = false.
Proof.
  destruct c as [[] [] [] [] [] [] [] []]; vm_compute; reflexivity.
Qed.

Lemma finditer_no_first_char p b :
  forall s skip before,
    all_chars (fun c => negb (p c)) s = true ->
    finditer_from (Seq (Seq (Chr p) Eps) b) skip before s = [].
Proof.
  induction s as [|c t IH]; intros skip before Ha.
  - destruct skip; reflexivity.
  - simpl in Ha. apply andb_true_iff in Ha. destruct Ha as [Hc Ht].
    apply negb_true_iff in Hc.
    destruct skip as [|k]; cbn [finditer_from]; [|apply IH; exact Ht].
    unfold match_at. cbn [run rest flat_map]. rewrite Hc.
    cbn [flat_map]. apply IH. exact Ht.
Qed.

Lemma lower_has_no_M text :
  all_chars (fun c => negb (Ascii.eqb "M" c)) (PyStr.lower text) = true.
Proof.
  induction text as [|c t IH]; [reflexivity|].
  cbn [PyStr.lower all_chars]. rewrite lower_char_not_M, IH. reflexivity.
Qed.

(** X7. The pattern for metric threads, [M(\d+)], is matched against the
    lower-cased text and so never matches: no text gets a dimension from
    it, and the dimensions of a text are those of the two patterns with
    units and of the fraction pattern. *)
Theorem metric_thread_never_matches :
  forall text : string,
    findall1 metric_thread (PyStr.lower text) = [] /\
    raw_dimensions text
    = (first_tuple dim_with_unit (PyStr.lower text)
       ++ first_tuple dim_by_dim (PyStr.lower text)
       ++ findall1 fraction (PyStr.lower text))%list.
Proof.
  intros text.
  assert (H : findall1 metric_thread (PyStr.lower text) = []).
  { unfold findall1, finditer, metric_thread. cbn [Lit].
    rewrite finditer_no_first_char; [reflexivity|].
    apply lower_has_no_M. }
  split; [exact H|].
  unfold raw_dimensions. rewrite H. reflexivity.
Qed.



(** *** Letter case, punctuation and word order *)

Lemma lower_char_lower c :
  PyStr.lower_char (PyStr.lower_char c) = PyStr.lower_char c.
Proof.
  destruct c as [[] [] [] [] [] [] [] []]; vm_compute; reflexivity.
Qed.

Lemma lower_lower s : PyStr.lower (PyStr.lower s) = PyStr.lower s.
Proof.
  induction s as [|c t IH]; [reflexivity|].
  cbn [PyStr.lower]. rewrite lower_char_lower, IH. reflexivity.
Qed.


Lemma lower_app a b : PyStr.lower (a ++ b) = PyStr.lower a ++ PyStr.lower b.
Proof.
  induction a as [|c t IH]; [reflexivity|].
  rewrite append_cons. cbn [PyStr.lower]. rewrite append_cons, IH.
  reflexivity.
Qed.


Lemma sub_none_of p :
  forall s before,
    sub_from (none_of p) "" 0 before s = keep p s.
Proof.
  induction s as [|c t IH]; intros before; [reflexivity|].
  cbn [sub_from keep]. unfold match_at, none_of. cbn [run rest].
  destruct (p c); cbn [negb].
  - rewrite IH. reflexivity.
  - rewrite (consumed_prefix _ (mk_mstate (Some c) t []) (String c ""))
      by reflexivity.
    cbn [whole String.length]. rewrite IH. reflexivity.
Qed.

Lemma keep_app p a b : keep p (a ++ b) = keep p a ++ keep p b.
Proof.
  induction a as [|c t IH]; [reflexivity|].
  rewrite append_cons. cbn [keep]. rewrite IH.
  destruct (p c); reflexivity.
Qed.

Lemma all_chars_keep p s : all_chars p (keep p s) = true.
Proof.
  induction s as [|c t IH]; [reflexivity|].
  cbn [keep]. destruct (p c) eqn:E; [|exact IH].
  cbn [all_chars]. rewrite E, IH. reflexivity.
Qed.

Lemma alpha_key n o :
  MROClassifier.lookup "alpha" (generate_hash_keys n o)
  = Some (keep alnum (PyStr.lower n)).
Proof.
  unfold generate_hash_keys. cbv zeta. cbn [MROClassifier.lookup].
  change (String.eqb "alpha" "exact") with false.
  change (String.eqb "alpha" "alpha") with true. cbv iota.
  unfold sub, not_alnum. rewrite sub_none_of. reflexivity.
Qed.

(** X10. The alpha key holds lower-case ASCII letters and digits only, and
    a character that is neither of them after lower-casing (a space, a
    hyphen, an accented letter) has no effect on it, wherever it stands
    in the name. *)
Theorem alpha_key_ignores_other_characters :
  forall (a b : string) (c : ascii) (o1 o2 : string),
    alnum (PyStr.lower_char c) = false ->
    (exists k,
       MROClassifier.lookup "alpha" (generate_hash_keys (a ++ String c b) o1)
         = Some k /\
       MROClassifier.lookup "alpha" (generate_hash_keys (a ++ b) o2) = Some k /\
       all_chars alnum k = true).
Proof.
  intros a b c o1 o2 Hc.
  exists (keep alnum (PyStr.lower (a ++ b))).
  rewrite !alpha_key. split; [|split; [reflexivity | apply all_chars_keep]].
  rewrite !lower_app, !keep_app. cbn [PyStr.lower keep]. rewrite Hc.
  reflexivity.
Qed.

Lemma code_inj x y : PyStr.code x = PyStr.code y -> x = y.
Proof.
  unfold PyStr.code. intros H.
  rewrite <- (ascii_N_embedding x), <- (ascii_N_embedding y), H. reflexivity.
Qed.

Lemma ltb_asym : forall a b, PyStr.ltb a b = true -> PyStr.ltb b a = false.
Proof.
  induction a as [|x a IH]; intros [|y b]; simpl; try congruence.
  destruct (N.ltb (PyStr.code x) (PyStr.code y)) eqn:E1.
  - intros _. apply N.ltb_lt in E1.
    assert (E2 : N.ltb (PyStr.code y) (PyStr.code x) = false)
      by (apply N.ltb_ge; lia).
    rewrite E2. reflexivity.
  - destruct (N.ltb (PyStr.code y) (PyStr.code x)) eqn:E2; [discriminate|].
    apply IH.
Qed.

Lemma ltb_total : forall a b,
  PyStr.ltb a b = false -> PyStr.ltb b a = false -> a = b.
Proof.
  induction a as [|x a IH]; intros [|y b]; simpl; try congruence.
  destruct (N.ltb (PyStr.code x) (PyStr.code y)) eqn:E1; [discriminate|].
  destruct (N.ltb (PyStr.code y) (PyStr.code x)) eqn:E2; [discriminate|].
  intros H1 H2. apply N.ltb_ge in E1, E2.
  assert (x = y) by (apply code_inj; lia). subst y.
  f_equal. apply IH; assumption.
Qed.

Lemma ltb_trans : forall a b c,
  PyStr.ltb a b = true -> PyStr.ltb b c = true -> PyStr.ltb a c = true.
Proof.
  induction a as [|x a IH]; intros [|y b] [|z c]; simpl; try congruence.
  destruct (N.ltb (PyStr.code x) (PyStr.code y)) eqn:E1;
  destruct (N.ltb (PyStr.code y) (PyStr.code x)) eqn:E1';
  destruct (N.ltb (PyStr.code y) (PyStr.code z)) eqn:E2;
  destruct (N.ltb (PyStr.code z) (PyStr.code y)) eqn:E2';
  destruct (N.ltb (PyStr.code x) (PyStr.code z)) eqn:E3;
  destruct (N.ltb (PyStr.code z) (PyStr.code x)) eqn:E3';
  try congruence;
  rewrite ?N.ltb_lt, ?N.ltb_ge in *; try lia.
  apply IH.
Qed.

Lemma ltb_below a b c :
  PyStr.ltb b a = false -> PyStr.ltb b c = true -> PyStr.ltb a c = true.
Proof.
  intros H1 H2. destruct (PyStr.ltb a b) eqn:E.
  - eapply ltb_trans; eassumption.
  - rewrite (ltb_total a b E H1). exact H2.
Qed.

Lemma insert_two x y :
  PyStr.insert_sorted x [y] = PyStr.insert_sorted y [x].
Proof.
  simpl. destruct (PyStr.ltb y x) eqn:E1.
  - rewrite (ltb_asym _ _ E1). reflexivity.
  - destruct (PyStr.ltb x y) eqn:E2; [reflexivity|].
    rewrite (ltb_total _ _ E1 E2). reflexivity.
Qed.

Lemma insert_sorted_comm x y :
  forall l,
    PyStr.insert_sorted x (PyStr.insert_sorted y l)
    = PyStr.insert_sorted y (PyStr.insert_sorted x l).
Proof.
  induction l as [|z l IH]; [apply insert_two|].
  cbn [PyStr.insert_sorted].
  destruct (PyStr.ltb z y) eqn:Ey, (PyStr.ltb z x) eqn:Ex.
  - cbn [PyStr.insert_sorted]. rewrite Ey, Ex, IH. reflexivity.
  - pose proof (ltb_below x z y Ex Ey) as Hxy.
    cbn [PyStr.insert_sorted]. rewrite Ex, Hxy.
    cbn [PyStr.insert_sorted]. rewrite Ey. reflexivity.
  - pose proof (ltb_below y z x Ey Ex) as Hyx.
    cbn [PyStr.insert_sorted]. rewrite Ey, Hyx.
    cbn [PyStr.insert_sorted]. rewrite Ex. reflexivity.
  - cbn [PyStr.insert_sorted].
    destruct (PyStr.ltb y x) eqn:E1.
    + rewrite (ltb_asym _ _ E1). cbn [PyStr.insert_sorted]. rewrite Ex.
      reflexivity.
    + destruct (PyStr.ltb x y) eqn:E2.
      * cbn [PyStr.insert_sorted]. rewrite Ey. reflexivity.
      * rewrite (ltb_total _ _ E1 E2). reflexivity.
Qed.

Lemma sorted_permutation l1 l2 :
  Permutation l1 l2 -> PyStr.sorted l1 = PyStr.sorted l2.
Proof.
  induction 1 as [|x l l' _ IH|x y l|l l' l'' _ IH1 _ IH2].
  - reflexivity.
  - simpl. rewrite IH. reflexivity.
  - simpl. apply insert_sorted_comm.
  - congruence.
Qed.

(** X11. Two normalized names with the same words, in whatever order
    and with whatever spacing and letter case, get the same sorted key. *)
Theorem sorted_key_ignores_word_order :
  forall n1 n2 o1 o2 : string,
    Permutation (PyStr.split (PyStr.lower n1)) (PyStr.split (PyStr.lower n2)) ->
    MROClassifier.lookup "sorted" (generate_hash_keys n1 o1)
    = MROClassifier.lookup "sorted" (generate_hash_keys n2 o2).
Proof.
  intros n1 n2 o1 o2 H.
  unfold generate_hash_keys. cbv zeta. cbn [MROClassifier.lookup].
  change (String.eqb "sorted" "exact") with false.
  change (String.eqb "sorted" "alpha") with false.
  change (String.eqb "sorted" "sorted") with true. cbv iota.
  rewrite (sorted_permutation _ _ H). reflexivity.
Qed.

End KeysMore.

(** ** More on the normalisation *)

Section NormalizeMore.
Import Classify Props.

Lemma plain_after_strip c :
  plain (PyStr.strip_mark (PyStr.lower_char c)) = true.
Proof.
  destruct c as [[] [] [] [] [] [] [] []]; vm_compute; reflexivity.
Qed.

Lemma all_chars_stripped s :
  all_chars plain (PyStr.strip_accents (PyStr.lower s)) = true.
Proof.
  induction s as [|c t IH]; [reflexivity|].
  cbn [PyStr.lower PyStr.strip_accents all_chars].
  rewrite plain_after_strip, IH. reflexivity.
Qed.

Lemma all_chars_replace P old new :
  all_chars P new = true ->
  forall s skip,
    all_chars P s = true ->
    all_chars P (PyStr.replace_aux old new skip s) = true.
Proof.
  intros Hn. induction s as [|c t IH]; intros skip Hs; [reflexivity|].
  cbn [all_chars] in Hs. apply andb_true_iff in Hs. destruct Hs as [Hc Ht].
  cbn [PyStr.replace_aux]. destruct skip as [|k]; [|apply IH; exact Ht].
  destruct (PyStr.startswith old (String c t)).
  - rewrite all_chars_app, Hn. apply IH. exact Ht.
  - cbn [all_chars]. rewrite Hc. apply IH. exact Ht.
Qed.

Lemma all_chars_replacements P :
  forall table s,
    Forall (fun entry => all_chars P (snd entry) = true) table ->
    all_chars P s = true ->
    all_chars P
      (fold_left (fun acc '(old, new) => PyStr.replace old new acc) table s)
    = true.
Proof.
  induction table as [|[old new] rest IH]; intros s Ht Hs; [exact Hs|].
  apply List.Forall_cons_iff in Ht. destruct Ht as [Hn Hr].
  cbn [fold_left]. apply IH; [exact Hr|].
  apply all_chars_replace; assumption.
Qed.

Lemma all_chars_of_list P l :
  all_chars P (string_of_list_ascii l) = forallb P l.
Proof. induction l as [|c t IH]; simpl; [reflexivity | rewrite IH; reflexivity]. Qed.

Lemma forallb_rev {A : Type} (P : A -> bool) l :
  forallb P (rev l) = forallb P l.
Proof.
  induction l as [|c t IH]; [reflexivity|].
  simpl. rewrite forallb_app, IH. simpl. rewrite andb_true_r. apply andb_comm.
Qed.

Lemma split_aux_chars P :
  forall s acc,
    forallb P acc = true -> all_chars P s = true ->
    Forall (fun w => all_chars P w = true) (PyStr.split_aux acc s).
Proof.
  induction s as [|c t IH]; intros acc Ha Hs.
  - cbn [PyStr.split_aux]. destruct acc as [|a acc']; [constructor|].
    constructor; [|constructor].
    rewrite all_chars_of_list, forallb_rev. exact Ha.
  - cbn [all_chars] in Hs. apply andb_true_iff in Hs. destruct Hs as [Hc Ht].
    cbn [PyStr.split_aux]. destruct (PyStr.isspace c).
    + destruct acc as [|a acc']; [apply IH; auto|].
      constructor; [|apply IH; auto].
      rewrite all_chars_of_list, forallb_rev. exact Ha.
    + apply IH; [|exact Ht]. simpl. rewrite Hc, Ha. reflexivity.
Qed.

Lemma all_chars_join P sep :
  all_chars P sep = true ->
  forall l,
    Forall (fun w => all_chars P w = true) l ->
    all_chars P (PyStr.join sep l) = true.
Proof.
  intros Hsep. induction l as [|x rest IH]; intros Hl; [reflexivity|].
  apply List.Forall_cons_iff in Hl. destruct Hl as [Hx Hr].
  destruct rest as [|y rest']; [exact Hx|].
  change (PyStr.join sep (x :: y :: rest'))
    with (x ++ sep ++ PyStr.join sep (y :: rest')).
  rewrite !all_chars_app, Hx, Hsep. apply IH. exact Hr.
Qed.

Lemma plain_fixed s :
  all_chars plain s = true ->
  PyStr.lower s = s /\ PyStr.strip_accents s = s.
Proof.
  induction s as [|c t IH]; intros H; [split; reflexivity|].
  cbn [all_chars] in H. apply andb_true_iff in H. destruct H as [Hc Ht].
  destruct (IH Ht) as [I1 I2].
  unfold plain in Hc. apply andb_true_iff in Hc. destruct Hc as [H1 H2].
  apply Ascii.eqb_eq in H1, H2.
  cbn [PyStr.lower PyStr.strip_accents]. rewrite H1, H2, I1, I2.
  split; reflexivity.
Qed.

(** *** Words *)

Lemma split_aux_words :
  forall s acc,
    forallb (fun c => negb (PyStr.isspace c)) acc = true ->
    Forall (fun w => word w = true) (PyStr.split_aux acc s).
Proof.
  assert (Hflush : forall a acc,
            forallb (fun c => negb (PyStr.isspace c)) (a :: acc) = true ->
            word (string_of_list_ascii (rev (a :: acc))) = true).
  { intros a acc Ha. unfold word.
    rewrite all_chars_of_list, forallb_rev, Ha, andb_true_r.
    simpl. destruct (rev acc); reflexivity. }
  induction s as [|c t IH]; intros acc Ha.
  - cbn [PyStr.split_aux]. destruct acc as [|a acc']; [constructor|].
    constructor; [apply Hflush; exact Ha | constructor].
  - cbn [PyStr.split_aux]. destruct (PyStr.isspace c) eqn:Hc.
    + destruct acc as [|a acc']; [apply IH; reflexivity|].
      constructor; [apply Hflush; exact Ha | apply IH; reflexivity].
    + apply IH. simpl. rewrite Hc, Ha. reflexivity.
Qed.

Lemma split_aux_word :
  forall w acc rest,
    all_chars (fun c => negb (PyStr.isspace c)) w = true ->
    PyStr.split_aux acc (w ++ rest)
    = PyStr.split_aux (rev (list_ascii_of_string w) ++ acc) rest.
Proof.
  induction w as [|c t IH]; intros acc rest Hw; [reflexivity|].
  cbn [all_chars] in Hw. apply andb_true_iff in Hw. destruct Hw as [Hc Ht].
  apply negb_true_iff in Hc.
  rewrite append_cons. cbn [PyStr.split_aux]. rewrite Hc.
  rewrite (IH _ _ Ht). cbn [list_ascii_of_string rev].
  rewrite <- app_assoc. reflexivity.
Qed.

Lemma split_one_word w :
  word w = true -> PyStr.split w = [w].
Proof.
  unfold word. intros H. apply andb_true_iff in H. destruct H as [Hn Hw].
  unfold PyStr.split.
  rewrite <- (append_nil_r w) at 1. rewrite (split_aux_word _ _ _ Hw).
  rewrite app_nil_r. cbn [PyStr.split_aux].
  destruct w as [|c t]; [discriminate Hn|].
  destruct (rev (list_ascii_of_string (String c t))) as [|a l] eqn:E.
  - apply (f_equal (@length ascii)) in E. rewrite length_rev in E.
    simpl in E. discriminate E.
  - rewrite <- E, rev_involutive, string_of_list_ascii_of_string.
    reflexivity.
Qed.

Lemma split_join :
  forall ws,
    Forall (fun w => word w = true) ws ->
    PyStr.split (PyStr.join " " ws) = ws.
Proof.
  induction ws as [|w rest IH]; intros H; [reflexivity|].
  apply List.Forall_cons_iff in H. destruct H as [Hw Hr].
  destruct rest as [|w2 rest']; [apply split_one_word; exact Hw|].
  change (PyStr.join " " (w :: w2 :: rest'))
    with (w ++ " " ++ PyStr.join " " (w2 :: rest')).
  pose proof Hw as Hw'. unfold word in Hw'.
  apply andb_true_iff in Hw'. destruct Hw' as [Hn Hc].
  unfold PyStr.split. rewrite (split_aux_word _ _ _ Hc).
  rewrite app_nil_r.
  change (" " ++ PyStr.join " " (w2 :: rest'))
    with (String " " (PyStr.join " " (w2 :: rest'))).
  cbn [PyStr.split_aux].
  change (PyStr.isspace " ") with true. cbv iota.
  fold (PyStr.split (PyStr.join " " (w2 :: rest'))). rewrite (IH Hr).
  destruct w as [|c t]; [discriminate Hn|].
  destruct (rev (list_ascii_of_string (String c t))) as [|a l] eqn:E.
  - apply (f_equal (@length ascii)) in E. rewrite length_rev in E.
    simpl in E. discriminate E.
  - rewrite <- E, rev_involutive, string_of_list_ascii_of_string.
    reflexivity.
Qed.

(** X12. A name that [normalize_product_name] returns is in lower case,
    without accents, and single-spaced: [lower], the removal of accents
    and the joining of the words by one space all leave it as it is.
    Normalising it again can therefore change it in the replacement step
    only. *)
Theorem normalize_product_name_is_clean :
  forall name : string,
    let r := normalize_product_name name in
    PyStr.lower r = r /\
    PyStr.strip_accents r = r /\
    PyStr.join " " (PyStr.split r) = r /\
    normalize_product_name r
    = PyStr.join " " (PyStr.split (fold_left replace_step replacements r)).
Proof.
  intros name. cbv zeta.
  assert (Hplain : all_chars plain (normalize_product_name name) = true).
  { unfold normalize_product_name. cbv zeta.
    apply all_chars_join; [reflexivity|].
    apply split_aux_chars; [reflexivity|].
    apply all_chars_replacements; [|apply all_chars_stripped].
    unfold replacements.
    repeat (apply List.Forall_cons; [vm_compute; reflexivity|]).
    apply List.Forall_nil. }
  destruct (plain_fixed _ Hplain) as [Hl Hs].
  split; [exact Hl|]. split; [exact Hs|]. split.
  - unfold normalize_product_name at 1 2. cbv zeta.
    rewrite split_join; [reflexivity|].
    apply split_aux_words. reflexivity.
  - unfold normalize_product_name at 1. cbv zeta. rewrite Hl, Hs.
    reflexivity.
Qed.

(** *** The entry for polegada *)

Lemma startswith_after_pol :
  forall x s,
    all_chars (fun c => negb (Ascii.eqb c "m")) x = true ->
    PyStr.startswith x (PyStr.replace "pol" "mm" s) = true ->
    PyStr.startswith x s = true.
Proof.
  induction x as [|a x IH]; intros s Hx H; [destruct s; reflexivity|].
  cbn [all_chars] in Hx. apply andb_true_iff in Hx. destruct Hx as [Ha Hx].
  apply negb_true_iff in Ha.
  destruct s as [|c t]; [discriminate H|].
  unfold PyStr.replace in H. cbn [PyStr.replace_aux] in H.
  destruct (PyStr.startswith "pol" (String c t)) eqn:E.
  - change ("mm" ++ ?r) with (String "m" (String "m" r)) in H.
    cbn [PyStr.startswith] in H. rewrite Ha in H. discriminate H.
  - cbn [PyStr.startswith] in H |- *.
    apply andb_true_iff in H. destruct H as [H1 H2]. rewrite H1.
    apply (IH t Hx). exact H2.
Qed.

Lemma replace_pol_match t :
  PyStr.replace "pol" "mm" (String "p" (String "o" (String "l" t)))
  = String "m" (String "m" (PyStr.replace "pol" "mm" t)).
Proof. destruct t; reflexivity. Qed.

Lemma starts_pol s :
  PyStr.startswith "pol" s = true ->
  exists t, s = String "p" (String "o" (String "l" t)).
Proof.
  destruct s as [|a [|b [|c t]]]; cbn [PyStr.startswith]; intros H;
    rewrite ?andb_false_r in H; try discriminate H.
  apply andb_true_iff in H. destruct H as [H1 H].
  apply andb_true_iff in H. destruct H as [H2 H].
  apply andb_true_iff in H. destruct H as [H3 _].
  apply Ascii.eqb_eq in H1, H2, H3. subst. exists t. reflexivity.
Qed.

Lemma no_pol_after_pol :
  forall n s,
    (String.length s <= n)%nat ->
    PyStr.contains "pol" (PyStr.replace "pol" "mm" s) = false.
Proof.
  induction n as [|n IH]; intros s Hlen.
  - destruct s; [reflexivity | simpl in Hlen; lia].
  - destruct s as [|c t]; [reflexivity|].
    destruct (PyStr.startswith "pol" (String c t)) eqn:E.
    + destruct (starts_pol _ E) as (t' & Ht). rewrite Ht, replace_pol_match.
      cbn [PyStr.contains PyStr.startswith].
      change (Ascii.eqb "p" "m") with false. cbn [andb orb].
      apply IH. rewrite Ht in Hlen. simpl in Hlen. lia.
    + assert (Hstep : PyStr.replace "pol" "mm" (String c t)
                      = String c (PyStr.replace "pol" "mm" t)).
      { unfold PyStr.replace. cbn [PyStr.replace_aux]. rewrite E.
        reflexivity. }
      destruct (PyStr.startswith "pol"
                  (PyStr.replace "pol" "mm" (String c t))) eqn:E2.
      * apply startswith_after_pol in E2; [congruence | reflexivity].
      * rewrite Hstep in E2 |- *. cbn [PyStr.contains]. rewrite E2.
        cbn [orb]. apply IH. simpl in Hlen. lia.
Qed.

Lemma startswith_app p q s :
  PyStr.startswith (p ++ q) s = true -> PyStr.startswith p s = true.
Proof.
  revert s. induction p as [|a p IH]; intros s H; [destruct s; reflexivity|].
  rewrite append_cons in H. destruct s as [|c t]; [discriminate H|].
  cbn [PyStr.startswith] in H |- *.
  apply andb_true_iff in H. destruct H as [H1 H2].
  rewrite H1. apply IH. exact H2.
Qed.

Lemma contains_app p q s :
  PyStr.contains p s = false -> PyStr.contains (p ++ q) s = false.
Proof.
  induction s as [|c t IH]; cbn [PyStr.contains]; intros H.
  - apply orb_false_iff in H. destruct H as [H _].
    destruct (PyStr.startswith (p ++ q) "") eqn:E; [|reflexivity].
    apply startswith_app in E. congruence.
  - apply orb_false_iff in H. destruct H as [H1 H2].
    destruct (PyStr.startswith (p ++ q) (String c t)) eqn:E.
    + apply startswith_app in E. congruence.
    + apply IH. exact H2.
Qed.

Lemma replace_absent old new :
  forall s,
    PyStr.contains old s = false -> PyStr.replace old new s = s.
Proof.
  unfold PyStr.replace.
  induction s as [|c t IH]; intros H; [reflexivity|].
  cbn [PyStr.contains] in H. apply orb_false_iff in H. destruct H as [H1 H2].
  cbn [PyStr.replace_aux]. rewrite H1, (IH H2). reflexivity.
Qed.

(** X13. The entry of [replacements] for [polegada] never applies: the
    entry for [pol] comes first in the table and leaves no [pol] in the
    text, so that the replacement of [polegada] finds nothing, and
    [normalize_product_name] gives the same result without the entry. *)
Theorem polegada_entry_never_applies :
  forall s : string,
    PyStr.contains "pol" (PyStr.replace "pol" "mm" s) = false /\
    PyStr.replace "polegada" "mm" (PyStr.replace "pol" "mm" s)
      = PyStr.replace "pol" "mm" s /\
    normalize_product_name s
    = PyStr.join " "
        (PyStr.split
           (fold_left replace_step replacements_but_polegada
              (PyStr.strip_accents (PyStr.lower s)))).
Proof.
  intros s.
  assert (H1 : forall x, PyStr.contains "pol" (PyStr.replace "pol" "mm" x)
                         = false).
  { intros x. apply (no_pol_after_pol (String.length x)). lia. }
  assert (H2 : forall x,
            PyStr.replace "polegada" "mm" (PyStr.replace "pol" "mm" x)
            = PyStr.replace "pol" "mm" x).
  { intros x. apply replace_absent.
    apply (contains_app "pol" "egada"). apply H1. }
  split; [apply H1|]. split; [apply H2|].
  unfold normalize_product_name. cbv zeta.
  unfold replacements, replacements_but_polegada, replacements.
  cbn [List.filter fst String.eqb Ascii.eqb Bool.eqb negb fold_left replace_step].
  rewrite H2. reflexivity.
Qed.

End NormalizeMore.

(** ** More on the classifier *)

Section ClassifierMore.
Import MROClassifier Spec Props.

Variable api : nat -> prompt -> api_outcome.

Lemma has_key_lookup {A : Type} (k : string) (d : list (string * A)) :
  has_key k d = true -> exists v, lookup k d = Some v.
Proof.
  unfold has_key. destruct (lookup k d) as [v|]; [eauto | discriminate].
Qed.

Lemma category_fallback_named product :
  exists name,
    lookup (fst (category_fallback product d03_categories)) d03_categories
      = Some name /\
    snd (category_fallback product d03_categories) = name.
Proof.
  unfold category_fallback.
  repeat (match goal with |- context [if ?b then _ else _] => destruct b end);
    eexists; split; vm_compute; reflexivity.
Qed.

Lemma classify_category_named product w :
  exists name,
    lookup (fst (snd (classify_category api product "D03" w))) d03_categories
      = Some name /\
    snd (snd (classify_category api product "D03" w)) = name.
Proof.
  unfold classify_category. fold d03_categories.
  rewrite (list_case d03_categories) by exact d03_categories_nonempty.
  destruct (claude_classify api _ category_pattern 5 w) as [w' [c|]];
    [|apply category_fallback_named].
  destruct (Classify.nonempty c && has_key c d03_categories) eqn:Hc;
    [|apply category_fallback_named].
  apply andb_true_iff in Hc. destruct Hc as [_ Hk].
  destruct (has_key_lookup _ _ Hk) as (v & Hv).
  exists v. cbn [fst snd]. rewrite Hv. auto.
Qed.

(** The fallback code of every category is a code of the category's own
    table. *)
Lemma subcategory_fallbacks_listed :
  forallb
    (fun cat =>
       match subcategories_of cat with
       | [] => false
       | subs => has_key (fst (subcategory_fallback cat subs)) subs
       end)
    (map fst d03_categories) = true.
Proof. vm_compute. reflexivity. Qed.

Lemma classify_subcategory_named product cat w :
  has_key cat d03_categories = true ->
  exists name,
    lookup (fst (snd (classify_subcategory api product cat w)))
           (subcategories_of cat) = Some name /\
    snd (snd (classify_subcategory api product cat w)) = name.
Proof.
  intros Hk. apply has_key_In in Hk.
  assert (Ht := subcategory_fallbacks_listed).
  rewrite forallb_forall in Ht. specialize (Ht cat Hk).
  unfold classify_subcategory. fold (subcategories_of cat). fold d03_categories.
  destruct (subcategories_of cat) as [|s0 subs] eqn:Hs; [discriminate Ht|].
  assert (Hfb : exists name,
            lookup (fst (subcategory_fallback cat (s0 :: subs))) (s0 :: subs)
              = Some name /\
            snd (subcategory_fallback cat (s0 :: subs)) = name).
  { destruct (has_key_lookup _ _ Ht) as (v & Hv). exists v.
    split; [exact Hv|]. unfold subcategory_fallback in Hv |- *.
    cbn [fst snd] in Hv |- *. rewrite Hv. reflexivity. }
  destruct (claude_classify api _ subcategory_pattern 5 w) as [w' [c|]];
    [|exact Hfb].
  destruct (Classify.nonempty c && has_key c (s0 :: subs)) eqn:Hc;
    [|exact Hfb].
  apply andb_true_iff in Hc. destruct Hc as [_ Hc].
  destruct (has_key_lookup _ _ Hc) as (v & Hv).
  exists v. cbn [fst snd]. rewrite Hv. auto.
Qed.

(** X14. Whatever the service answers, [classify_product] returns a
    path of the taxonomy: the category code is one of the sixteen
    categories of D03, the subcategory code is listed under that very
    category, and the two names are the ones the tables give for the
    codes. A code that the service invents, or a subcategory of another
    category, never reaches the result. *)
Theorem classify_product_returns_taxonomy_path :
  forall (product_name : string) (batch_id : option Z) (w : world),
    let c := snd (classify_product api product_name batch_id w) in
    exists cat cat_name sub sub_name,
      cl_cat_code c = Some cat /\ cl_cat_name c = Some cat_name /\
      cl_sub_code c = Some sub /\ cl_sub_name c = Some sub_name /\
      lookup cat d03_categories = Some cat_name /\
      lookup sub (subcategories_of cat) = Some sub_name /\
      cl_dept_name c = lookup "D03" departments /\
      cl_product_name c = product_name /\ cl_batch_id c = batch_id.
Proof.
  intros product_name batch_id w. cbv zeta.
  unfold classify_product, classify_department.
  assert (Hcat := classify_category_known api product_name w).
  destruct (classify_category_named product_name w) as (cn & Hcn1 & Hcn2).
  destruct (classify_category api product_name "D03" w)
    as [w1 [cat_code cat_name]]. cbn [fst snd] in Hcat, Hcn1, Hcn2.
  assert (Hn : Classify.nonempty cat_code = true)
    by exact (nonempty_has_key _ _ d03_codes_nonempty Hcat).
  rewrite Hn.
  destruct (classify_subcategory_named product_name cat_code w1 Hcat)
    as (sn & Hsn1 & Hsn2).
  destruct (classify_subcategory api product_name cat_code w1)
    as [w2 [sub_code sub_name]]. cbn [fst snd] in Hsn1, Hsn2.
  exists cat_code, cat_name, sub_code, sub_name.
  cbn [snd cl_cat_code cl_cat_name cl_sub_code cl_sub_name cl_dept_name
       cl_product_name cl_batch_id].
  subst cn sn. repeat (split; [first [reflexivity | assumption]|]).
  reflexivity.
Qed.

(** *** Calls and waits *)

Lemma claude_attempts_calls p pattern max_retries :
  forall remaining attempt backoff w,
    let w' := fst (claude_attempts api remaining attempt max_retries backoff
                     p pattern w) in
    (calls w <= calls w' <= calls w + remaining)%nat /\
    (0 < remaining -> calls w < calls w')%nat.
Proof.
  induction remaining as [|k IH]; intros attempt backoff w; cbv zeta.
  - cbn [claude_attempts fst]. split; intros; lia.
  - cbn [claude_attempts].
    pose proof (IH (attempt + 1) (backoff * 2)
                   (logged (Backoff backoff) (called w))) as IH'.
    cbv zeta in IH'. cbn [calls logged called] in IH'.
    destruct (api (calls w) p) as [text| |err].
    + cbn [fst calls called]. split; intros; lia.
    + split; intros; lia.
    + destruct (Z.eqb attempt max_retries).
      * cbn [fst calls called]. split; intros; lia.
      * split; intros; lia.
Qed.

Lemma waited_app a b : waited (a ++ b) = waited a + waited b.
Proof.
  induction a as [|e a IH]; [reflexivity|].
  rewrite <- app_comm_cons. destruct e; cbn [waited]; rewrite IH; lia.
Qed.

Lemma waited_backoffs n :
  (n <= 5)%nat ->
  let es := map (fun k => Backoff (1 * 2 ^ Z.of_nat k)) (seq 0 n) in
  0 <= waited es <= 31 /\ Forall is_backoff es.
Proof.
  intros Hn. cbv zeta.
  assert (Hc : n = 0%nat \/ n = 1%nat \/ n = 2%nat \/ n = 3%nat \/
               n = 4%nat \/ n = 5%nat) by lia.
  destruct Hc as [->|[->|[->|[->|[->| ->]]]]];
    (split; [vm_compute; split; discriminate
            | repeat (apply List.Forall_cons; [exact I|]); apply List.Forall_nil]).
Qed.

Lemma claude_classify_cost p pattern w :
  let w' := fst (claude_classify api p pattern 5 w) in
  (calls w < calls w' <= calls w + 5)%nat /\
  exists more,
    events w' = (events w ++ more)%list /\
    0 <= waited more <= 31 /\ Forall is_backoff more.
Proof.
  cbv zeta. unfold claude_classify.
  change (Z.to_nat 5) with 5%nat.
  destruct (claude_attempts_calls p pattern 5 5 1 1 w) as [H1 H2].
  cbv zeta in H1, H2. split; [lia|].
  destruct (claude_attempts_backoff api p pattern 5 5 1 1 w) as (n & Hn & He).
  eexists. split; [exact He|]. apply waited_backoffs. exact Hn.
Qed.

Lemma classify_category_cost product w :
  let w' := fst (classify_category api product "D03" w) in
  (calls w < calls w' <= calls w + 5)%nat /\
  exists more,
    events w' = (events w ++ more)%list /\
    0 <= waited more <= 31 /\ Forall is_backoff more.
Proof.
  cbv zeta. unfold classify_category. fold d03_categories.
  rewrite (list_case d03_categories) by exact d03_categories_nonempty.
  pose proof (claude_classify_cost (mk_prompt product None d03_categories)
                category_pattern w) as H. cbv zeta in H.
  destruct (claude_classify api _ category_pattern 5 w) as [w' [c|]];
    [destruct (Classify.nonempty c && has_key c d03_categories)|];
    exact H.
Qed.

Lemma classify_subcategory_cost product cat w :
  has_key cat d03_categories = true ->
  let w' := fst (classify_subcategory api product cat w) in
  (calls w < calls w' <= calls w + 5)%nat /\
  exists more,
    events w' = (events w ++ more)%list /\
    0 <= waited more <= 31 /\ Forall is_backoff more.
Proof.
  intros Hk. cbv zeta. apply has_key_In in Hk.
  assert (Ht := subcategory_tables_complete).
  rewrite forallb_forall in Ht. specialize (Ht cat Hk).
  unfold classify_subcategory. fold (subcategories_of cat). fold d03_categories.
  destruct (subcategories_of cat) as [|s0 subs] eqn:Hs; [discriminate Ht|].
  match goal with
  | |- context [claude_classify api ?p subcategory_pattern 5 w] =>
      pose proof (claude_classify_cost p subcategory_pattern w) as H
  end.
  cbv zeta in H.
  destruct (claude_classify api _ subcategory_pattern 5 w) as [w' [c|]];
    [destruct (Classify.nonempty c && has_key c (s0 :: subs))|];
    exact H.
Qed.

(** X15. Classifying one product costs between two and ten calls of the
    service, one to five for each of the two questions, and at most 62
    seconds of waiting between attempts (1 + 2 + 4 + 8 + 16 for each
    question); besides these waits the classifier leaves nothing
    behind. *)
Theorem classify_product_cost :
  forall (product_name : string) (batch_id : option Z) (w : world),
    let w' := fst (classify_product api product_name batch_id w) in
    (calls w + 2 <= calls w' <= calls w + 10)%nat /\
    exists more,
      events w' = (events w ++ more)%list /\
      0 <= waited more <= 62 /\ Forall is_backoff more.
Proof.
  intros product_name batch_id w. cbv zeta.
  unfold classify_product, classify_department.
  assert (Hcat := classify_category_known api product_name w).
  pose proof (classify_category_cost product_name w) as Hc1.
  cbv zeta in Hc1.
  destruct (classify_category api product_name "D03" w)
    as [w1 [cat_code cat_name]]. cbn [fst snd] in Hcat, Hc1.
  assert (Hn : Classify.nonempty cat_code = true)
    by exact (nonempty_has_key _ _ d03_codes_nonempty Hcat).
  rewrite Hn.
  pose proof (classify_subcategory_cost product_name cat_code w1 Hcat) as Hc2.
  cbv zeta in Hc2.
  destruct (classify_subcategory api product_name cat_code w1)
    as [w2 [sub_code sub_name]]. cbn [fst snd] in Hc2 |- *.
  destruct Hc1 as (A1 & m1 & E1 & B1 & F1).
  destruct Hc2 as (A2 & m2 & E2 & B2 & F2).
  split; [lia|].
  exists (m1 ++ m2)%list. rewrite E2, E1, <- app_assoc, waited_app.
  split; [reflexivity|]. split; [lia|].
  apply Forall_app. split; assumption.
Qed.

End ClassifierMore.

(** ** More on the batch processor *)

Section BatchMore.
Import MROClassifier MRODatabase BatchProcessor MROReports Spec Props.

Variable api : nat -> prompt -> api_outcome.
Variable bs : Z.

Lemma count_status_cons status r (t : table) :
  count_status status (r :: t)
  = (if is_status status r then 1 else 0) + count_status status t.
Proof.
  unfold count_status. cbn [List.filter].
  destruct (is_status status r); cbn [length]; lia.
Qed.

Lemma count_status_pending (t : table) :
  count_status "pending" t = Z.of_nat (count_pending t).
Proof. reflexivity. Qed.

Lemma update_where_id_absent f x (t : table) :
  ~ In x (map id t) -> update_where_id f x t = t.
Proof.
  unfold update_where_id. induction t as [|r t IH]; intros Hn; [reflexivity|].
  cbn [map]. destruct (Z.eqb_spec (id r) x) as [E|E].
  - exfalso. apply Hn. left. exact E.
  - rewrite IH; [reflexivity|]. intros H. apply Hn. right. exact H.
Qed.

Lemma count_update_exact status f x (t : table) r :
  List.NoDup (map id t) -> In r t -> id r = x ->
  count_status status (update_where_id f x t)
    + (if is_status status r then 1 else 0)
  = count_status status t + (if is_status status (f r) then 1 else 0).
Proof.
  intros Hnd Hin Hx. induction t as [|r0 t IH]; [destruct Hin|].
  cbn [map] in Hnd. apply NoDup_cons_iff in Hnd. destruct Hnd as [Hn0 Hnd].
  change (update_where_id f x (r0 :: t))
    with ((if Z.eqb (id r0) x then f r0 else r0) :: update_where_id f x t).
  destruct (Z.eqb_spec (id r0) x) as [E|E].
  - assert (r0 = r) as ->.
    { destruct Hin as [H|H]; [exact H|]. exfalso. apply Hn0.
      rewrite E, <- Hx. apply in_map. exact H. }
    rewrite update_where_id_absent by (rewrite <- Hx; exact Hn0).
    rewrite !count_status_cons.
    destruct (is_status status r), (is_status status (f r)); lia.
  - destruct Hin as [H|H]; [subst r0; contradiction|].
    pose proof (IH Hnd H) as IH'. rewrite !count_status_cons.
    destruct (is_status status r0), (is_status status r),
      (is_status status (f r)); lia.
Qed.

Lemma process_product_counters st p :
  counters (process_product api st p)
  = mk_stats (total_processed (counters st) + 1)
             (successful (counters st) + 1)
             (failed (counters st))
             (batches_processed (counters st)) /\
  current_batch_id (process_product api st p) = current_batch_id st.
Proof.
  unfold process_product.
  assert (He := classify_product_no_error api (product_name p)
                  (Some (current_batch_id st))
                  (logged (Processing (id p)) (outside st))).
  destruct (classify_product api _ _ _) as [w1 c]. simpl in He.
  rewrite He. split; reflexivity.
Qed.

Lemma is_status_with_classification status c r :
  is_status status (with_classification c r) = String.eqb "completed" status.
Proof. reflexivity. Qed.

Lemma is_status_pending status r :
  is_status "pending" r = true ->
  is_status status r = String.eqb "pending" status.
Proof.
  unfold is_status. intros H. apply String.eqb_eq in H. rewrite H.
  reflexivity.
Qed.

Lemma batch_fold_counts :
  forall ps st,
    List.NoDup (map id ps) ->
    List.NoDup (map id (rows st)) ->
    (forall q, In q ps -> In q (rows st) /\ is_status "pending" q = true) ->
    let st' := fold_left (process_product api) ps st in
    let n := Z.of_nat (length ps) in
    (forall status,
       count_status status (rows st')
         + (if String.eqb "pending" status then n else 0)
       = count_status status (rows st)
         + (if String.eqb "completed" status then n else 0)) /\
    length (rows st') = length (rows st) /\
    counters st'
    = mk_stats (total_processed (counters st) + n)
               (successful (counters st) + n)
               (failed (counters st))
               (batches_processed (counters st)) /\
    current_batch_id st' = current_batch_id st.
Proof.
  induction ps as [|p ps IH]; intros st Hnd Hrows Hin; cbv zeta.
  - cbn [fold_left length]. change (Z.of_nat 0) with 0.
    split; [intros status; destruct (String.eqb _ _), (String.eqb _ _); lia|].
    split; [reflexivity|]. split; [|reflexivity].
    destruct (counters st); cbn. f_equal; lia.
  - cbn [fold_left]. cbn [map] in Hnd.
    apply NoDup_cons_iff in Hnd. destruct Hnd as [Hp Hnd].
    assert (Hne : forall q, In q ps -> id q <> id p).
    { intros q Hq Heq. apply Hp. rewrite <- Heq. apply in_map. exact Hq. }
    destruct (Hin p (or_introl eq_refl)) as [Hpin Hpp].
    destruct (process_product_counters st p) as [Hc1 Hb1].
    pose proof (process_product_ids api st p) as Hids.
    destruct (IH (process_product api st p) Hnd) as (Hcount & Hlen & Hc & Hb).
    { rewrite Hids. exact Hrows. }
    { intros q Hq. split; [|apply Hin; right; exact Hq].
      apply process_product_keeps; [apply Hin; right; exact Hq|].
      apply Hne. exact Hq. }
    cbv zeta in Hcount, Hc.
    split; [|split; [|split]].
    + intros status. specialize (Hcount status).
      pose proof (count_update_exact status
                    (with_classification
                       (snd (classify_product api (product_name p)
                               (Some (current_batch_id st))
                               (logged (Processing (id p)) (outside st)))))
                    (id p) (rows st) p Hrows Hpin eq_refl) as Hstep.
      rewrite is_status_with_classification in Hstep.
      rewrite (is_status_pending status p Hpp) in Hstep.
      rewrite process_product_rows in Hcount.
      unfold update_classification in Hcount.
      cbn [length]. rewrite Nat2Z.inj_succ.
      destruct (String.eqb "pending" status), (String.eqb "completed" status);
        lia.
    + rewrite Hlen. rewrite <- (length_map id), Hids, length_map.
      reflexivity.
    + rewrite Hc, Hc1. cbn [total_processed successful failed batches_processed
                            length].
      rewrite Nat2Z.inj_succ. f_equal; lia.
    + rewrite Hb. exact Hb1.
Qed.

Lemma get_pending_length t :
  0 <= bs ->
  Z.of_nat (length (get_pending_products bs t))
  = if Z.eqb bs 0 then count_status "pending" t
    else Z.min bs (count_status "pending" t).
Proof.
  intros Hbs. unfold get_pending_products, count_status.
  destruct (Z.eqb_spec bs 0) as [E|E]; [reflexivity|].
  destruct (Z.ltb_spec bs 0) as [Hneg|_]; [lia|].
  rewrite length_firstn. lia.
Qed.

Lemma rounds_none : 0 <= bs -> rounds bs 0 = 0.
Proof.
  intros Hbs. unfold rounds.
  destruct (Z.eqb_spec bs 0) as [E|E]; [reflexivity|].
  apply Z.div_small. lia.
Qed.

Lemma rounds_step pending taken :
  0 <= bs -> 0 < pending ->
  taken = (if Z.eqb bs 0 then pending else Z.min bs pending) ->
  rounds bs pending = 1 + rounds bs (pending - taken).
Proof.
  intros Hbs Hp ->. unfold rounds.
  destruct (Z.eqb_spec bs 0) as [E|E].
  - replace (pending - pending) with 0 by lia.
    destruct (Z.eqb_spec pending 0); [lia | reflexivity].
  - destruct (Z_le_gt_dec pending bs) as [Hle|Hgt].
    + rewrite Z.min_r by lia. replace (pending - pending) with 0 by lia.
      replace (pending + bs - 1) with (1 * bs + (pending - 1)) by lia.
      rewrite Z.div_add_l by exact E.
      rewrite (Z.div_small (pending - 1)) by lia.
      rewrite (Z.div_small (0 + bs - 1)) by lia. reflexivity.
    + rewrite Z.min_l by lia.
      replace (pending + bs - 1) with (1 * bs + (pending - bs + bs - 1)) by lia.
      rewrite Z.div_add_l by exact E. reflexivity.
Qed.

Lemma count_pending_none (t : table) :
  (forall x, In x t -> is_status "pending" x = false) ->
  count_status "pending" t = 0.
Proof.
  intros H. induction t as [|r t IH]; [reflexivity|].
  rewrite count_status_cons, (H r (or_introl eq_refl)), IH; [reflexivity|].
  intros x Hx. apply H. right. exact Hx.
Qed.

Lemma batch_loop_counts :
  0 <= bs ->
  forall n st,
    List.NoDup (map id (rows st)) ->
    (count_pending (rows st) < n)%nat ->
    exists st',
      batch_loop api bs n st = Some st' /\
      let p := count_status "pending" (rows st) in
      (forall status,
         count_status status (rows st')
           + (if String.eqb "pending" status then p else 0)
         = count_status status (rows st)
           + (if String.eqb "completed" status then p else 0)) /\
      length (rows st') = length (rows st) /\
      counters st'
      = mk_stats (total_processed (counters st) + p)
                 (successful (counters st) + p)
                 (failed (counters st))
                 (batches_processed (counters st) + rounds bs p) /\
      current_batch_id st' = current_batch_id st + rounds bs p.
Proof.
  intros Hbs. induction n as [|n IH]; intros st Hnd Hc; [lia|].
  cbn [batch_loop].
  pose proof (get_pending_length (rows st) Hbs) as Hlen.
  destruct (get_pending_products bs (rows st)) as [|q ps] eqn:Hps.
  - exists st. split; [reflexivity|]. cbv zeta.
    rewrite (count_pending_none (rows st) (get_pending_none bs _ Hbs Hps)).
    rewrite (rounds_none Hbs).
    split; [intros status; destruct (String.eqb _ _), (String.eqb _ _); lia|].
    split; [reflexivity|]. split; [|lia].
    destruct (counters st); cbn. f_equal; lia.
  - assert (Hsub : forall x, In x (q :: ps) ->
                     In x (rows st) /\ is_status "pending" x = true).
    { intros x Hx. apply (get_pending_In bs). rewrite Hps. exact Hx. }
    assert (Hndp : List.NoDup (map id (q :: ps))).
    { rewrite <- Hps. apply (get_pending_NoDup api). exact Hnd. }
    destruct (batch_fold_counts (q :: ps) st Hndp Hnd Hsub)
      as (Hcount & Hl & Hcs & Hb).
    cbv zeta in Hcount, Hcs.
    set (taken := Z.of_nat (length (q :: ps))) in *.
    set (st1 := process_batch api bs st (q :: ps)).
    assert (Hrows1 : rows st1
                     = rows (fold_left (process_product api) (q :: ps) st))
      by reflexivity.
    assert (Htaken : 0 < taken) by (unfold taken; cbn [length]; lia).
    pose proof (Hcount "pending") as Hpend.
    change (String.eqb "pending" "pending") with true in Hpend.
    change (String.eqb "completed" "pending") with false in Hpend.
    cbv iota in Hpend.
    destruct (IH st1) as (st' & Hrun & Hrest).
    { rewrite Hrows1. rewrite <- Hrows1.
      unfold st1, process_batch. cbn [rows].
      pose proof (batch_fold api (q :: ps) st Hndp
                    (fun x Hx => proj1 (Hsub x Hx))) as Hbf.
      cbv zeta in Hbf. destruct Hbf as (Hids & _). rewrite Hids. exact Hnd. }
    { rewrite Hrows1. rewrite !count_status_pending in Hpend. lia. }
    exists st'. split; [exact Hrun|].
    cbv zeta in Hrest |- *. destruct Hrest as (Hc' & Hl' & Hcs' & Hb').
    rewrite Hrows1 in Hc', Hl', Hcs', Hb'.
    assert (Hp1 : count_status "pending"
                    (rows (fold_left (process_product api) (q :: ps) st))
                  = count_status "pending" (rows st) - taken) by lia.
    rewrite Hp1 in Hc', Hcs', Hb'.
    assert (Hr : rounds bs (count_status "pending" (rows st))
                 = 1 + rounds bs (count_status "pending" (rows st) - taken)).
    { assert (0 <= count_status "pending"
                     (rows (fold_left (process_product api) (q :: ps) st)))
        by (unfold count_status; lia).
      apply rounds_step; [exact Hbs | lia | exact Hlen]. }
    split; [|split; [|split]].
    + intros status. specialize (Hc' status). specialize (Hcount status).
      destruct (String.eqb "pending" status), (String.eqb "completed" status);
        lia.
    + rewrite Hl'. exact Hl.
    + rewrite Hcs'. unfold st1, process_batch.
      cbn [counters total_processed successful failed batches_processed].
      rewrite Hcs.
      cbn [total_processed successful failed batches_processed].
      f_equal; lia.
    + rewrite Hb'. unfold st1, process_batch. cbn [current_batch_id].
      rewrite Hb. lia.
Qed.

Lemma count_pending_below_length (t : table) :
  (count_pending t < S (length t))%nat.
Proof.
  unfold count_pending. pose proof (filter_length_le (is_status "pending") t).
  lia.
Qed.

(** X16. [process_all_pending] ends with no pending row: every row that
    was pending is completed, none is marked as an error, and the
    figures of [get_classification_stats] move accordingly. Its counters
    report every pending row as processed and successful, and none as
    failed, whatever the service did. *)
Theorem process_all_pending_counts :
  0 <= bs ->
  forall (t : table) (w : world) (b : Z),
    List.NoDup (map id t) ->
    exists st,
      process_all_pending api bs (S (length t)) t w b = Some st /\
      let before := get_classification_stats t in
      let after := get_classification_stats (rows st) in
      total after = total before /\
      pending after = 0 /\
      completed after = completed before + pending before /\
      errors after = errors before /\
      total_processed (counters st) = pending before /\
      successful (counters st) = pending before /\
      failed (counters st) = 0.
Proof.
  intros Hbs t w b Hnd. unfold process_all_pending.
  destruct (batch_loop_counts Hbs (S (length t))
              (mk_run t w b (mk_stats 0 0 0 0)) Hnd
              (count_pending_below_length t))
    as (st & Hrun & Hc & Hl & Hcs & Hb).
  exists st. split; [exact Hrun|]. cbv zeta in Hc, Hcs |- *.
  cbn [rows counters total_processed successful failed batches_processed] in *.
  unfold get_classification_stats. cbn [total completed pending errors].
  pose proof (Hc "pending") as H1. pose proof (Hc "completed") as H2.
  pose proof (Hc "error") as H3.
  change (String.eqb "pending" "pending") with true in H1.
  change (String.eqb "completed" "pending") with false in H1.
  change (String.eqb "pending" "completed") with false in H2.
  change (String.eqb "completed" "completed") with true in H2.
  change (String.eqb "pending" "error") with false in H3.
  change (String.eqb "completed" "error") with false in H3.
  cbv iota in H1, H2, H3. rewrite Hcs, Hl.
  cbn [total_processed successful failed].
  repeat split; lia.
Qed.

(** X17. The batch loop of [process_all_pending] takes the pending rows
    in rounds of [batch_size]: it counts as many batches as the number
    of pending rows divided by the batch size, rounded up (one batch for
    them all when the batch size is 0, which means no limit), and it
    moves [current_batch_id] on by one for each. *)
Theorem process_all_pending_batches :
  0 <= bs ->
  forall (t : table) (w : world) (b : Z),
    List.NoDup (map id t) ->
    exists st,
      process_all_pending api bs (S (length t)) t w b = Some st /\
      batches_processed (counters st)
        = rounds bs (pending (get_classification_stats t)) /\
      current_batch_id st = b + batches_processed (counters st) /\
      (0 < bs ->
       batches_processed (counters st)
       = (pending (get_classification_stats t) + bs - 1) / bs).
Proof.
  intros Hbs t w b Hnd. unfold process_all_pending.
  destruct (batch_loop_counts Hbs (S (length t))
              (mk_run t w b (mk_stats 0 0 0 0)) Hnd
              (count_pending_below_length t))
    as (st & Hrun & Hc & Hl & Hcs & Hb).
  exists st. split; [exact Hrun|]. cbv zeta in Hcs, Hb.
  cbn [rows counters current_batch_id batches_processed] in Hcs, Hb.
  rewrite Hcs, Hb.
  cbn [batches_processed get_classification_stats pending].
  split; [lia|]. split; [lia|].
  intros Hpos. unfold rounds.
  destruct (Z.eqb_spec bs 0); [lia|]. lia.
Qed.

(** *** Chosen products *)

Lemma classify_product_batch_id name b w :
  cl_batch_id (snd (classify_product api name b w)) = b.
Proof.
  unfold classify_product, classify_department.
  destruct (classify_category api name "D03" w) as [w1 [cat_code cat_name]].
  destruct (if Classify.nonempty cat_code
            then classify_subcategory api name cat_code w1
            else (w1, ("", ""))) as [w2 [sub_code sub_name]].
  reflexivity.
Qed.

Lemma find_some_known product_id (t : table) r :
  List.find (fun r => Z.eqb (id r) product_id) t = Some r ->
  id r = product_id /\ known t product_id = true.
Proof.
  intros H. apply find_some in H. destruct H as [Hin He].
  apply Z.eqb_eq in He. split; [exact He|].
  unfold known. apply existsb_exists. exists r. split; [exact Hin|].
  apply Z.eqb_eq. exact He.
Qed.

Lemma find_none_known product_id (t : table) :
  List.find (fun r => Z.eqb (id r) product_id) t = None ->
  known t product_id = false.
Proof.
  intros H. unfold known.
  destruct (existsb _ t) eqn:E; [|reflexivity].
  apply existsb_exists in E. destruct E as (r & Hin & He).
  pose proof (find_none _ _ H r Hin) as Hn. cbv beta in Hn. congruence.
Qed.

Lemma known_same_ids (t t' : table) x :
  map id t' = map id t -> known t' x = known t x.
Proof.
  unfold known. intros H.
  assert (Hm : forall l : table,
            existsb (fun r => Z.eqb (id r) x) l
            = existsb (fun i => Z.eqb i x) (map id l)).
  { induction l as [|r l IHl]; [reflexivity|]. cbn [map existsb].
    rewrite IHl. reflexivity. }
  rewrite !Hm, H. reflexivity.
Qed.

Lemma Forall2_impl_in {A B : Type} (R R' : A -> B -> Prop) l l' :
  Forall2 R l l' ->
  (forall a b, In a l -> R a b -> R' a b) ->
  Forall2 R' l l'.
Proof.
  induction 1 as [|a b l l' Hab _ IH]; intros Himp; constructor.
  - apply Himp; [left; reflexivity | exact Hab].
  - apply IH. intros a' b' Hin. apply Himp. right. exact Hin.
Qed.

Lemma Forall2_map_left {A B C : Type} (R : B -> C -> Prop) (g : A -> B) l l' :
  Forall2 R (map g l) l' -> Forall2 (fun a c => R (g a) c) l l'.
Proof.
  revert l'. induction l as [|a l IH]; intros l' H; inversion H; subst;
    constructor; auto.
Qed.

Lemma Forall2_same {A : Type} (R : A -> A -> Prop) l :
  (forall a, R a a) -> Forall2 R l l.
Proof. intros H. induction l; constructor; auto. Qed.

(** What a step of [process_specific_products] does. *)
Lemma process_specific_step_cases st x :
  let st1 := process_specific_step api st x in
  current_batch_id st1 = current_batch_id st /\
  ((known (rows st) x = true /\
    counters st1
    = mk_stats (total_processed (counters st) + 1)
               (successful (counters st) + 1)
               (failed (counters st)) (batches_processed (counters st)) /\
    exists c,
      cl_batch_id c = Some (current_batch_id st) /\
      rows st1 = update_where_id (with_classification c) x (rows st)) \/
   (known (rows st) x = false /\
    counters st1
    = mk_stats (total_processed (counters st)) (successful (counters st))
               (failed (counters st) + 1) (batches_processed (counters st)) /\
    rows st1 = rows st)).
Proof.
  cbv zeta. unfold process_specific_step, fetch_by_id.
  destruct (List.find _ (rows st)) as [product|] eqn:Hf.
  - destruct (find_some_known _ _ _ Hf) as [Hid Hk].
    destruct (process_product_counters st product) as [Hc Hb].
    split; [exact Hb|]. left.
    split; [exact Hk|]. split; [exact Hc|].
    eexists. split; [|rewrite process_product_rows, Hid; reflexivity].
    apply classify_product_batch_id.
  - split; [reflexivity|]. right.
    split; [apply find_none_known; exact Hf|]. split; reflexivity.
Qed.

Lemma specific_fold b :
  forall ids st,
    current_batch_id st = b ->
    let st' := fold_left (process_specific_step api) ids st in
    let found := Z.of_nat (length (List.filter (known (rows st)) ids)) in
    let missing :=
      Z.of_nat (length (List.filter (fun x => negb (known (rows st) x)) ids)) in
    counters st'
    = mk_stats (total_processed (counters st) + found)
               (successful (counters st) + found)
               (failed (counters st) + missing)
               (batches_processed (counters st)) /\
    Forall2
      (fun r r' =>
         id r' = id r /\ product_name r' = product_name r /\
         if existsb (Z.eqb (id r)) ids
         then processing_status r' = "completed" /\ batch_id r' = Some b
         else r' = r)
      (rows st) (rows st').
Proof.
  induction ids as [|x ids IH]; intros st Hb; cbv zeta.
  - cbn [fold_left List.filter length existsb]. change (Z.of_nat 0) with 0.
    split; [destruct (counters st); cbn; f_equal; lia|].
    apply Forall2_same. auto.
  - cbn [fold_left].
    destruct (process_specific_step_cases st x) as [Hb1 Hstep].
    cbv zeta in Hb1, Hstep.
    set (st1 := process_specific_step api st x) in *.
    rewrite Hb in Hb1, Hstep.
    destruct (IH st1 Hb1) as [I3 I4]. cbv zeta in I3.
    assert (Hids : map id (rows st1) = map id (rows st)).
    { destruct Hstep as [(_ & _ & c & _ & Hr)|(_ & _ & Hr)]; rewrite Hr;
        [|reflexivity].
      apply update_where_id_ids. reflexivity. }
    assert (Hf1 : List.filter (known (rows st1)) ids
                  = List.filter (known (rows st)) ids).
    { apply filter_ext. intros y. apply known_same_ids. exact Hids. }
    assert (Hf2 : List.filter (fun y => negb (known (rows st1) y)) ids
                  = List.filter (fun y => negb (known (rows st) y)) ids).
    { apply filter_ext. intros y. f_equal. apply known_same_ids. exact Hids. }
    rewrite Hf1, Hf2 in I3.
    split.
    + rewrite I3. cbn [List.filter].
      destruct Hstep as [(Hk & Hc & _)|(Hk & Hc & _)]; rewrite Hk, Hc;
        cbn [negb length total_processed successful failed batches_processed];
        rewrite ?Nat2Z.inj_succ; f_equal; lia.
    + destruct Hstep as [(Hk & _ & c & Hcb & Hr)|(Hk & _ & Hr)].
      * rewrite Hr in I4. unfold update_where_id in I4.
        apply Forall2_map_left in I4.
        eapply Forall2_impl; [exact I4|]. cbv beta.
        intros r r' (A1 & A2 & A3). cbn [existsb].
        destruct (Z.eqb_spec (id r) x) as [E|E]; cbn [orb];
          [|split; [exact A1|]; split; [exact A2 | exact A3]].
        cbn [id product_name with_classification] in A1, A2.
        split; [exact A1|]. split; [exact A2|].
        cbn [id with_classification] in A3.
        destruct (existsb (Z.eqb (id r)) ids); [exact A3|].
        subst r'. cbn [processing_status batch_id with_classification].
        split; [reflexivity | exact Hcb].
      * rewrite Hr in I4.
        eapply Forall2_impl_in; [exact I4|]. cbv beta.
        intros r r' Hin (A1 & A2 & A3). cbn [existsb].
        destruct (Z.eqb_spec (id r) x) as [E|E]; cbn [orb];
          [|split; [exact A1|]; split; [exact A2 | exact A3]].
        exfalso.
        assert (Hk' : known (rows st) x = true); [|congruence].
        unfold known. apply existsb_exists. exists r.
        split; [exact Hin | apply Z.eqb_eq; exact E].
Qed.

(** X18. [process_specific_products] classifies every listed product
    that is in the table, whatever its status, also one that is already
    completed: its row ends as completed, with the processor's batch
    identifier, and the rows that are not listed are not touched. An
    identifier that is not in the table is only counted as failed; it is
    skipped before [total_processed] is incremented, so that
    [total_processed] and [successful] count the listed identifiers that
    were found, and [failed] those that were not. *)
Theorem process_specific_products_outcome :
  forall (product_ids : list Z) (t : table) (w : world) (b : Z),
    let st := process_specific_products api product_ids t w b in
    let found := Z.of_nat (length (List.filter (known t) product_ids)) in
    total_processed (counters st) = found /\
    successful (counters st) = found /\
    failed (counters st) = Z.of_nat (length product_ids) - found /\
    Forall2
      (fun r r' =>
         id r' = id r /\ product_name r' = product_name r /\
         if existsb (Z.eqb (id r)) product_ids
         then processing_status r' = "completed" /\ batch_id r' = Some b
         else r' = r)
      t (rows st).
Proof.
  intros product_ids t w b. cbv zeta. unfold process_specific_products.
  destruct (specific_fold b product_ids (mk_run t w b (mk_stats 0 0 0 0))
              eq_refl) as [Hc Hr].
  cbv zeta in Hc. cbn [rows counters total_processed successful failed
                       batches_processed] in Hc, Hr.
  rewrite Hc. cbn [total_processed successful failed].
  assert (Hlen : forall l : list Z,
            (length (List.filter (known t) l)
             + length (List.filter (fun x => negb (known t x)) l)
             = length l)%nat).
  { induction l as [|x l IHl]; [reflexivity|]. cbn [List.filter].
    destruct (known t x); cbn [negb length]; lia. }
  specialize (Hlen product_ids).
  repeat (split; [lia|]). exact Hr.
Qed.

End BatchMore.

(** ** The batches of the pipeline *)

Section PipelineMore.
Import Pipeline.

Context {A : Type}.

Lemma firstn_min_length (a : nat) (l : list A) :
  firstn (Nat.min a (length l)) l = firstn a l.
Proof.
  destruct (Nat.le_gt_cases a (length l)) as [H|H].
  - rewrite Nat.min_l by exact H. reflexivity.
  - rewrite Nat.min_r by lia. rewrite firstn_all, firstn_all2 by lia.
    reflexivity.
Qed.

Lemma firstn_then_firstn (a b : nat) :
  forall l : list A,
    (firstn a l ++ firstn b (skipn a l))%list = firstn (a + b) l.
Proof.
  induction a as [|a IH]; intros l; [reflexivity|].
  destruct l as [|x l]; [destruct b; reflexivity|].
  cbn [firstn skipn Nat.add app]. rewrite IH. reflexivity.
Qed.

Lemma batch_products_nat (products : list A) (bs : Z) (k : nat) :
  0 < bs ->
  batch_products products bs (Z.of_nat k)
  = firstn (Z.to_nat bs) (skipn (k * Z.to_nat bs) products).
Proof.
  intros Hbs. unfold batch_products, slice. cbv zeta.
  assert (Hs : Z.to_nat (Z.of_nat k * bs) = (k * Z.to_nat bs)%nat).
  { rewrite Z2Nat.inj_mul by lia. rewrite Nat2Z.id. reflexivity. }
  rewrite Hs.
  rewrite <- (firstn_min_length (Z.to_nat bs)).
  f_equal. rewrite length_skipn. nia.
Qed.

Lemma concat_batches (products : list A) (bs : Z) :
  0 < bs ->
  forall n,
    concat (map (fun k => batch_products products bs (Z.of_nat k)) (seq 0 n))
    = firstn (n * Z.to_nat bs) products.
Proof.
  intros Hbs. induction n as [|n IH]; [reflexivity|].
  rewrite seq_S, map_app, concat_app, IH. cbn [map concat Nat.add].
  rewrite app_nil_r, batch_products_nat by exact Hbs.
  rewrite firstn_then_firstn. f_equal. lia.
Qed.

Lemma total_batches_bounds (n bs : Z) :
  0 < bs -> 0 <= n ->
  let q := total_batches n bs in
  0 <= q /\ n <= q * bs /\ (0 < n -> (q - 1) * bs < n) /\ (n = 0 -> q = 0).
Proof.
  intros Hbs Hn. cbv zeta. unfold total_batches.
  pose proof (Z.div_mod (n + bs - 1) bs ltac:(lia)) as Hdm.
  pose proof (Z.mod_pos_bound (n + bs - 1) bs Hbs) as Hm.
  assert (Hq : 0 <= (n + bs - 1) / bs) by (apply Z.div_pos; lia).
  split; [exact Hq|]. split; [nia|]. split; [intros; nia|].
  intros ->. apply Z.div_small. lia.
Qed.

(** X19. The loop of [main] cuts the list of products into consecutive
    batches that together are the whole list, each product once and in
    order: there are as many batches as the length divided by the batch
    size, rounded up, none of them is empty, and every batch but the last
    has exactly [batch_size] products. *)
Theorem main_batches_partition :
  forall (products : list A) (batch_size : Z),
    0 < batch_size ->
    let bl := batches products batch_size in
    concat bl = products /\
    Z.of_nat (length bl)
      = (Z.of_nat (length products) + batch_size - 1) / batch_size /\
    Forall (fun batch => (0 < length batch)%nat /\
                         Z.of_nat (length batch) <= batch_size) bl /\
    (forall k, (S k < length bl)%nat ->
               Z.of_nat (length (nth k bl [])) = batch_size).
Proof.
  intros products bs Hbs. cbv zeta.
  destruct (total_batches_bounds (Z.of_nat (length products)) bs Hbs
              ltac:(lia)) as (Hq0 & Hq1 & Hq2 & Hq3).
  unfold batches.
  set (q := total_batches (Z.of_nat (length products)) bs) in *.
  assert (Hlen : length
                   (map (fun k => batch_products products bs (Z.of_nat k))
                        (seq 0 (Z.to_nat q))) = Z.to_nat q).
  { rewrite length_map, length_seq. reflexivity. }
  split; [|split; [|split]].
  - rewrite concat_batches by exact Hbs. apply firstn_all2. nia.
  - rewrite Hlen, Z2Nat.id by exact Hq0. reflexivity.
  - apply List.Forall_forall. intros batch Hin.
    apply in_map_iff in Hin. destruct Hin as (k & <- & Hk).
    apply in_seq in Hk.
    rewrite batch_products_nat by exact Hbs.
    rewrite length_firstn, length_skipn. split; nia.
  - intros k Hk. rewrite Hlen in Hk.
    rewrite (nth_indep _ [] (batch_products products bs (Z.of_nat 0)))
      by (rewrite Hlen; lia).
    rewrite (map_nth (fun k => batch_products products bs (Z.of_nat k))).
    rewrite seq_nth by lia. cbn [Nat.add].
    rewrite batch_products_nat by exact Hbs.
    rewrite length_firstn, length_skipn. nia.
Qed.

End PipelineMore.

(** ** The taxonomy *)

Section TaxonomyMore.
Import MROClassifier Taxonomy Spec Props.

Variable api : nat -> prompt -> api_outcome.

(** The two copies of the taxonomy, in [taxonomy.py] and in
    [setup_taxonomy], are the same. *)
Lemma taxonomy_copies_agree :
  DEPARTMENTS = departments /\
  CATEGORIES = d03_categories /\
  SUBCATEGORIES = subcategories_by_cat.
Proof. repeat split; vm_compute; reflexivity. Qed.

Lemma classify_product_path name b w :
  let c := snd (classify_product api name b w) in
  exists cat cat_name sub sub_name,
    cl_cat_code c = Some cat /\ cl_cat_name c = Some cat_name /\
    cl_sub_code c = Some sub /\ cl_sub_name c = Some sub_name /\
    lookup cat d03_categories = Some cat_name /\
    lookup sub (subcategories_of cat) = Some sub_name /\
    cl_dept_code c = Some "D03" /\
    cl_dept_name c = Some (default "" (lookup "D03" departments)).
Proof.
  cbv zeta. unfold classify_product, classify_department.
  assert (Hcat := classify_category_known api name w).
  destruct (classify_category_named api name w) as (cn & Hcn1 & Hcn2).
  destruct (classify_category api name "D03" w)
    as [w1 [cat_code cat_name]]. cbn [fst snd] in Hcat, Hcn1, Hcn2.
  assert (Hn : Classify.nonempty cat_code = true)
    by exact (nonempty_has_key _ _ d03_codes_nonempty Hcat).
  rewrite Hn.
  destruct (classify_subcategory_named api name cat_code w1 Hcat)
    as (sn & Hsn1 & Hsn2).
  destruct (classify_subcategory api name cat_code w1)
    as [w2 [sub_code sub_name]]. cbn [fst snd] in Hsn1, Hsn2.
  exists cat_code, cat_name, sub_code, sub_name.
  cbn [snd cl_cat_code cl_cat_name cl_sub_code cl_sub_name cl_dept_name
       cl_dept_code].
  subst cn sn. repeat (split; [first [reflexivity | assumption]|]).
  reflexivity.
Qed.

(** X20. What [classify_product] stores agrees with [taxonomy.py]: for
    the category and subcategory codes of any result,
    [get_full_classification] finds both codes in its own tables, never
    falls back to [Unknown], and gives the department, category and
    subcategory names that the classifier has put in the result. *)
Theorem get_full_classification_agrees :
  forall (product_name : string) (batch_id : option Z) (w : world),
    let c := snd (classify_product api product_name batch_id w) in
    exists cat sub,
      cl_cat_code c = Some cat /\ cl_sub_code c = Some sub /\
      let f := get_full_classification cat sub in
      lookup cat CATEGORIES = Some (category_name f) /\
      lookup sub (default [] (lookup cat SUBCATEGORIES))
        = Some (subcategory_name f) /\
      cl_dept_code c = Some (department_code f) /\
      cl_dept_name c = Some (department_name f) /\
      cl_cat_name c = Some (category_name f) /\
      cl_sub_name c = Some (subcategory_name f).
Proof.
  intros product_name batch_id w. cbv zeta.
  destruct (classify_product_path product_name batch_id w)
    as (cat & cn & sub & sn & H1 & H2 & H3 & H4 & H5 & H6 & H7 & H8).
  destruct taxonomy_copies_agree as (Td & Tc & Ts).
  exists cat, sub. split; [exact H1|]. split; [exact H3|].
  unfold get_full_classification.
  cbn [category_name subcategory_name department_code department_name].
  rewrite Td, Tc, Ts. fold (subcategories_of cat). rewrite H5, H6.
  repeat split; first [assumption | reflexivity].
Qed.

Lemma lookup_In {V : Type} (k : string) (d : list (string * V)) v :
  lookup k d = Some v -> In (k, v) d.
Proof.
  induction d as [|[k' v'] rest IH]; simpl; [discriminate|].
  destruct (String.eqb_spec k k') as [->|Hne].
  - intros [= ->]. left. reflexivity.
  - intros H. right. apply IH. exact H.
Qed.

Lemma In_lookup {V : Type} (k : string) (d : list (string * V)) v :
  List.NoDup (map fst d) -> In (k, v) d -> lookup k d = Some v.
Proof.
  induction d as [|[k' v'] rest IH]; intros Hnd Hin; [destruct Hin|].
  cbn [map fst] in Hnd. apply NoDup_cons_iff in Hnd. destruct Hnd as [Hk Hnd].
  cbn [lookup]. destruct Hin as [[= -> ->]|Hin].
  - rewrite String.eqb_refl. reflexivity.
  - destruct (String.eqb_spec k k') as [->|Hne]; [|apply IH; assumption].
    exfalso. apply Hk. apply (in_map fst) in Hin. exact Hin.
Qed.

Lemma first_category_In sub :
  forall table cat,
    first_category sub table = Some cat ->
    exists subs, In (cat, subs) table /\ has_key sub subs = true.
Proof.
  induction table as [|[c subs] rest IH]; intros cat H; [discriminate H|].
  cbn [first_category] in H. destruct (has_key sub subs) eqn:Hk.
  - injection H as <-. exists subs. split; [left; reflexivity | exact Hk].
  - destruct (IH cat H) as (subs' & Hin & Hk').
    exists subs'. split; [right; exact Hin | exact Hk'].
Qed.

Lemma categories_distinct : List.NoDup (map fst SUBCATEGORIES).
Proof.
  cbn [map fst SUBCATEGORIES].
  repeat (apply List.NoDup_cons;
          [cbn [In]; intros H; repeat destruct H as [H|H]; try discriminate H;
           exact H|]).
  apply List.NoDup_nil.
Qed.

Lemma listing_check :
  forallb
    (fun entry =>
       forallb
         (fun kv =>
            match get_category_by_subcategory (fst kv) with
            | Some c => String.eqb c (first_listing (fst entry) (fst kv))
            | None => false
            end)
         (snd entry))
    SUBCATEGORIES = true.
Proof. vm_compute. reflexivity. Qed.

(** X21. [get_category_by_subcategory] answers with a category that
    lists the code, and for a code listed under a category it answers
    with that category, but for the codes C719 and C722: S46 and S71
    both list them, and the answer is S46 also for a product that is
    classified under S71. *)
Theorem get_category_by_subcategory_first_listing :
  (forall sub cat,
     get_category_by_subcategory sub = Some cat ->
     has_key sub (default [] (lookup cat SUBCATEGORIES)) = true) /\
  (forall cat sub,
     has_key sub (default [] (lookup cat SUBCATEGORIES)) = true ->
     get_category_by_subcategory sub = Some (first_listing cat sub)) /\
  (forall cat sub,
     first_listing cat sub <> cat <->
     cat = "S71" /\ (sub = "C719" \/ sub = "C722")) /\
  has_key "C719" (default [] (lookup "S71" SUBCATEGORIES)) = true /\
  has_key "C722" (default [] (lookup "S71" SUBCATEGORIES)) = true.
Proof.
  split; [|split; [|split; [|split; vm_compute; reflexivity]]].
  - intros sub cat H. unfold get_category_by_subcategory in H.
    destruct (first_category_In sub _ _ H) as (subs & Hin & Hk).
    rewrite (In_lookup _ _ _ categories_distinct Hin). exact Hk.
  - intros cat sub H.
    destruct (lookup cat SUBCATEGORIES) as [subs|] eqn:Hl; [|discriminate H].
    cbn [default] in H. apply lookup_In in Hl. apply has_key_In in H.
    apply in_map_iff in H. destruct H as ([sub' name] & Hs & Hin).
    cbn [fst] in Hs. subst sub'.
    pose proof listing_check as Hc. rewrite forallb_forall in Hc.
    specialize (Hc _ Hl). cbn [fst snd] in Hc.
    rewrite forallb_forall in Hc. specialize (Hc _ Hin). cbn [fst] in Hc.
    destruct (get_category_by_subcategory sub) as [c|]; [|discriminate Hc].
    apply String.eqb_eq in Hc. rewrite Hc. reflexivity.
  - intros cat sub. unfold first_listing.
    destruct (String.eqb_spec cat "S71") as [->|Hc]; cbn [andb].
    + destruct (String.eqb_spec sub "C719") as [->|H1]; cbn [orb].
      * split; [intros _; auto | intros _; discriminate].
      * destruct (String.eqb_spec sub "C722") as [->|H2].
        -- split; [intros _; auto | intros _; discriminate].
        -- split; [intros H; contradiction | intros (_ & [H|H]); contradiction].
    + split; [intros H; contradiction | intros (H & _); contradiction].
Qed.

End TaxonomyMore.

(** ** The group summaries *)

Section GroupsMore.
Import DuplicateGroups Props.

Lemma last_cons {A : Type} (l : list A) :
  forall v d, List.last (v :: l) d = List.last l v.
Proof.
  induction l as [|x l IH]; intros v d; [reflexivity|].
  change (List.last (v :: x :: l) d) with (List.last (x :: l) d).
  rewrite !IH. reflexivity.
Qed.

Lemma group_calls_fold g :
  forall (later : list group_call) (t : gmap Z group_row) r,
    t !! g = Some r ->
    fold_left (apply_group_call g) later t !! g
    = Some (mk_group_row (master_product_id r) (normalized_master_name r)
              (product_count r + Z.of_nat (length later))
              (List.last (map snd later) (variations r))) /\
    forall g', g' <> g ->
      fold_left (apply_group_call g) later t !! g' = t !! g'.
Proof.
  induction later as [|[[m n] v] later IH]; intros t r Hr.
  - cbn [fold_left length map List.last]. split; [|reflexivity].
    rewrite Hr. destruct r; cbn. do 2 f_equal. lia.
  - cbn [fold_left].
    assert (Hstep : apply_group_call g t (m, n, v)
                    = <[g := mk_group_row (master_product_id r)
                               (normalized_master_name r)
                               (product_count r + 1) v]> t).
    { unfold apply_group_call, update_duplicate_group. cbn [fst snd].
      rewrite Hr. reflexivity. }
    rewrite Hstep.
    destruct (IH (<[g := mk_group_row (master_product_id r)
                          (normalized_master_name r)
                          (product_count r + 1) v]> t)
                 (mk_group_row (master_product_id r)
                    (normalized_master_name r) (product_count r + 1) v))
      as [I1 I2]; [apply lookup_insert_eq|].
    split.
    + rewrite I1. cbn [master_product_id normalized_master_name product_count
                       variations length map snd].
      rewrite last_cons. f_equal. f_equal. lia.
    + intros g' Hg. rewrite (I2 g' Hg). apply lookup_insert_ne. congruence.
Qed.

(** X22. The summary of a group keeps the master of the call that
    created it: later calls of [update_duplicate_group] for the group,
    whatever master they name, only add one to [product_count] and
    replace [variations]. The count is therefore the number of
    variations of the first call plus the number of later calls, whatever
    the length of the list that is stored; other groups are not
    touched. *)
Theorem update_duplicate_group_keeps_master :
  forall (t : gmap Z group_row) (g m0 : Z) (n0 : string) (v0 : list string)
         (later : list group_call),
    t !! g = None ->
    let t' := fold_left (apply_group_call g) later
                (update_duplicate_group g m0 n0 v0 t) in
    t' !! g
    = Some (mk_group_row m0 n0
              (Z.of_nat (length v0) + Z.of_nat (length later))
              (List.last (map snd later) v0)) /\
    forall g', g' <> g -> t' !! g' = t !! g'.
Proof.
  intros t g m0 n0 v0 later Hn. cbv zeta.
  assert (Hfirst : update_duplicate_group g m0 n0 v0 t
                   = <[g := mk_group_row m0 n0 (Z.of_nat (length v0)) v0]> t).
  { unfold update_duplicate_group. rewrite Hn. reflexivity. }
  rewrite Hfirst.
  destruct (group_calls_fold g later
              (<[g := mk_group_row m0 n0 (Z.of_nat (length v0)) v0]> t)
              (mk_group_row m0 n0 (Z.of_nat (length v0)) v0))
    as [I1 I2]; [apply lookup_insert_eq|].
  split; [exact I1|].
  intros g' Hg. rewrite (I2 g' Hg). apply lookup_insert_ne. congruence.
Qed.

End GroupsMore.

(** ** The codes read from a reply *)

Section CodesMore.
Import Regex MROClassifier Props.

Lemma finditer_suffixes r :
  forall s pre0 skip before,
    Forall (fun m => exists b pre t,
                       pre0 ++ s = pre ++ t /\ match_at r b t = Some m)
           (finditer_from r skip before s).
Proof.
  induction s as [|c t IH]; intros pre0 skip before.
  - destruct skip as [|k]; simpl; [|constructor].
    destruct (match_at r before "") as [m|] eqn:Hm; constructor;
      [eauto | constructor].
  - assert (Hshift : forall k b,
              Forall (fun m => exists b' pre t',
                        pre0 ++ String c t = pre ++ t' /\
                        match_at r b' t' = Some m)
                     (finditer_from r k b t)).
    { intros k b. specialize (IH (pre0 ++ String c "") k b).
      rewrite append_assoc in IH. exact IH. }
    destruct skip as [|k]; cbn [finditer_from]; [|apply Hshift].
    destruct (match_at r before (String c t)) as [m|] eqn:Hm;
      [|apply Hshift].
    constructor; [eauto | apply Hshift].
Qed.

Lemma run_rep_digits :
  forall n st st',
    In st' (run (Rep n digit) st) ->
    exists ds, rest st = ds ++ rest st' /\ String.length ds = n /\
               all_chars PyStr.isdigit ds = true.
Proof.
  induction n as [|n IH]; intros st st' Hin; cbn [Rep run] in Hin.
  - destruct Hin as [<-|[]]. exists "". auto.
  - apply in_flat_map in Hin. destruct Hin as (s1 & H1 & H2).
    unfold digit in H1. cbn [run] in H1.
    destruct (rest st) as [|c t] eqn:E; [destruct H1|].
    destruct (PyStr.isdigit c) eqn:Hc; [|destruct H1].
    destruct H1 as [<-|[]].
    destruct (IH _ _ H2) as (ds & E2 & L2 & A2). cbn [rest] in E2.
    exists (String c ds). rewrite E2. cbn [String.length all_chars].
    rewrite L2, Hc, A2. auto.
Qed.

Lemma match_at_code letter n b t m :
  match_at (Seq (Lit (String letter "")) (Rep n digit)) b t = Some m ->
  exists t', t = whole m ++ t' /\ code_of letter n (whole m).
Proof.
  unfold match_at.
  destruct (run _ (mk_mstate b t [])) as [|st' l] eqn:Hrun; [discriminate|].
  intros [= <-]. cbn [whole].
  assert (Hin : In st' (run (Seq (Lit (String letter "")) (Rep n digit))
                          (mk_mstate b t []))) by (rewrite Hrun; left; reflexivity).
  cbn [run] in Hin. apply in_flat_map in Hin. destruct Hin as (s1 & H1 & H2).
  apply run_lit in H1. cbn [rest] in H1.
  destruct (run_rep_digits _ _ _ H2) as (ds & E2 & L2 & A2).
  assert (E : rest (mk_mstate b t []) = String letter ds ++ rest st').
  { cbn [rest]. rewrite H1, E2. reflexivity. }
  rewrite (consumed_prefix _ _ _ E). exists (rest st').
  split; [exact E|]. exists ds. auto.
Qed.

Lemma startswith_self p t : PyStr.startswith p (p ++ t) = true.
Proof.
  induction p as [|c p IH]; [destruct t; reflexivity|].
  rewrite append_cons. cbn [PyStr.startswith].
  rewrite Ascii.eqb_refl, IH. reflexivity.
Qed.

Lemma contains_at p pre t : PyStr.contains p (pre ++ p ++ t) = true.
Proof.
  induction pre as [|c pre IH].
  - change ("" ++ p ++ t) with (p ++ t).
    destruct (p ++ t) eqn:E; cbn [PyStr.contains];
      rewrite <- E, startswith_self; reflexivity.
  - rewrite append_cons. cbn [PyStr.contains]. rewrite IH.
    apply orb_true_r.
Qed.

Lemma extract_code_of letter n text c :
  extract_code (Seq (Lit (String letter "")) (Rep n digit)) text = Some c ->
  code_of letter n c /\ PyStr.contains c text = true.
Proof.
  unfold extract_code, search, finditer.
  pose proof (finditer_suffixes
                (Seq (Lit (String letter "")) (Rep n digit)) text "" 0 None)
    as Hs.
  destruct (finditer_from _ 0 None text) as [|m l]; [discriminate|].
  cbn [hd_error].
  apply List.Forall_cons_iff in Hs. destruct Hs as [(b & pre & t & E & Hm) _].
  destruct (Classify.nonempty (whole m)); [|discriminate].
  intros [= <-].
  destruct (match_at_code _ _ _ _ _ Hm) as (t' & Et & Hc).
  split; [exact Hc|].
  change ("" ++ text) with text in E. rewrite E, Et. apply contains_at.
Qed.

(** X23. The code that [claude_classify] reads from a reply is a piece
    of the reply of the asked form: an S and two digits for the category
    question, a C and three digits for the subcategory question. Nothing
    else of the reply is returned. *)
Theorem extract_code_returns_code :
  forall (text c : string),
    (extract_code category_pattern text = Some c ->
     code_of "S" 2 c /\ PyStr.contains c text = true) /\
    (extract_code subcategory_pattern text = Some c ->
     code_of "C" 3 c /\ PyStr.contains c text = true).
Proof.
  intros text c. split; apply extract_code_of.
Qed.

End CodesMore.

(** ** The further properties at work *)

Section InstancesMore.
Import Database Classify MROClassifier MRODatabase BatchProcessor MROReports.
Import Pipeline DuplicateGroups Spec Props.

(** X1 at work: the keys of a first product are registered for group 1
    in an empty dictionary, and found again. *)
Lemma registered_master_is_found_witness :
  duplicate_dictionary Samples.empty_db !! "parafuso inox 12" = None /\
  1 <> 0 /\
  snd (check_duplicate_by_keys Samples.inox_keys key_weights
         (duplicate_dictionary
            (register_product_keys 1 Samples.inox_keys 1 key_weights
               Samples.empty_db)))
    = Some (1, Float64.of_Z 1).
Proof.
  assert (H : duplicate_dictionary Samples.empty_db !! "parafuso inox 12"
              = None) by reflexivity.
  assert (Hg : 1 <> 0) by discriminate.
  split; [exact H|]. split; [exact Hg|].
  exact (registered_master_is_found Samples.empty_db 1 1
           "parafuso inox 12" "parafusoinox12" "12_inox_parafuso"
           "inox_parafuso" "12" "parino" H Hg).
Defined.

(** X2 at work: a one-word name has the same exact, alpha, sorted and
    core key; the string is stored as an exact key, and the alpha key is
    never found. *)
Lemma register_product_keys_first_type_wins_witness :
  let hk := six_keys "porca" "porca" "porca" "porca" "0a1b2c3d4e" "por" in
  let d' := duplicate_dictionary
              (register_product_keys 1 hk 1 key_weights Samples.empty_db) in
  duplicate_dictionary Samples.empty_db !! "porca" = None /\
  first_type "porca" hk = Some "exact" /\
  d' !! "porca"
    = Some (mk_dict_row 1 "exact" (weight_of key_weights "exact") 1
              (occurrences "porca" hk - 1)) /\
  bound_group d' "exact" "porca" = Some 1 /\
  bound_group d' "alpha" "porca" = None.
Proof.
  cbv zeta.
  assert (H : duplicate_dictionary Samples.empty_db !! "porca" = None)
    by reflexivity.
  assert (Hf : first_type "porca"
                 (six_keys "porca" "porca" "porca" "porca" "0a1b2c3d4e" "por")
               = Some "exact") by reflexivity.
  split; [exact H|]. split; [exact Hf|].
  destruct (register_product_keys_first_type_wins Samples.empty_db 1 1
              _ "porca" "exact" H Hf) as (H1 & H2 & H3 & _).
  split; [exact H1|]. split; [exact H2|].
  apply H3. discriminate.
Defined.

(** X6 at work: a second product of a first batch is a master, and is
    found again after a later batch. *)
Lemma saved_product_is_recognised_witness :
  let q := Samples.classified 0 "rolamento 6204"
             (six_keys "rolamento 6204" "rolamento6204" "6204_rolamento"
                       "" "6204" "rol") in
  let p := Samples.classified 1 "parafuso inox 12" Samples.inox_keys in
  let p' := Samples.classified 7 "parafuso inox 12" Samples.inox_keys in
  let s' := later_batches
              (Classify.process_batch "batch-1" Samples.empty_db [q; p])
              [("batch-2", [q])] in
  groups_positive Samples.empty_db /\
  duplicate_dictionary Samples.empty_db !! "parafuso inox 12" = None /\
  Forall (fun x => ~ In "parafuso inox 12" (map snd (hash_keys x))) [q] /\
  is_master (snd (detect_one Samples.empty_db p)) = Some true /\
  is_master (snd (detect_one s' p')) = Some false /\
  similarity_score (snd (detect_one s' p')) = Some (Float64.of_Z 1).
Proof.
  cbv zeta.
  set (q := Samples.classified 0 "rolamento 6204"
              (six_keys "rolamento 6204" "rolamento6204" "6204_rolamento"
                        "" "6204" "rol")).
  set (p := Samples.classified 1 "parafuso inox 12" Samples.inox_keys).
  set (p' := Samples.classified 7 "parafuso inox 12" Samples.inox_keys).
  assert (H : duplicate_dictionary Samples.empty_db !! "parafuso inox 12"
              = None) by reflexivity.
  assert (Hq : Forall (fun x => ~ In "parafuso inox 12"
                                  (map snd (hash_keys x))) [q]).
  { apply List.Forall_cons; [|apply List.Forall_nil].
    simpl. intuition discriminate. }
  assert (Hm : is_master (snd (detect_one Samples.empty_db p)) = Some true)
    by (vm_compute; reflexivity).
  split; [exact empty_db_groups_positive|]. split; [exact H|].
  split; [exact Hq|]. split; [exact Hm|].
  destruct (saved_product_is_recognised Samples.empty_db "batch-1"
              [q] [] [("batch-2", [q])] p p'
              "parafuso inox 12" "parafusoinox12" "12_inox_parafuso"
              "inox_parafuso" "12" "parino"
              empty_db_groups_positive H Hq eq_refl eq_refl)
    as (_ & H1 & H2).
  split; [exact H1|]. exact (proj2 (H2 Hm)).
Defined.


(** X10 at work: a hyphen between two words. *)
Lemma alpha_key_ignores_other_characters_witness :
  alnum (PyStr.lower_char "-") = false /\
  exists k,
    MROClassifier.lookup "alpha" (generate_hash_keys "parafuso-m8" "")
      = Some k /\
    MROClassifier.lookup "alpha" (generate_hash_keys "parafusom8" "")
      = Some k /\
    all_chars alnum k = true.
Proof.
  assert (H : alnum (PyStr.lower_char "-") = false) by reflexivity.
  split; [exact H|].
  exact (alpha_key_ignores_other_characters "parafuso" "m8" "-" "" "" H).
Defined.

(** X11 at work: two words swapped, in another case and with two
    spaces. *)
Lemma sorted_key_ignores_word_order_witness :
  Permutation (PyStr.split (PyStr.lower "parafuso inox"))
              (PyStr.split (PyStr.lower "INOX  Parafuso")) /\
  MROClassifier.lookup "sorted" (generate_hash_keys "parafuso inox" "")
  = MROClassifier.lookup "sorted" (generate_hash_keys "INOX  Parafuso" "").
Proof.
  assert (H : Permutation (PyStr.split (PyStr.lower "parafuso inox"))
                          (PyStr.split (PyStr.lower "INOX  Parafuso")))
    by (vm_compute; apply perm_swap).
  split; [exact H|].
  exact (sorted_key_ignores_word_order _ _ "" "" H).
Defined.

Ltac distinct_rows :=
  repeat (apply List.NoDup_cons; [simpl; intuition discriminate|]);
  apply List.NoDup_nil.

(** X16 at work: two pending rows and a service that answers. *)
Lemma process_all_pending_counts_witness :
  0 <= 10 /\
  List.NoDup (map id Samples.two_pending) /\
  exists st,
    process_all_pending Samples.api_up 10 3 Samples.two_pending
      Samples.quiet 100 = Some st /\
    pending (get_classification_stats (rows st)) = 0 /\
    failed (counters st) = 0.
Proof.
  assert (Hbs : 0 <= 10) by (intros H; discriminate H).
  assert (Hnd : List.NoDup (map id Samples.two_pending)) by distinct_rows.
  split; [exact Hbs|]. split; [exact Hnd|].
  destruct (process_all_pending_counts Samples.api_up 10 Hbs
              Samples.two_pending Samples.quiet 100 Hnd)
    as (st & Hrun & _ & Hp & _ & _ & _ & _ & Hf).
  exists st. split; [exact Hrun|]. split; [exact Hp | exact Hf].
Defined.

(** X17 at work: two pending rows in batches of one. *)
Lemma process_all_pending_batches_witness :
  0 <= 1 /\
  List.NoDup (map id Samples.two_pending) /\
  exists st,
    process_all_pending Samples.api_down 1 3 Samples.two_pending
      Samples.quiet 100 = Some st /\
    batches_processed (counters st)
      = rounds 1 (pending (get_classification_stats Samples.two_pending)) /\
    current_batch_id st = 100 + batches_processed (counters st).
Proof.
  assert (Hbs : 0 <= 1) by (intros H; discriminate H).
  assert (Hnd : List.NoDup (map id Samples.two_pending)) by distinct_rows.
  split; [exact Hbs|]. split; [exact Hnd|].
  destruct (process_all_pending_batches Samples.api_down 1 Hbs
              Samples.two_pending Samples.quiet 100 Hnd)
    as (st & Hrun & Hb & Hc & _).
  exists st. split; [exact Hrun|]. split; [exact Hb | exact Hc].
Defined.

(** X19 at work: twenty-three products in batches of ten. *)
Lemma main_batches_partition_witness :
  0 < Database.batch_size /\
  concat (batches (seq 0 23) Database.batch_size) = seq 0 23 /\
  Z.of_nat (length (batches (seq 0 23) Database.batch_size))
    = (Z.of_nat (length (seq 0 23)) + Database.batch_size - 1)
      / Database.batch_size.
Proof.
  assert (Hbs : 0 < Database.batch_size) by reflexivity.
  split; [exact Hbs|].
  destruct (main_batches_partition (seq 0 23) Database.batch_size Hbs)
    as (H1 & H2 & _).
  split; [exact H1 | exact H2].
Defined.

(** X22 at work: a group created with two variations and updated
    once. *)
Lemma update_duplicate_group_keeps_master_witness :
  (∅ : gmap Z group_row) !! 1 = None /\
  fold_left (apply_group_call 1) [(9, "porca m8", ["porca m8 zincada"])]
    (update_duplicate_group 1 5 "porca sextavada m8"
       ["porca sext m8"; "porca sextavada m8"] ∅) !! 1
  = Some (mk_group_row 5 "porca sextavada m8"
            (Z.of_nat 2 + Z.of_nat 1) ["porca m8 zincada"]).
Proof.
  assert (H : (∅ : gmap Z group_row) !! 1 = None) by reflexivity.
  split; [exact H|].
  exact (proj1 (update_duplicate_group_keeps_master ∅ 1 5
                  "porca sextavada m8"
                  ["porca sext m8"; "porca sextavada m8"]
                  [(9, "porca m8", ["porca m8 zincada"])] H)).
Defined.

End InstancesMore.
